(** * Cart and order consistency of the buyfusion e-commerce backend

    A shallow embedding of the Mongoose models and the services that sit on
    them (cart.model.js, cart.service.js, order.model.js, order.service.js,
    payment.service.js and the payment controller), of the callers around
    them (the order, user and cart controllers, the seller's status update,
    the authorize middleware), followed by the properties of the cart /
    order consistency layer.

    Conventions of the embedding:
    - a JavaScript [Number] that holds an amount, a stock level or a quantity
      is an integer of [Z]; floating-point rounding is not modelled;
    - an ObjectId is the string that [toString()] prints for it, and an id
      in a request is given in that spelling: Mongoose casts the id of a
      query from any valid spelling, whereas the services compare the
      request's string as it is with printed ids, so that a request which
      spells an id otherwise (with upper-case digits, for one) is outside the
      embedding; where a result depends on it, the statement says so;
    - a collection is the list of its documents in natural (insertion) order;
    - an [async] function that reads and writes the database is a function
      from the database to the database and either the error thrown or the
      value returned;
    - storage-layer failures (lost connection, failed commit) are not
      modelled; the logger is dropped. *)

From Stdlib Require Import ZArith Lia.
From stdpp Require Import base decidable option list strings.

Local Open Scope string_scope.
Local Open Scope list_scope.
Local Open Scope Z_scope.

(** ** JavaScript values and errors *)

Definition ObjectId := string.

(** A value found where a number is expected in a request body: an integral
    number, or anything else (a fraction, NaN, a string, null, undefined). *)
Inductive JsValue :=
| JsInt (z : Z)
| JsOther.

Definition Number_isInteger (v : JsValue) : bool :=
  match v with JsInt _ => true | JsOther => false end.

(** [Error] objects; the service classes set [status], a plain [Error] has
    none. *)
Record JsError := mkError { status : option Z; message : string }.

Definition Error (m : string) : JsError := mkError None m.
Definition NotFoundError (m : string) : JsError := mkError (Some 404) m.
Definition BadRequestError (m : string) : JsError := mkError (Some 400) m.
Definition ForbiddenError (m : string) : JsError := mkError (Some 403) m.

(** Truthiness of [error.status]. *)
Definition hasStatus (e : JsError) : bool :=
  match status e with
  | Some s => negb (s =? 0)
  | None => false
  end.

(** ** Documents *)

Module Product.
Record t := mk {
  _id : ObjectId;
  name : string;
  price : Z;
  stock : Z;
  isActive : bool;
  seller : ObjectId;
  isDeleted : bool
}.

(** The filter [{ isActive: true, isDeleted: false }]. *)
Definition live (p : t) : Prop := isActive p = true ∧ isDeleted p = false.
End Product.

Module CartItem.
Record t := mk {
  productId : ObjectId;
  name : string;
  price : Z;
  quantity : Z;
  totalPrice : Z
}.
End CartItem.

Module Cart.
Record t := mk {
  userId : ObjectId;
  items : list CartItem.t;
  totalAmount : Z;
  isDeleted : bool
}.
End Cart.

Module Address.
Record t := mk {
  street : option string;
  city : option string;
  state : option string;
  zip : option string;
  country : option string
}.

(** [{}] *)
Definition empty : t := mk None None None None None.
End Address.

Module OrderLine.
Record t := mk {
  productId : ObjectId;
  quantity : Z;
  price : Z;
  sellerId : ObjectId
}.
End OrderLine.

Module Order.
Record t := mk {
  _id : ObjectId;
  userId : ObjectId;
  products : list OrderLine.t;
  shippingAddress : Address.t;
  billingAddress : Address.t;
  paymentMethod : string;
  razorpayOrderId : option string;
  totalAmount : Z;
  paymentStatus : string;
  status : string;
  isDeleted : bool
}.
End Order.

Module User.
Record t := mk {
  _id : ObjectId;
  email : string
}.
End User.

(** ** The database and the monad of the services *)

Record DB := mkDB {
  products : list Product.t;
  carts : list Cart.t;
  orders : list Order.t;
  users : list User.t
}.

Definition setProducts (ps : list Product.t) (db : DB) : DB :=
  mkDB ps (carts db) (orders db) (users db).
Definition setCarts (cs : list Cart.t) (db : DB) : DB :=
  mkDB (products db) cs (orders db) (users db).
Definition setOrders (os : list Order.t) (db : DB) : DB :=
  mkDB (products db) (carts db) os (users db).

(** A computation reads and writes the database and throws or returns. *)
Definition M (A : Type) : Type := DB → DB * (JsError + A).

Definition throw {A} (e : JsError) : M A := λ db, (db, inl e).
Definition get : M DB := λ db, (db, inr db).
Definition put (db' : DB) : M unit := λ _, (db', inr tt).
Definition liftE {A} (r : JsError + A) : M A := λ db, (db, r).

#[export] Instance M_ret : MRet M := λ A a db, (db, inr a).
#[export] Instance M_bind : MBind M := λ A B k m db,
  match m db with
  | (db', inr a) => k a db'
  | (db', inl e) => (db', inl e)
  end.

(** [session.startTransaction(); try { body; commit } catch (error) { abort;
    throw rethrow(error) }]: a body that throws leaves the database as it was
    when the transaction started. *)
Definition withTransaction {A} (rethrow : JsError → JsError) (body : M A) : M A :=
  λ db, match body db with
        | (db', inr a) => (db', inr a)
        | (_, inl e) => (db, inl (rethrow e))
        end.

(** [throw error.status ? error : fallback] *)
Definition keepTyped (fallback : JsError) (e : JsError) : JsError :=
  if hasStatus e then e else fallback.

(** ** cart.model.js *)

Module CartModel.

(** [items.reduce((sum, item) => sum + item.totalPrice, 0)] *)
Definition sumTotalPrice (items : list CartItem.t) : Z :=
  fold_left (λ sum item, sum + CartItem.totalPrice item) items 0.

(** The validators of CartSchema ([required], [min]); Mongoose's built-in
    validation runs in [save()] before the pre-save hooks.  The second element
    of the [items] array of the schema (the duplicate-product validator) is not
    part of the element type and is never installed. *)
Definition validItem (item : CartItem.t) : Prop :=
  CartItem.name item ≠ "" ∧ 0 ≤ CartItem.price item ∧
  1 ≤ CartItem.quantity item ∧ 0 ≤ CartItem.totalPrice item.

Definition valid (c : Cart.t) : Prop :=
  Forall validItem (Cart.items c) ∧ 0 ≤ Cart.totalAmount c.

Definition validate (c : Cart.t) : JsError + unit :=
  if decide (valid c) then inr tt else inl (Error "Cart validation failed").

(** The loop of the pre-save hook over [this.items]: the first line whose
    product is not among [products], or is short of stock, ends it. *)
Fixpoint reprice (products : list Product.t) (items : list CartItem.t)
  : JsError + list CartItem.t :=
  match items with
  | [] => inr []
  | item :: rest =>
    match list_find (λ p, Product._id p = CartItem.productId item) products with
    | None => inl (Error ("Product " +:+ CartItem.productId item +:+ " not found"))
    | Some (_, product) =>
      if decide (Product.stock product < CartItem.quantity item)
      then inl (Error ("Insufficient stock for product " +:+ Product.name product))
      else
        match reprice products rest with
        | inl e => inl e
        | inr rest' =>
          inr (CartItem.mk (CartItem.productId item) (CartItem.name item)
                 (Product.price product) (CartItem.quantity item)
                 (Product.price product * CartItem.quantity item) :: rest')
        end
    end
  end.

(** [Product.find({ _id: { $in: productIds }, isActive: true, isDeleted: false })] *)
Definition findLiveIn (catalog : list Product.t) (productIds : list ObjectId)
  : list Product.t :=
  filter (λ p, Product._id p ∈ productIds ∧ Product.live p) catalog.

(** [CartSchema.pre('save')] *)
Definition preSave (catalog : list Product.t) (c : Cart.t) : JsError + Cart.t :=
  let productIds := CartItem.productId <$> Cart.items c in
  let products := findLiveIn catalog productIds in
  if decide (length products ≠ length productIds)
  then inl (Error "One or more products are unavailable")
  else
    match reprice products (Cart.items c) with
    | inl e => inl e
    | inr items' =>
      inr (Cart.mk (Cart.userId c) items' (sumTotalPrice items') (Cart.isDeleted c))
    end.

(** A cart document in memory: its position in the collection, which stands
    for its [_id] ([None] for a document made by [new Cart] and not saved
    yet), and its fields. *)
Definition doc : Type := option nat * Cart.t.

(** [cart.save({ session })]: validation, the pre-save hook, then the write;
    returns the saved document. *)
Definition save (d : doc) : M doc :=
  liftE (validate d.2) ;;
  db ← get ;
  c ← liftE (preSave (products db) d.2) ;
  match d.1 with
  | Some i => put (setCarts (<[i := c]> (carts db)) db) ;; mret (Some i, c)
  | None => put (setCarts (carts db ++ [c]) db) ;; mret (Some (length (carts db)), c)
  end.

(** [Product.findOne({ _id: productId, isActive: true, isDeleted: false })],
    for a [productId] in the spelling that the catalog prints. *)
Definition findOneLive (catalog : list Product.t) (productId : ObjectId)
  : option Product.t :=
  snd <$> list_find (λ p, Product._id p = productId ∧ Product.live p) catalog.

(** The branch of [addItem] on [existingItemIndex]: the quantity is added to
    the line of the product and the line is priced again, or a line is
    pushed. *)
Definition mergeItem (items : list CartItem.t) (product : Product.t)
    (productId : ObjectId) (quantity : Z) : list CartItem.t :=
  match list_find (λ item, CartItem.productId item = productId) items with
  | Some (existingItemIndex, item) =>
    let quantity' := CartItem.quantity item + quantity in
    <[existingItemIndex :=
        CartItem.mk (CartItem.productId item) (CartItem.name item)
          (Product.price product) quantity'
          (Product.price product * quantity')]> items
  | None =>
    items ++
    [CartItem.mk productId (Product.name product) (Product.price product)
       quantity (Product.price product * quantity)]
  end.

(** [CartSchema.methods.addItem]; the [name] and [price] arguments are not
    used by the method. *)
Definition addItem (d : doc) (productId : ObjectId) (name : string) (price : Z)
    (quantity : Z) : M doc :=
  db ← get ;
  match findOneLive (products db) productId with
  | None => throw (Error "Product not found or unavailable")
  | Some product =>
    if decide (Product.stock product < quantity)
    then throw (Error ("Insufficient stock for product " +:+ Product.name product))
    else
      let items := mergeItem (Cart.items d.2) product productId quantity in
      save (d.1, Cart.mk (Cart.userId d.2) items (sumTotalPrice items) (Cart.isDeleted d.2))
  end.

End CartModel.

(** ** cart.service.js *)

(** What [.populate('items.productId', fields).lean()] hands out: the cart
    with every [productId] replaced by the referenced product document
    ([None] when there is none any more), restricted to [fields]. *)
Module CartView.
Record item := mkItem {
  productId : option Product.t;
  name : string;
  price : Z;
  quantity : Z;
  totalPrice : Z
}.
Record t := mk {
  userId : ObjectId;
  items : list item;
  totalAmount : Z
}.
End CartView.

Module CartService.
Section WithMongoose.

(** [mongoose.isValidObjectId] *)
Variable isValidObjectId : string → bool.

(** [!Number.isInteger(quantity) || quantity <= 0] *)
Definition invalidQuantity (quantity : JsValue) : bool :=
  negb (Number_isInteger quantity) ||
  match quantity with JsInt z => bool_decide (z ≤ 0) | JsOther => false end.

Definition toNumber (quantity : JsValue) : Z :=
  match quantity with JsInt z => z | JsOther => 0 end.

(** [Cart.findOne({ userId, isDeleted: false })], for a [userId] in the
    spelling that the token carries, which is the printed one. *)
Definition findOneCart (db : DB) (userId : ObjectId) : option (nat * Cart.t) :=
  list_find (λ c, Cart.userId c = userId ∧ Cart.isDeleted c = false) (carts db).

Definition populateItem (catalog : list Product.t) (item : CartItem.t) : CartView.item :=
  CartView.mkItem
    (snd <$> list_find (λ p, Product._id p = CartItem.productId item) catalog)
    (CartItem.name item) (CartItem.price item) (CartItem.quantity item)
    (CartItem.totalPrice item).

Definition populate (catalog : list Product.t) (c : Cart.t) : CartView.t :=
  CartView.mk (Cart.userId c) (populateItem catalog <$> Cart.items c)
    (Cart.totalAmount c).

(** [Cart.findById(cart._id).populate('items.productId', 'name price').lean()] *)
Definition findByIdPopulated (d : CartModel.doc) : M (option CartView.t) :=
  db ← get ;
  mret (match d.1 with
        | Some i => populate (products db) <$> carts db !! i
        | None => None
        end).

Definition addItemToCart (userId productId : string) (quantity : JsValue)
    (authUserId : string) : M (option CartView.t) :=
  if negb (isValidObjectId userId) || negb (isValidObjectId productId)
  then throw (BadRequestError "Invalid user or product ID")
  else if invalidQuantity quantity
  then throw (BadRequestError "Quantity must be a positive integer")
  else if decide (userId ≠ authUserId)
  then throw (ForbiddenError "Unauthorized to modify this cart")
  else
    let quantity := toNumber quantity in
    withTransaction (keepTyped (BadRequestError "Failed to add item to cart"))
      (db ← get ;
       match CartModel.findOneLive (products db) productId with
       | None => throw (NotFoundError "Product not found or unavailable")
       | Some product =>
         if decide (Product.stock product < quantity)
         then throw (BadRequestError
                       ("Insufficient stock for product " +:+ Product.name product))
         else
           let cart : CartModel.doc :=
             match findOneCart db userId with
             | Some (i, c) => (Some i, c)
             | None => (None, Cart.mk userId [] 0 false)
             end in
           cart ← CartModel.addItem cart productId (Product.name product)
                    (Product.price product) quantity ;
           findByIdPopulated cart
       end).

Definition removeItemFromCart (userId productId authUserId : string)
  : M (option CartView.t) :=
  if negb (isValidObjectId userId) || negb (isValidObjectId productId)
  then throw (BadRequestError "Invalid user or product ID")
  else if decide (userId ≠ authUserId)
  then throw (ForbiddenError "Unauthorized to modify this cart")
  else
    withTransaction (keepTyped (BadRequestError "Failed to remove item from cart"))
      (db ← get ;
       match findOneCart db userId with
       | None => throw (NotFoundError "Cart not found")
       | Some (i, cart) =>
         match list_find (λ item, CartItem.productId item = productId) (Cart.items cart) with
         | None => throw (NotFoundError "Item not found in cart")
         | Some (itemIndex, _) =>
           let items := delete itemIndex (Cart.items cart) in
           cart ← CartModel.save
                    (Some i, Cart.mk (Cart.userId cart) items
                               (CartModel.sumTotalPrice items) (Cart.isDeleted cart)) ;
           findByIdPopulated cart
         end
       end).

Definition updateCartItemQuantity (userId productId : string) (quantity : JsValue)
    (authUserId : string) : M (option CartView.t) :=
  if negb (isValidObjectId userId) || negb (isValidObjectId productId)
  then throw (BadRequestError "Invalid user or product ID")
  else if invalidQuantity quantity
  then throw (BadRequestError "Quantity must be a positive integer")
  else if decide (userId ≠ authUserId)
  then throw (ForbiddenError "Unauthorized to modify this cart")
  else
    let quantity := toNumber quantity in
    withTransaction (keepTyped (BadRequestError "Failed to update item quantity"))
      (db ← get ;
       match CartModel.findOneLive (products db) productId with
       | None => throw (NotFoundError "Product not found or unavailable")
       | Some product =>
         if decide (Product.stock product < quantity)
         then throw (BadRequestError
                       ("Insufficient stock for product " +:+ Product.name product))
         else
           match findOneCart db userId with
           | None => throw (NotFoundError "Cart not found")
           | Some (i, cart) =>
             match list_find (λ item, CartItem.productId item = productId)
                     (Cart.items cart) with
             | None => throw (NotFoundError "Item not found in cart")
             | Some (itemIndex, item) =>
               let items :=
                 <[itemIndex :=
                     CartItem.mk (CartItem.productId item) (CartItem.name item)
                       (Product.price product) quantity
                       (Product.price product * quantity)]> (Cart.items cart) in
               cart ← CartModel.save
                        (Some i, Cart.mk (Cart.userId cart) items
                                   (CartModel.sumTotalPrice items) (Cart.isDeleted cart)) ;
               findByIdPopulated cart
             end
           end
       end).

Definition clearCart (userId authUserId : string) : M string :=
  if negb (isValidObjectId userId)
  then throw (BadRequestError "Invalid user ID")
  else if decide (userId ≠ authUserId)
  then throw (ForbiddenError "Unauthorized to clear this cart")
  else
    withTransaction (keepTyped (BadRequestError "Failed to clear cart"))
      (db ← get ;
       match findOneCart db userId with
       | None => throw (NotFoundError "Cart not found")
       | Some (i, cart) =>
         CartModel.save (Some i, Cart.mk (Cart.userId cart) [] 0 true) ;;
         mret "Cart cleared successfully"
       end).

(** The filter of [getUserCart]:
    [item.productId?.isActive && !item.productId?.isDeleted &&
     item.productId?.stock >= item.quantity] *)
Definition available (item : CartView.item) : bool :=
  match CartView.productId item with
  | Some p =>
    Product.isActive p && negb (Product.isDeleted p) &&
    bool_decide (CartView.quantity item ≤ Product.stock p)
  | None => false
  end.

Definition getUserCart (userId authUserId : string) : M CartView.t :=
  if negb (isValidObjectId userId)
  then throw (BadRequestError "Invalid user ID")
  else if decide (userId ≠ authUserId)
  then throw (ForbiddenError "Unauthorized to view this cart")
  else
    db ← get ;
    match findOneCart db userId with
    | None => mret (CartView.mk userId [] 0)
    | Some (_, cart) =>
      let items :=
        List.filter available (CartView.items (populate (products db) cart)) in
      mret (CartView.mk (Cart.userId cart) items
              (fold_left (λ total item, total + CartView.totalPrice item) items 0))
    end.

End WithMongoose.
End CartService.

(** ** order.model.js *)

Module OrderModel.

Definition paymentMethods : list string := ["razorpay"; "paypal"; "stripe"; "cod"].
Definition paymentStatuses : list string := ["pending"; "completed"; "failed"].
Definition statuses : list string := ["pending"; "shipped"; "delivered"; "cancelled"].

(** The validators of orderSchema ([min], [enum]); they run in [save()]
    before the pre-save hook, and not in [findOneAndUpdate]. *)
Definition validLine (l : OrderLine.t) : Prop :=
  1 ≤ OrderLine.quantity l ∧ 0 ≤ OrderLine.price l.

Definition valid (o : Order.t) : Prop :=
  Forall validLine (Order.products o) ∧
  Order.paymentMethod o ∈ paymentMethods ∧
  0 ≤ Order.totalAmount o ∧
  Order.paymentStatus o ∈ paymentStatuses ∧
  Order.status o ∈ statuses.

Definition validate (o : Order.t) : JsError + unit :=
  if decide (valid o) then inr tt else inl (Error "Order validation failed").

(** [products.reduce((sum, item) => sum + (item.price * item.quantity), 0)] *)
Definition sumLines (products : list OrderLine.t) : Z :=
  fold_left (λ sum item, sum + OrderLine.price item * OrderLine.quantity item) products 0.

(** [Object.keys(address)] for a nested path of a document: Mongoose answers
    with the five keys that the schema declares for the path, whether or not
    a value was given for them. *)
Definition keys (a : Address.t) : list string :=
  ["street"; "city"; "state"; "zip"; "country"].

(** [Object.keys(address).length > 0] *)
Definition hasKeys (a : Address.t) : bool :=
  bool_decide (0 < length (keys a))%nat.

(** [!field]: absent, or the empty string. *)
Definition falsy (field : option string) : bool :=
  match field with
  | None => true
  | Some s => bool_decide (s = "")
  end.

Definition incomplete (a : Address.t) : bool :=
  falsy (Address.street a) || falsy (Address.city a) || falsy (Address.country a).

(** [orderSchema.pre('save')] *)
Definition preSave (o : Order.t) : JsError + Order.t :=
  let o' :=
    Order.mk (Order._id o) (Order.userId o) (Order.products o)
      (Order.shippingAddress o) (Order.billingAddress o) (Order.paymentMethod o)
      (Order.razorpayOrderId o) (sumLines (Order.products o))
      (Order.paymentStatus o) (Order.status o) (Order.isDeleted o) in
  if hasKeys (Order.shippingAddress o) && incomplete (Order.shippingAddress o)
  then inl (Error "All shipping address fields are required if any are provided")
  else if hasKeys (Order.billingAddress o) && incomplete (Order.billingAddress o)
  then inl (Error "All billing address fields are required if any are provided")
  else inr o'.

(** [order.save()] of a document made by [new Order]: validation, the
    pre-save hook, then the insert, which the unique index on [_id] refuses
    for an [_id] already in the collection. *)
Definition save (o : Order.t) : M Order.t :=
  liftE (validate o) ;;
  o' ← liftE (preSave o) ;
  db ← get ;
  if decide (Order._id o' ∈ Order._id <$> orders db)
  then throw (Error "E11000 duplicate key error")
  else put (setOrders (orders db ++ [o']) db) ;; mret o'.

(** [Order.findOneAndUpdate(filter, update, { new: true })]: the first
    document that matches is updated, without validation, and returned. *)
Definition findOneAndUpdate (filter : Order.t → Prop) `{!∀ o, Decision (filter o)}
    (update : Order.t → Order.t) : M (option Order.t) :=
  db ← get ;
  match list_find filter (orders db) with
  | None => mret None
  | Some (i, o) =>
    put (setOrders (<[i := update o]> (orders db)) db) ;; mret (Some (update o))
  end.

Definition setStatus (status : string) (o : Order.t) : Order.t :=
  Order.mk (Order._id o) (Order.userId o) (Order.products o)
    (Order.shippingAddress o) (Order.billingAddress o) (Order.paymentMethod o)
    (Order.razorpayOrderId o) (Order.totalAmount o)
    (Order.paymentStatus o) status (Order.isDeleted o).

Definition setPaymentStatus (paymentStatus : string) (o : Order.t) : Order.t :=
  Order.mk (Order._id o) (Order.userId o) (Order.products o)
    (Order.shippingAddress o) (Order.billingAddress o) (Order.paymentMethod o)
    (Order.razorpayOrderId o) (Order.totalAmount o)
    paymentStatus (Order.status o) (Order.isDeleted o).

Definition setIsDeleted (isDeleted : bool) (o : Order.t) : Order.t :=
  Order.mk (Order._id o) (Order.userId o) (Order.products o)
    (Order.shippingAddress o) (Order.billingAddress o) (Order.paymentMethod o)
    (Order.razorpayOrderId o) (Order.totalAmount o)
    (Order.paymentStatus o) (Order.status o) isDeleted.

(** [order.save()] of a document that was read from position [i] of the
    collection: validation, the pre-save hook, then the update in place. *)
Definition saveExisting (i : nat) (o : Order.t) : M Order.t :=
  liftE (validate o) ;;
  o' ← liftE (preSave o) ;
  db ← get ;
  put (setOrders (<[i := o']> (orders db)) db) ;; mret o'.

(** [orderSchema.methods.updateStatus] *)
Definition updateStatus (i : nat) (o : Order.t) (newStatus : string) : M Order.t :=
  if decide (newStatus ∈ statuses)
  then saveExisting i (setStatus newStatus o)
  else throw (Error "Invalid order status").

End OrderModel.

(** [User.findById(id)] *)
Definition findUserById (db : DB) (id : ObjectId) : option User.t :=
  snd <$> list_find (λ u, User._id u = id) (users db).

(** [Product.findById(id)] *)
Definition findProductById (db : DB) (id : ObjectId) : option Product.t :=
  snd <$> list_find (λ p, Product._id p = id) (products db).

(** ** order.service.js *)

Module LineRequest.
Record t := mk {
  productId : string;
  quantity : JsValue
}.
End LineRequest.

(** What [.populate('products.productId', 'name price')
    .populate('products.sellerId', 'name').lean()] hands out; the fields of
    the order that are not listed are copied as they are stored. *)
Module OrderView.
Record line := mkLine {
  productId : option Product.t;
  quantity : Z;
  price : Z;
  sellerId : option User.t
}.
Record t := mk {
  _id : ObjectId;
  userId : ObjectId;
  products : list line;
  totalAmount : Z;
  paymentStatus : string;
  status : string
}.
End OrderView.

Module OrderService.
Section WithServices.

(** [mongoose.isValidObjectId] *)
Variable isValidObjectId : string → bool.

(** The value of the expression [product.sellerId] on a document of the
    Product model, [None] for [undefined].  productSchema declares the path
    [seller] and no path [sellerId]: a document hydrated under that schema
    answers [undefined], which is [strictSellerId] below; [declaredSeller]
    reads the path that the schema does declare. *)
Variable sellerIdOf : Product.t → option ObjectId.

(** [sendEmail(to, subject, html)] of emailService: [None] when the promise
    resolves, [Some e] when it rejects with [e]. *)
Variable sendEmail : string → string → option JsError.

(** [!Number.isInteger(item.quantity) || item.quantity < 1] *)
Definition invalidQuantity (quantity : JsValue) : bool :=
  negb (Number_isInteger quantity) ||
  match quantity with JsInt z => bool_decide (z < 1) | JsOther => false end.

(** The loop of [createOrder] over the requested lines, with its two
    accumulators. *)
Fixpoint collect (db : DB) (items : list LineRequest.t) (totalAmount : Z)
    (productDetails : list OrderLine.t) : JsError + (Z * list OrderLine.t) :=
  match items with
  | [] => inr (totalAmount, productDetails)
  | item :: rest =>
    let productId := LineRequest.productId item in
    if negb (isValidObjectId productId)
    then inl (BadRequestError ("Invalid product ID: " +:+ productId))
    else if invalidQuantity (LineRequest.quantity item)
    then inl (BadRequestError ("Invalid quantity for product " +:+ productId))
    else
      let quantity := CartService.toNumber (LineRequest.quantity item) in
      match findProductById db productId with
      | None => inl (NotFoundError ("Product with ID " +:+ productId +:+ " not found"))
      | Some product =>
        match sellerIdOf product with
        | None => inl (BadRequestError ("Product " +:+ productId +:+ " has no seller"))
        | Some sellerId =>
          let productPrice := Product.price product * quantity in
          collect db rest (totalAmount + productPrice)
            (productDetails ++
             [OrderLine.mk (Product._id product) quantity (Product.price product) sellerId])
        end
      end
  end.

(** [createOrder]; [_id] is the ObjectId that [new Order] draws for the
    document. *)
Definition createOrder (_id : ObjectId) (userId : string)
    (products : list LineRequest.t) (shippingAddress billingAddress : option Address.t)
    (paymentMethod : option string) : M Order.t :=
  if negb (isValidObjectId userId)
  then throw (BadRequestError "Invalid user ID")
  else if bool_decide (length products = 0%nat)
  then throw (BadRequestError "Products array is required and cannot be empty")
  else
    withTransaction
      (λ error, keepTyped (Error ("Error creating order: " +:+ message error)) error)
      (db ← get ;
       '(totalAmount, productDetails) ← liftE (collect db products 0 []) ;
       newOrder ← OrderModel.save
                    (Order.mk _id userId productDetails
                       (default Address.empty shippingAddress)
                       (default Address.empty billingAddress)
                       (default "razorpay" paymentMethod)
                       None totalAmount "pending" "pending" false) ;
       (* Send order confirmation email *)
       db ← get ;
       match findUserById db userId with
       | Some user =>
         if bool_decide (User.email user ≠ "")
         then
           match sendEmail (User.email user) "Order Confirmation" with
           | Some e => throw e
           | None => mret tt
           end
         else mret tt
       | None => mret tt
       end ;;
       (* session.commitTransaction() *)
       mret newOrder).

Definition populateLine (db : DB) (l : OrderLine.t) : OrderView.line :=
  OrderView.mkLine (findProductById db (OrderLine.productId l))
    (OrderLine.quantity l) (OrderLine.price l)
    (findUserById db (OrderLine.sellerId l)).

Definition populate (db : DB) (o : Order.t) : OrderView.t :=
  OrderView.mk (Order._id o) (Order.userId o)
    (populateLine db <$> Order.products o)
    (Order.totalAmount o) (Order.paymentStatus o) (Order.status o).

(** [getUserOrders(userId, { page, limit })]: MongoDB refuses a negative
    [skip], reads [limit(0)] as no limit and a negative limit as its absolute
    value. *)
Definition getUserOrders (userId : string) (page limit : Z) : M (list OrderView.t) :=
  if negb (isValidObjectId userId)
  then throw (BadRequestError "Invalid user ID")
  else
    db ← get ;
    let found :=
      filter (λ o, Order.userId o = userId ∧ Order.isDeleted o = false) (orders db) in
    let skip := (page - 1) * limit in
    if decide (skip < 0)
    then throw (Error "Error fetching user orders: Skip value must be non-negative")
    else
      let skipped := drop (Z.to_nat skip) found in
      let limited :=
        if decide (limit = 0) then skipped else take (Z.to_nat (Z.abs limit)) skipped in
      mret (populate db <$> limited).

Definition getOrderDetails (userId orderId : string) : M OrderView.t :=
  if negb (isValidObjectId userId) || negb (isValidObjectId orderId)
  then throw (BadRequestError "Invalid user or order ID")
  else
    db ← get ;
    match list_find (λ o, Order._id o = orderId ∧ Order.userId o = userId ∧
                          Order.isDeleted o = false) (orders db) with
    | None => throw (NotFoundError "Order not found")
    | Some (_, order) => mret (populate db order)
    end.

(** [updateOrderStatus]: [findByIdAndUpdate] looks at every order, deleted
    or not; its update validator has nothing left to refuse once the status
    has passed the test above. *)
Definition updateOrderStatus (orderId status : string) : M Order.t :=
  if negb (isValidObjectId orderId)
  then throw (BadRequestError "Invalid order ID")
  else if decide (status ∉ OrderModel.statuses)
  then throw (BadRequestError "Invalid order status")
  else
    order ← OrderModel.findOneAndUpdate (λ o, Order._id o = orderId)
              (OrderModel.setStatus status) ;
    match order with
    | None => throw (NotFoundError "Order not found")
    | Some order => mret order
    end.

(** [deleteOrder] *)
Definition deleteOrder (orderId : string) : M Order.t :=
  if negb (isValidObjectId orderId)
  then throw (BadRequestError "Invalid order ID")
  else
    order ← OrderModel.findOneAndUpdate (λ o, Order._id o = orderId)
              (OrderModel.setIsDeleted true) ;
    match order with
    | None => throw (NotFoundError "Order not found")
    | Some order => mret order
    end.

End WithServices.

(** The two readings of [product.sellerId]. *)
Definition strictSellerId (p : Product.t) : option ObjectId := None.
Definition declaredSeller (p : Product.t) : option ObjectId := Some (Product.seller p).

End OrderService.

(** ** payment.service.js and the payment controller *)

Module PaymentService.
Section WithCrypto.

(** [crypto.createHmac('sha256', key).update(data).digest('hex')] *)
Variable hmacSha256Hex : string → string → string.
(** [process.env.RAZORPAY_KEY_SECRET] *)
Variable keySecret : string.

(** A field of the request body: a string, or [None] when the body does
    not carry the field ([undefined]).  [text] is what [+] makes of it in a
    string concatenation. *)
Definition text (field : option string) : string := default "undefined" field.

Definition verifyPayment (razorpayOrderId razorpayPaymentId razorpaySignature : option string)
  : bool :=
  let generatedSignature :=
    hmacSha256Hex keySecret (text razorpayOrderId +:+ "|" +:+ text razorpayPaymentId) in
  bool_decide (Some generatedSignature = razorpaySignature).

End WithCrypto.

(** The filter [{ razorpayOrderId }]: for a body without the field it is
    [{ razorpayOrderId: undefined }], which matches the orders that have no
    Razorpay order id. *)
Definition updatePaymentStatus (razorpayOrderId : option string) (status : string)
  : M (option Order.t) :=
  OrderModel.findOneAndUpdate (λ o, Order.razorpayOrderId o = razorpayOrderId)
    (OrderModel.setPaymentStatus status).

End PaymentService.

Module PaymentController.
Section WithServices.

Variable hmacSha256Hex : string → string → string.
Variable keySecret : string.
Variable sendEmail : string → string → option JsError.

(** [res.status(code).json({ message })]; the outer [catch], which answers
    500, is not reached: nothing in the body throws once storage failures are
    left out. *)
Definition Response : Type := Z * string.

(** [try { ... } catch (emailError) { console.error(...) }] around
    [sendEmail]: a rejection is logged and dropped. *)
Definition trySendEmail (to subject : string) : M unit :=
  match sendEmail to subject with
  | Some _ => mret tt
  | None => mret tt
  end.

Definition verifyPayment (razorpayOrderId razorpayPaymentId razorpaySignature : option string)
  : M Response :=
  let isVerified :=
    PaymentService.verifyPayment hmacSha256Hex keySecret
      razorpayOrderId razorpayPaymentId razorpaySignature in
  if isVerified then
    PaymentService.updatePaymentStatus razorpayOrderId "completed" ;;
    updatedOrder ← OrderModel.findOneAndUpdate
                     (λ o, Order.razorpayOrderId o = razorpayOrderId)
                     (OrderModel.setStatus "shipped") ;
    match updatedOrder with
    | None => mret (404, "Order not found for updating status.")
    | Some updatedOrder =>
      db ← get ;
      match findUserById db (Order.userId updatedOrder) with
      | Some user =>
        if bool_decide (User.email user ≠ "")
        then trySendEmail (User.email user) "Payment Confirmation"
        else mret tt
      | None => mret tt
      end ;;
      mret (200, "Payment successful")
    end
  else
    PaymentService.updatePaymentStatus razorpayOrderId "failed" ;;
    updatedOrder ← OrderModel.findOneAndUpdate
                     (λ o, Order.razorpayOrderId o = razorpayOrderId)
                     (OrderModel.setStatus "failed") ;
    match updatedOrder with
    | None => mret (404, "Order not found for updating status.")
    | Some _ => mret (400, "Payment verification failed")
    end.

End WithServices.
End PaymentController.

(** ** order.controller.js *)

Module OrderController.
Section WithServices.

Variable isValidObjectId : string → bool.
Variable sellerIdOf : Product.t → option ObjectId.
Variable sendEmail : string → string → option JsError.

(** [res.status(code).json(body)]: the code, and the message with the order
    or the error message. *)
Inductive Body :=
| Done (message : string) (order : Order.t)
| Failed (error : string).

Definition Response : Type := Z * Body.

(** [error.status || 500] *)
Definition statusOr500 (error : JsError) : Z :=
  match status error with
  | Some s => if s =? 0 then 500 else s
  | None => 500
  end.

(** [try { ...; res.status(code).json({ message, order }) }
     catch (error) { res.status(error.status || 500).json({ error: error.message }) }] *)
Definition respond (code : Z) (text : string) (call : M Order.t) : M Response :=
  λ db, match call db with
        | (db', inr order) => (db', inr (code, Done text order))
        | (db', inl error) => (db', inr (statusOr500 error, Failed (message error)))
        end.

(** [_id] is the ObjectId that [new Order] draws in the service. *)
Definition createOrder (_id : ObjectId) (userId : string)
    (products : list LineRequest.t) (shippingAddress billingAddress : option Address.t)
    (paymentMethod : option string) : M Response :=
  respond 201 "Order created successfully"
    (OrderService.createOrder isValidObjectId sellerIdOf sendEmail _id userId products
       shippingAddress billingAddress paymentMethod).

Definition updateOrderStatus (orderId status : string) : M Response :=
  respond 200 "Order status updated"
    (OrderService.updateOrderStatus isValidObjectId orderId status).

Definition deleteOrder (orderId : string) : M Response :=
  respond 200 "Order deleted successfully"
    (OrderService.deleteOrder isValidObjectId orderId).

End WithServices.
End OrderController.

(** ** seller.service.js: the seller's way to set the status of an order *)

Module SellerService.
Section WithMongoose.

Variable isValidObjectId : string → bool.

(** The message of the CastError with which Mongoose rejects a query whose
    value for an ObjectId path (second argument) is no ObjectId. *)
Variable castErrorMessage : string → string → string.

(** ['products.sellerId': sellerId]: some line of the order is the seller's. *)
Definition sells (sellerId : ObjectId) (o : Order.t) : Prop :=
  Exists (λ l, OrderLine.sellerId l = sellerId) (Order.products o).

(** [try { ... } catch (error) { throw new Error(error.message) }] *)
Definition rethrowPlain {A} (body : M A) : M A :=
  λ db, match body db with
        | (db', inr a) => (db', inr a)
        | (db', inl error) => (db', inl (Error (message error)))
        end.

(** [updateOrderStatus]: the order is read with [findOne], its status is
    assigned and the document is saved, with validation and the pre-save
    hook. *)
Definition updateOrderStatus (orderId status sellerId : string) : M Order.t :=
  rethrowPlain
    (if negb (isValidObjectId orderId)
     then throw (Error (castErrorMessage orderId "_id"))
     else if negb (isValidObjectId sellerId)
     then throw (Error (castErrorMessage sellerId "products.sellerId"))
     else
       db ← get ;
       match list_find (λ o, Order._id o = orderId ∧ sells sellerId o) (orders db) with
       | None => throw (Error "Order not found")
       | Some (i, order) => OrderModel.saveExisting i (OrderModel.setStatus status order)
       end).

End WithMongoose.
End SellerService.

(** ** user.controller.js and user.service.js: the order history *)

Module UserService.
Section WithServices.

Variable isValidObjectId : string → bool.

(** [getUserOrders] and [getOrderById] hand over to the order service. *)
Definition getUserOrders (userId : string) (page limit : Z) : M (list OrderView.t) :=
  OrderService.getUserOrders isValidObjectId userId page limit.

Definition getOrderById (userId orderId : string) : M OrderView.t :=
  OrderService.getOrderDetails isValidObjectId userId orderId.

End WithServices.
End UserService.

Module UserController.
Section WithServices.

Variable isValidObjectId : string → bool.

Inductive Body :=
| Orders (orders : list OrderView.t)
| OneOrder (order : OrderView.t)
| Failed (error : string).

Definition Response : Type := Z * Body.

(** [parseInt(text) || fallback]; [parsed] is what [parseInt] makes of the
    query parameter, [None] for [NaN]. *)
Definition orElse (parsed : option Z) (fallback : Z) : Z :=
  match parsed with
  | Some z => if z =? 0 then fallback else z
  | None => fallback
  end.

(** [getOrderHistory]; [userId] is [req.user.id]. *)
Definition getOrderHistory (userId : string) (page limit : option Z) : M Response :=
  λ db, match UserService.getUserOrders isValidObjectId userId
                (orElse page 1) (orElse limit 10) db with
        | (db', inr orders) => (db', inr (200, Orders orders))
        | (db', inl error) =>
          (db', inr (OrderController.statusOr500 error, Failed (message error)))
        end.

(** [getOrderById]; [userId] is [req.user.id], [orderId] is [req.params.id]. *)
Definition getOrderById (userId orderId : string) : M Response :=
  λ db, match UserService.getOrderById isValidObjectId userId orderId db with
        | (db', inr order) => (db', inr (200, OneOrder order))
        | (db', inl error) =>
          (db', inr (OrderController.statusOr500 error, Failed (message error)))
        end.

End WithServices.
End UserController.

(** ** cart.controller.js *)

Module CartController.
Section WithJoi.

Variable isValidObjectId : string → bool.

(** [schema.validate(...)]: the message of the first error,
    [error.details[0].message], or [None] when the value passes; for
    [cartItemSchema] on a body with [productId] and [quantity], for the
    schema of the body of a removal, and for the schema of the [userId]
    parameter. *)
Variable cartItemSchema : string → JsValue → option string.
Variable productIdSchema : string → option string.
Variable userIdSchema : string → option string.

Inductive Body :=
| OfCart (cart : option CartView.t)
| Message (message : string).

Definition Response : Type := Z * Body.

(** [res.status(error.status || 500).json({ message: error.message || fallback })] *)
Definition failure (fallback : string) (error : JsError) : Response :=
  (OrderController.statusOr500 error,
   Message (if bool_decide (message error = "") then fallback else message error)).

Definition answer {A} (fallback : string) (body : A → Body) (call : M A) : M Response :=
  λ db, match call db with
        | (db', inr a) => (db', inr (200, body a))
        | (db', inl error) => (db', inr (failure fallback error))
        end.

(** In the four controllers that change the cart, [userId] is [req.user.id],
    which is handed to the service twice. *)
Definition addItemToCartController (userId productId : string) (quantity : JsValue)
  : M Response :=
  match cartItemSchema productId quantity with
  | Some message => mret (400, Message message)
  | None =>
    answer "Failed to add item to cart" OfCart
      (CartService.addItemToCart isValidObjectId userId productId quantity userId)
  end.

Definition removeItemFromCartController (userId productId : string) : M Response :=
  match productIdSchema productId with
  | Some message => mret (400, Message message)
  | None =>
    answer "Failed to remove item from cart" OfCart
      (CartService.removeItemFromCart isValidObjectId userId productId userId)
  end.

Definition updateCartItemQuantityController (userId productId : string)
    (quantity : JsValue) : M Response :=
  match cartItemSchema productId quantity with
  | Some message => mret (400, Message message)
  | None =>
    answer "Failed to update cart item quantity" OfCart
      (CartService.updateCartItemQuantity isValidObjectId userId productId quantity userId)
  end.

Definition clearCartController (userId : string) : M Response :=
  answer "Failed to clear cart" (λ _ : string, Message "Cart cleared successfully")
    (CartService.clearCart isValidObjectId userId userId).

(** [paramUserId] is [req.params.userId], [userId] is [req.user.id]. *)
Definition getUserCartController (paramUserId userId : string) : M Response :=
  match userIdSchema paramUserId with
  | Some message => mret (400, Message message)
  | None =>
    answer "Failed to retrieve cart" (λ cart, OfCart (Some cart))
      (CartService.getUserCart isValidObjectId paramUserId userId)
  end.

End WithJoi.
End CartController.

(** ** The authorize middleware: permissions carried by the token *)

Module Authorize.

(** [req.user], as the token describes the user; [permissions] is [None]
    when the token carries none. *)
Record TokenUser := mkUser {
  id : string;
  permissions : option (list string);
  roleId : string
}.

(** [next()], or the response sent instead. *)
Inductive Outcome :=
| Next
| Rejected (code : Z) (error : string).

Section WithRoles.

Variable isValidObjectId : string → bool.

(** What the middleware does for a token without permissions, from the
    comment [Fallback: Fetch role from database] on. *)
Variable roleFallback : TokenUser → list string → bool → Outcome.

(** [list.includes(perm)] *)
Definition includes (perm : string) (list : list string) : bool :=
  bool_decide (perm ∈ list).

(** [requireAll ? permissions.every(...) : permissions.some(...)] *)
Definition hasAccess (requireAll : bool) (permissions actual : list string) : bool :=
  if requireAll
  then forallb (λ perm, includes perm actual) permissions
  else existsb (λ perm, includes perm actual) permissions.

(** [permissions.join(', ')] *)
Fixpoint join (l : list string) : string :=
  match l with
  | [] => ""
  | [s] => s
  | s :: rest => s +:+ ", " +:+ join rest
  end.

(** [authorize(requiredPermissions, { requireAll })(req, res, next)] for an
    array of required permissions. *)
Definition authorize (requiredPermissions : list string) (requireAll : bool)
    (user : option TokenUser) : Outcome :=
  match user with
  | None => Rejected 401 "Unauthorized: Invalid user information"
  | Some user =>
    if negb (isValidObjectId (id user))
    then Rejected 401 "Unauthorized: Invalid user information"
    else
      match permissions user with
      | Some actual =>
        if includes "*" actual then Next
        else if negb (hasAccess requireAll requiredPermissions actual)
        then Rejected 403 ("Forbidden: Insufficient permissions. Required: " +:+
                           join requiredPermissions)
        else Next
      | None => roleFallback user requiredPermissions requireAll
      end
  end.

End WithRoles.
End Authorize.

(** ** The operations on a user's cart, as the controller calls them *)

Inductive CartOp :=
| AddItem (productId : string) (quantity : JsValue)
| UpdateQuantity (productId : string) (quantity : JsValue)
| RemoveItem (productId : string)
| Clear
| View.

(** An operation run for its effect; what it returns is dropped. *)
Definition runOp (isValidObjectId : string → bool) (userId authUserId : string)
    (op : CartOp) : M unit :=
  match op with
  | AddItem productId quantity =>
    CartService.addItemToCart isValidObjectId userId productId quantity authUserId ;;
    mret tt
  | UpdateQuantity productId quantity =>
    CartService.updateCartItemQuantity isValidObjectId userId productId quantity authUserId ;;
    mret tt
  | RemoveItem productId =>
    CartService.removeItemFromCart isValidObjectId userId productId authUserId ;;
    mret tt
  | Clear => CartService.clearCart isValidObjectId userId authUserId ;; mret tt
  | View => CartService.getUserCart isValidObjectId userId authUserId ;; mret tt
  end.

(** The operations that the specification calls cart mutations. *)
Definition isMutation (op : CartOp) : bool :=
  match op with
  | AddItem _ _ | UpdateQuantity _ _ | RemoveItem _ => true
  | Clear | View => false
  end.

(** * Vocabulary of the properties *)

(** The catalog holds at most one product per [_id]. *)
Definition uniqueIds (catalog : list Product.t) : Prop :=
  NoDup (Product._id <$> catalog).

(** No two lines of the cart are for the same product. *)
Definition distinctLines (c : Cart.t) : Prop :=
  NoDup (CartItem.productId <$> Cart.items c).

(** A line that the catalog does not cover: its product is missing, inactive
    or soft-deleted, or has less stock than the line's quantity. *)
Definition lineBad (catalog : list Product.t) (item : CartItem.t) : Prop :=
  match CartModel.findOneLive catalog (CartItem.productId item) with
  | None => True
  | Some p => Product.stock p < CartItem.quantity item
  end.

(** A line that the catalog covers. *)
Definition lineOk (catalog : list Product.t) (item : CartItem.t) : Prop :=
  ∃ p, CartModel.findOneLive catalog (CartItem.productId item) = Some p ∧
       CartItem.quantity item ≤ Product.stock p.

(** A line that carries the catalog's price of its product, within stock. *)
Definition linePriced (catalog : list Product.t) (item : CartItem.t) : Prop :=
  ∃ p, CartModel.findOneLive catalog (CartItem.productId item) = Some p ∧
       CartItem.quantity item ≤ Product.stock p ∧
       CartItem.price item = Product.price p ∧
       CartItem.totalPrice item = CartItem.price item * CartItem.quantity item.

(** The invariant of a stored cart. *)
Definition cartPriced (catalog : list Product.t) (c : Cart.t) : Prop :=
  Forall (linePriced catalog) (Cart.items c) ∧
  Cart.totalAmount c =
    foldr (λ item acc, CartItem.totalPrice item + acc) 0 (Cart.items c).

(** What the pre-save hook keeps of a line. *)
Definition sameLine (item item' : CartItem.t) : Prop :=
  CartItem.productId item' = CartItem.productId item ∧
  CartItem.name item' = CartItem.name item ∧
  CartItem.quantity item' = CartItem.quantity item.

(** The document that [findOne] returned, or the one that [new Cart] made. *)
Definition docOf (db : DB) (userId : ObjectId) : CartModel.doc :=
  match CartService.findOneCart db userId with
  | Some (i, c) => (Some i, c)
  | None => (None, Cart.mk userId [] 0 false)
  end.

(** The line of a cart for a product: the one that [findIndex] finds. *)
Definition lineOf (c : Cart.t) (productId : ObjectId) : option CartItem.t :=
  snd <$> list_find (λ item, CartItem.productId item = productId) (Cart.items c).

(** The quantity that the user's live cart holds of a product, 0 when there
    is no live cart or no line for the product. *)
Definition priorQuantity (db : DB) (userId productId : ObjectId) : Z :=
  match lineOf (docOf db userId).2 productId with
  | Some line => CartItem.quantity line
  | None => 0
  end.

(** Every stored cart has distinct lines. *)
Definition cartsDistinct (db : DB) : Prop := Forall distinctLines (carts db).

(** The request spells the id of a product as the catalog prints it.
    Mongoose casts the id of a query from any valid spelling (with upper-case
    digits, for one), whereas the services compare the string of the request,
    as it is, with the printed ids of the lines of the cart. *)
Definition spelledAsStored (db : DB) (productId : string) : Prop :=
  productId ∈ Product._id <$> products db.

(** ** Two sentences as the specification words them *)

(** "For an existing, active product, addItem succeeds whenever the
    (cumulative) quantity is within stock." *)
Definition spec_addItem_succeeds_within_stock (isValidObjectId : string → bool)
    (db : DB) (userId productId : ObjectId) (quantity : Z) : Prop :=
  ∀ p, CartModel.findOneLive (products db) productId = Some p →
       priorQuantity db userId productId + quantity ≤ Product.stock p →
       ∃ r, (CartService.addItemToCart isValidObjectId userId productId
               (JsInt quantity) userId db).2 = inr r.

(** "updateQuantity fails with NotFound when the live cart is missing." *)
Definition spec_updateQuantity_without_cart_is_NotFound
    (isValidObjectId : string → bool) (db : DB) (userId productId : ObjectId)
    (quantity : Z) : Prop :=
  CartService.findOneCart db userId = None →
  ∃ m, (CartService.updateCartItemQuantity isValidObjectId userId productId
          (JsInt quantity) userId db).2 = inl (NotFoundError m).

(** What an order view shows of the frozen order: its id, its total and the
    unit price and quantity of each line. *)
Definition frozen (v : OrderView.t) : ObjectId * Z * list (Z * Z) :=
  (OrderView._id v, OrderView.totalAmount v,
   (λ l, (OrderView.price l, OrderView.quantity l)) <$> OrderView.products v).

Definition frozenOrder (o : Order.t) : ObjectId * Z * list (Z * Z) :=
  (Order._id o, Order.totalAmount o,
   (λ l, (OrderLine.price l, OrderLine.quantity l)) <$> Order.products o).

(** * Data of the worked examples *)

(** An instance of [mongoose.isValidObjectId] for the examples: the strings
    of 24 hexadecimal digits. *)
Definition isHexDigit (a : Ascii.ascii) : bool :=
  existsb (Ascii.eqb a) (String.list_ascii_of_string "0123456789abcdefABCDEF").

Definition isObjectIdString (s : string) : bool :=
  bool_decide (String.length s = 24%nat) && forallb isHexDigit (String.list_ascii_of_string s).

Definition u1 : ObjectId := "0000000000000000000000a1".
Definition s1 : ObjectId := "0000000000000000000000b1".
Definition p1 : ObjectId := "0000000000000000000000c1".
Definition p2 : ObjectId := "0000000000000000000000c2".
Definition o1 : ObjectId := "0000000000000000000000d1".

Definition pen : Product.t := Product.mk p1 "Pen" 100 5 true s1 false.
Definition ink : Product.t := Product.mk p2 "Ink" 30 9 true s1 false.
Definition inkWithdrawn : Product.t := Product.mk p2 "Ink" 30 9 false s1 false.
Definition penDeleted : Product.t := Product.mk p1 "Pen" 50 5 true s1 true.

Definition alice : User.t := User.mk u1 "alice@example.org".

(** A shop with two products and no cart yet. *)
Definition shop : DB := mkDB [pen; ink] [] [] [alice].

(** The cart of [u1] holds three pens and one bottle of ink. *)
Definition cartPenInk : Cart.t :=
  Cart.mk u1 [CartItem.mk p1 "Pen" 100 3 300; CartItem.mk p2 "Ink" 30 1 30] 330 false.
Definition shopWithCart : DB := mkDB [pen; ink] [cartPenInk] [] [alice].

(** The same, after the seller has withdrawn the ink. *)
Definition shopInkWithdrawn : DB := mkDB [pen; inkWithdrawn] [cartPenInk] [] [alice].

(** The catalog after the first product has been repriced to 75. *)
Definition penRepriced : Product.t := Product.mk p1 "Pen" 75 5 true s1 false.

(** The pen has been soft-deleted by its seller. *)
Definition shopPenDeleted : DB := mkDB [penDeleted; ink] [] [] [alice].

(** An address with its street, city and country. *)
Definition home : Address.t :=
  Address.mk (Some "1 Main Street") (Some "Pune") None None (Some "India").

(** An order of two pens at 100, as [new Order] makes it. *)
Definition orderTwoPens : Order.t :=
  Order.mk o1 u1 [OrderLine.mk p1 2 100 s1] home home "razorpay"
    None 0 "pending" "pending" false.

(** An order that the payment gateway knows as ["order_1"]. *)
Definition orderAtGateway : Order.t :=
  Order.mk o1 u1 [OrderLine.mk p1 2 100 s1] Address.empty Address.empty "razorpay"
    (Some "order_1") 200 "pending" "pending" false.
Definition shopWithOrder : DB := mkDB [pen; ink] [] [orderAtGateway] [alice].

Definition mailUp (to subject : string) : option JsError := None.

(** A stand-in for the HMAC of the examples. *)
Definition toyHmac (key data : string) : string := key +:+ ":" +:+ data.

(** The states that the examples reach. *)
Definition shopTwoPens : DB :=
  (CartService.addItemToCart isObjectIdString u1 p1 (JsInt 2) u1 shop).1.
Definition shopThreePens : DB :=
  (CartService.addItemToCart isObjectIdString u1 p1 (JsInt 1) u1 shopTwoPens).1.
Definition shopCleared : DB :=
  (CartService.clearCart isObjectIdString u1 u1 shopWithCart).1.
Definition shopAfterOrder : DB := (OrderModel.save orderTwoPens shop).1.
Definition shopForgedPayment : DB :=
  (PaymentController.verifyPayment toyHmac "secret" mailUp
     (Some "order_1") (Some "pay_1") (Some "forged") shopWithOrder).1.

(** ** Vocabulary of the further properties *)

(** The ids and the quantity of an operation pass the first checks of the
    service. *)
Definition wellFormedOp (isValidObjectId : string → bool) (op : CartOp) : bool :=
  match op with
  | AddItem productId quantity | UpdateQuantity productId quantity =>
    isValidObjectId productId && negb (CartService.invalidQuantity quantity)
  | RemoveItem productId => isValidObjectId productId
  | Clear | View => true
  end.

(** The owners of the live carts, in the order of the collection. *)
Definition liveCartOwners (db : DB) : list ObjectId :=
  Cart.userId <$> filter (λ c, Cart.isDeleted c = false) (carts db).

(** No user has two live carts. *)
Definition oneLiveCart (db : DB) : Prop := NoDup (liveCartOwners db).

(** A second customer, with a cart of two bottles of ink. *)
Definition u2 : ObjectId := "0000000000000000000000a2".
Definition cartBob : Cart.t := Cart.mk u2 [CartItem.mk p2 "Ink" 30 2 60] 60 false.
Definition shopTwoCarts : DB := mkDB [pen; ink] [cartPenInk; cartBob] [] [alice].

(** The orders of a user that are not soft-deleted, in the order of the
    collection: what [Order.find({ userId, isDeleted: false })] matches. *)
Definition userOrders (db : DB) (userId : ObjectId) : list Order.t :=
  filter (λ o, Order.userId o = userId ∧ Order.isDeleted o = false) (orders db).

(** No two orders have the same [_id]. *)
Definition uniqueOrderIds (db : DB) : Prop := NoDup (Order._id <$> orders db).

(** A request line that [createOrder] refuses. *)
Definition lineRefused (isValidObjectId : string → bool) (db : DB)
    (item : LineRequest.t) : Prop :=
  isValidObjectId (LineRequest.productId item) = false ∨
  OrderService.invalidQuantity (LineRequest.quantity item) = true ∨
  findProductById db (LineRequest.productId item) = None.

(** Three orders of the first customer and one of the second. *)
Definition o2 : ObjectId := "0000000000000000000000d2".
Definition o3 : ObjectId := "0000000000000000000000d3".
Definition o4 : ObjectId := "0000000000000000000000d4".
Definition orderOf (id user : ObjectId) (quantity : Z) : Order.t :=
  Order.mk id user [OrderLine.mk p1 quantity 100 s1] Address.empty Address.empty
    "razorpay" None (100 * quantity) "pending" "pending" false.
Definition shopFourOrders : DB :=
  mkDB [pen; ink] []
    [orderOf o1 u1 1; orderOf o2 u2 2; orderOf o3 u1 3; orderOf o4 u1 4] [alice].

(** Every stored order carries a status and a payment status of the
    schema's enumerations. *)
Definition statusesInEnum (db : DB) : Prop :=
  Forall (λ o, Order.status o ∈ OrderModel.statuses ∧
               Order.paymentStatus o ∈ OrderModel.paymentStatuses) (orders db).

(** The page that [getUserOrders] returns, empty when it throws. *)
Definition pageOf (isValidObjectId : string → bool) (db : DB) (userId : ObjectId)
    (page limit : Z) : list OrderView.t :=
  match (OrderService.getUserOrders isValidObjectId userId page limit db).2 with
  | inr orders => orders
  | inl _ => []
  end.

(** An order that lacks the street, the city or the country of its shipping
    address or of its billing address: the one that the pre-save hook of the
    order refuses. *)
Definition lacksAddress (o : Order.t) : bool :=
  OrderModel.incomplete (Order.shippingAddress o) ||
  OrderModel.incomplete (Order.billingAddress o).

(** An order of the second customer with both addresses, as a save has
    stored it, beside an order without addresses. *)
Definition orderAddressed : Order.t :=
  Order.mk o2 u2 [OrderLine.mk p1 2 100 s1] home home "razorpay" None 200
    "pending" "pending" false.
Definition shopAddressedOrder : DB :=
  mkDB [pen; ink] [] [orderOf o1 u1 1; orderAddressed] [alice].

(** The permissions of a token cover what a route requires: they hold the
    wildcard, or all of the required permissions, or one of them when one
    suffices. *)
Definition tokenGrants (requireAll : bool) (required actual : list string) : Prop :=
  "*" ∈ actual ∨
  if requireAll then required ⊆ actual else ∃ p, p ∈ required ∧ p ∈ actual.

(** * Properties *)

(** ** Sums, lookups and filters *)

Lemma fold_left_add_acc {A} (f : A → Z) (l : list A) (a : Z) :
  fold_left (λ sum x, sum + f x) l a = a + foldr (λ x acc, f x + acc) 0 l.
Proof.
  revert a. induction l as [|x l IH]; intros a; simpl; [lia|].
  rewrite IH. lia.
Qed.

Lemma sumTotalPrice_foldr (items : list CartItem.t) :
  CartModel.sumTotalPrice items = foldr (λ item acc, CartItem.totalPrice item + acc) 0 items.
Proof. unfold CartModel.sumTotalPrice. rewrite fold_left_add_acc. lia. Qed.

Lemma sumLines_foldr (lines : list OrderLine.t) :
  OrderModel.sumLines lines =
  foldr (λ l acc, OrderLine.price l * OrderLine.quantity l + acc) 0 lines.
Proof. unfold OrderModel.sumLines. rewrite fold_left_add_acc. lia. Qed.

(** The first match in a filtered list is the first match of both
    predicates in the list. *)
Lemma list_find_filter {A} (P Q : A → Prop) `{!∀ x, Decision (P x)}
    `{!∀ x, Decision (Q x)} (l : list A) :
  snd <$> list_find P (filter Q l) = snd <$> list_find (λ x, P x ∧ Q x) l.
Proof.
  induction l as [|x l IH]; [done|].
  rewrite filter_cons. destruct (decide (Q x)) as [HQ|HQ]; simpl.
  - destruct (decide (P x)) as [HP|HP].
    + rewrite decide_True by done. done.
    + rewrite decide_False by tauto.
      destruct (list_find P (filter Q l)) as [[??]|],
        (list_find (λ x, P x ∧ Q x) l) as [[??]|]; simpl in *; congruence.
  - rewrite decide_False by tauto.
    rewrite IH. destruct (list_find (λ x, P x ∧ Q x) l) as [[??]|]; done.
Qed.

(** ** The pre-save hook of the cart *)

Lemma lineBad_not_ok catalog item : lineBad catalog item ↔ ¬ lineOk catalog item.
Proof.
  unfold lineBad, lineOk. destruct (CartModel.findOneLive _ _) as [p|]; split.
  - intros Hlt (p' & [= <-] & Hle). lia.
  - intros Hn. destruct (decide (Product.stock p < CartItem.quantity item)); [done|].
    exfalso. apply Hn. exists p. split; [done|lia].
  - intros _ (p' & [=] & _).
  - done.
Qed.

Lemma find_in_findLiveIn catalog ids pid :
  pid ∈ ids →
  snd <$> list_find (λ p, Product._id p = pid) (CartModel.findLiveIn catalog ids)
  = CartModel.findOneLive catalog pid.
Proof.
  intros Hin. unfold CartModel.findLiveIn, CartModel.findOneLive.
  rewrite list_find_filter. f_equal. apply list_find_ext.
  intros p. split; [tauto|]. intros [-> ?]. tauto.
Qed.

Lemma reprice_inr catalog ids items items' :
  (∀ item, item ∈ items → CartItem.productId item ∈ ids) →
  CartModel.reprice (CartModel.findLiveIn catalog ids) items = inr items' →
  Forall2 (λ item item', sameLine item item' ∧ linePriced catalog item') items items'.
Proof.
  revert items'. induction items as [|item rest IH]; intros items' Hids Hr; simpl in Hr.
  - injection Hr as <-. constructor.
  - pose proof (find_in_findLiveIn catalog ids (CartItem.productId item)
                  (Hids _ ltac:(left))) as Hf.
    destruct (list_find _ _) as [[k product]|] eqn:Hfind; [|done].
    destruct (decide (Product.stock product < CartItem.quantity item)); [done|].
    destruct (CartModel.reprice _ rest) as [e|rest'] eqn:Hrest; [done|].
    injection Hr as <-. constructor.
    + split; [done|]. exists product. simpl. rewrite <- Hf.
      split_and!; [done|lia|done|done].
    + apply IH; [|done]. intros ? ?. apply Hids. by right.
Qed.

Lemma reprice_ok catalog ids items :
  (∀ item, item ∈ items → CartItem.productId item ∈ ids) →
  Forall (lineOk catalog) items →
  ∃ items', CartModel.reprice (CartModel.findLiveIn catalog ids) items = inr items'.
Proof.
  induction items as [|item rest IH]; intros Hids Hok; simpl; [by eexists|].
  apply Forall_cons in Hok as [(p & Hp & Hle) Hok].
  pose proof (find_in_findLiveIn catalog ids (CartItem.productId item)) as Hf.
  rewrite Hp in Hf. specialize (Hf (Hids _ ltac:(left))).
  destruct (list_find _ _) as [[k product]|]; [|done]. injection Hf as ->.
  rewrite decide_False by lia.
  destruct IH as [rest' ->]; [|done|by eexists].
  intros ? ?. apply Hids. by right.
Qed.

Lemma reprice_bad catalog ids items :
  (∀ item, item ∈ items → CartItem.productId item ∈ ids) →
  Exists (lineBad catalog) items →
  ∃ e, CartModel.reprice (CartModel.findLiveIn catalog ids) items = inl e.
Proof.
  intros Hids Hbad.
  destruct (CartModel.reprice _ items) as [e|items'] eqn:Hr; [by eexists|].
  apply reprice_inr in Hr; [|done]. exfalso.
  apply Exists_exists in Hbad as (item & Hin & Hb).
  apply list_elem_of_lookup in Hin as [i Hi].
  destruct (Forall2_lookup_l _ _ _ _ _ Hr Hi) as (item' & _ & (Hpid & _ & Hq) & (p & Hp & Hle & _)).
  apply lineBad_not_ok in Hb. apply Hb. exists p. rewrite <- Hpid. split; [done|lia].
Qed.

(** What a pre-save hook that passes has checked and written. *)
Lemma preSave_inr catalog c c' :
  CartModel.preSave catalog c = inr c' →
  length (CartModel.findLiveIn catalog (CartItem.productId <$> Cart.items c))
    = length (Cart.items c) ∧
  Cart.userId c' = Cart.userId c ∧ Cart.isDeleted c' = Cart.isDeleted c ∧
  Cart.totalAmount c' = CartModel.sumTotalPrice (Cart.items c') ∧
  Forall2 (λ item item', sameLine item item' ∧ linePriced catalog item')
    (Cart.items c) (Cart.items c').
Proof.
  unfold CartModel.preSave. intros H.
  destruct (decide (length _ ≠ length _)) as [|Hlen]; [done|].
  destruct (CartModel.reprice _ _) as [e|items'] eqn:Hr; [done|].
  injection H as <-. simpl.
  apply dec_stable in Hlen. rewrite length_fmap in Hlen.
  split_and!; try done.
  eapply reprice_inr; [|done]. intros item Hin. by apply list_elem_of_fmap_2.
Qed.

Lemma findLiveIn_ids_NoDup catalog ids :
  uniqueIds catalog → NoDup (Product._id <$> CartModel.findLiveIn catalog ids).
Proof.
  intros Hu. eapply sublist_NoDup; [exact Hu|].
  apply fmap_sublist, sublist_filter.
Qed.

Lemma findLiveIn_ids_subset catalog ids pid :
  pid ∈ Product._id <$> CartModel.findLiveIn catalog ids → pid ∈ ids.
Proof.
  intros (p & -> & Hp)%list_elem_of_fmap.
  apply list_elem_of_filter in Hp. tauto.
Qed.

(** The length test of the hook refuses a cart with two lines for one
    product: the catalog query returns each product once. *)
Lemma findLiveIn_length_NoDup catalog ids :
  uniqueIds catalog →
  length (CartModel.findLiveIn catalog ids) = length ids →
  NoDup ids.
Proof.
  intros Hu Hlen.
  pose proof (findLiveIn_ids_NoDup catalog ids Hu) as Hnd.
  assert ((Product._id <$> CartModel.findLiveIn catalog ids) ≡ₚ ids) as Hperm.
  { apply submseteq_length_Permutation.
    - apply NoDup_submseteq; [done|]. apply findLiveIn_ids_subset.
    - rewrite length_fmap. lia. }
  by rewrite <- Hperm.
Qed.

Lemma findOneLive_Some catalog pid p :
  CartModel.findOneLive catalog pid = Some p →
  p ∈ catalog ∧ Product._id p = pid ∧ Product.live p.
Proof.
  unfold CartModel.findOneLive. intros H.
  destruct (list_find _ _) as [[i q]|] eqn:Hf; [|done]. injection H as ->.
  apply list_find_Some in Hf as (Hi & [? ?] & _).
  split_and!; try done. by eapply list_elem_of_lookup_2.
Qed.

Lemma findLiveIn_length_ok catalog ids :
  uniqueIds catalog → NoDup ids →
  (∀ pid, pid ∈ ids → is_Some (CartModel.findOneLive catalog pid)) →
  length (CartModel.findLiveIn catalog ids) = length ids.
Proof.
  intros Hu Hnd Hall.
  rewrite <- (length_fmap Product._id).
  apply Permutation_length, NoDup_Permutation; [by apply findLiveIn_ids_NoDup|done|].
  intros pid. split; [apply findLiveIn_ids_subset|].
  intros Hin. destruct (Hall _ Hin) as [p Hp].
  apply findOneLive_Some in Hp as (Hp & <- & Hlive).
  apply list_elem_of_fmap_2, list_elem_of_filter. tauto.
Qed.

Lemma Forall2_sameLine_ids items items' (R : CartItem.t → CartItem.t → Prop) :
  Forall2 (λ item item', sameLine item item' ∧ R item item') items items' →
  CartItem.productId <$> items' = CartItem.productId <$> items.
Proof.
  induction 1 as [|item item' ?? [(Hpid & _) _] _ IH]; [done|].
  by rewrite !fmap_cons, Hpid, IH.
Qed.

(** A hook that passes leaves a cart whose lines are for distinct products,
    priced from the catalog, and whose total is the sum of the lines. *)
Lemma preSave_cartPriced catalog c c' :
  CartModel.preSave catalog c = inr c' → cartPriced catalog c'.
Proof.
  intros (_ & _ & _ & Htot & Hall)%preSave_inr. split.
  - apply Forall2_Forall_r with (Q := linePriced catalog) in Hall; [done|].
    apply Forall_true. tauto.
  - by rewrite Htot, sumTotalPrice_foldr.
Qed.

Lemma preSave_distinctLines catalog c c' :
  uniqueIds catalog → CartModel.preSave catalog c = inr c' → distinctLines c'.
Proof.
  intros Hu (Hlen & _ & _ & _ & Hall)%preSave_inr. unfold distinctLines.
  rewrite (Forall2_sameLine_ids _ _ _ Hall).
  apply (findLiveIn_length_NoDup catalog); [done|]. by rewrite length_fmap.
Qed.

Lemma preSave_bad catalog c :
  Exists (lineBad catalog) (Cart.items c) → ∃ e, CartModel.preSave catalog c = inl e.
Proof.
  intros Hbad. unfold CartModel.preSave.
  destruct (decide (length _ ≠ length _)); [by eexists|].
  destruct (reprice_bad catalog (CartItem.productId <$> Cart.items c) (Cart.items c))
    as [e ->]; [|done|by eexists].
  intros item Hin. by apply list_elem_of_fmap_2.
Qed.

Lemma preSave_ok catalog c :
  uniqueIds catalog → distinctLines c → Forall (lineOk catalog) (Cart.items c) →
  ∃ c', CartModel.preSave catalog c = inr c'.
Proof.
  intros Hu Hnd Hok. unfold CartModel.preSave.
  rewrite decide_False.
  - destruct (reprice_ok catalog (CartItem.productId <$> Cart.items c) (Cart.items c))
      as [items' ->]; [|done|by eexists].
    intros item Hin. by apply list_elem_of_fmap_2.
  - intros Hne. apply Hne. apply findLiveIn_length_ok; [done|done|].
    intros pid (item & -> & Hin)%list_elem_of_fmap.
    rewrite Forall_forall in Hok. destruct (Hok _ Hin) as (p & -> & _). by eexists.
Qed.

(** ** Saving a cart *)

Ltac unfold_M :=
  unfold mbind, M_bind, mret, M_ret, liftE, get, put, throw in *.

Lemma save_inr d db db' d' :
  CartModel.save d db = (db', inr d') →
  CartModel.valid d.2 ∧
  ∃ c', CartModel.preSave (products db) d.2 = inr c' ∧
        match d.1 with
        | Some i => db' = setCarts (<[i := c']> (carts db)) db ∧ d' = (Some i, c')
        | None => db' = setCarts (carts db ++ [c']) db ∧
                  d' = (Some (length (carts db)), c')
        end.
Proof.
  unfold CartModel.save, CartModel.validate. unfold_M.
  destruct (decide (CartModel.valid d.2)) as [Hv|]; [|done].
  destruct (CartModel.preSave _ _) as [e|c']; [done|].
  destruct d.1 as [i|]; intros [= <- <-]; split; try done; by exists c'.
Qed.

Lemma reprice_inl products items e :
  CartModel.reprice products items = inl e → status e = None.
Proof.
  induction items as [|item rest IH]; simpl; [done|].
  repeat case_match; intros [= <-]; auto.
Qed.

Lemma preSave_inl catalog c e : CartModel.preSave catalog c = inl e → status e = None.
Proof.
  unfold CartModel.preSave. case_decide; [by intros [= <-]|].
  destruct (CartModel.reprice _ _) eqn:Hr; [|done].
  intros [= <-]. by eapply reprice_inl.
Qed.

(** A save that throws has written nothing, and throws a plain [Error]. *)
Lemma save_inl d db db' e :
  CartModel.save d db = (db', inl e) → db' = db ∧ status e = None.
Proof.
  unfold CartModel.save, CartModel.validate. unfold_M.
  destruct (decide (CartModel.valid d.2)); [|by intros [= <- <-]].
  destruct (CartModel.preSave _ _) as [?|c'] eqn:Hp.
  - intros [= <- <-]. split; [done|]. by eapply preSave_inl.
  - destruct d.1; done.
Qed.

Lemma save_bad d db :
  Exists (lineBad (products db)) (Cart.items d.2) →
  ∃ e, CartModel.save d db = (db, inl e).
Proof.
  intros [e He]%preSave_bad.
  unfold CartModel.save, CartModel.validate. unfold_M.
  destruct (decide (CartModel.valid d.2)); [|by eexists].
  rewrite He. by eexists.
Qed.

Lemma findOneCart_insert db u i c0 c' :
  CartService.findOneCart db u = Some (i, c0) →
  Cart.userId c' = u → Cart.isDeleted c' = false →
  CartService.findOneCart (setCarts (<[i := c']> (carts db)) db) u = Some (i, c').
Proof.
  unfold CartService.findOneCart. simpl. intros Hf Hu Hd.
  apply list_find_Some in Hf as (Hi & _ & Hmin).
  apply list_find_insert_Some. right. left.
  split_and!; try done. by eapply lookup_lt_Some.
Qed.

Lemma findOneCart_append db u c' :
  CartService.findOneCart db u = None →
  Cart.userId c' = u → Cart.isDeleted c' = false →
  CartService.findOneCart (setCarts (carts db ++ [c']) db) u
  = Some (length (carts db), c').
Proof.
  unfold CartService.findOneCart. simpl. intros Hf Hu Hd.
  rewrite list_find_app_r by done. simpl. by rewrite decide_True.
Qed.

(** ** What a cart operation that returns has done *)

Ltac unfold_cart :=
  unfold CartService.addItemToCart, CartService.updateCartItemQuantity,
    CartService.removeItemFromCart, CartService.clearCart, CartService.getUserCart,
    withTransaction, CartModel.addItem, CartService.findByIdPopulated,
    CartService.invalidQuantity, CartService.toNumber in *;
  unfold_M.

Ltac guards :=
  cbn beta iota in *;
  repeat match goal with
  | H : negb _ || bool_decide _ = false |- _ =>
    simpl in H; apply bool_decide_eq_false in H
  end.

Ltac guarded :=
  try done; try lia;
  try (symmetry; apply dec_stable; done).

Lemma addItemToCart_inr isValid u pid q auth db db' r :
  CartService.addItemToCart isValid u pid q auth db = (db', inr r) →
  ∃ qz product d',
    q = JsInt qz ∧ 0 < qz ∧ auth = u ∧
    CartModel.findOneLive (products db) pid = Some product ∧
    qz ≤ Product.stock product ∧
    let d := docOf db u in
    let items := CartModel.mergeItem (Cart.items d.2) product pid qz in
    CartModel.save (d.1, Cart.mk (Cart.userId d.2) items (CartModel.sumTotalPrice items)
                          (Cart.isDeleted d.2)) db = (db', inr d').
Proof.
  unfold_cart. intros H. repeat case_match; simplify_eq; guards; subst.
  all: eexists _, _, _; unfold docOf;
    repeat match goal with H : CartService.findOneCart _ _ = _ |- _ => rewrite H end;
    split_and!; guarded.
Qed.

Lemma updateCartItemQuantity_inr isValid u pid q auth db db' r :
  CartService.updateCartItemQuantity isValid u pid q auth db = (db', inr r) →
  ∃ qz product i cart k item d',
    q = JsInt qz ∧ 0 < qz ∧ auth = u ∧
    CartModel.findOneLive (products db) pid = Some product ∧
    qz ≤ Product.stock product ∧
    CartService.findOneCart db u = Some (i, cart) ∧
    list_find (λ item, CartItem.productId item = pid) (Cart.items cart) = Some (k, item) ∧
    let items :=
      <[k := CartItem.mk (CartItem.productId item) (CartItem.name item)
               (Product.price product) qz (Product.price product * qz)]>
        (Cart.items cart) in
    CartModel.save (Some i, Cart.mk (Cart.userId cart) items
                              (CartModel.sumTotalPrice items) (Cart.isDeleted cart)) db
    = (db', inr d').
Proof.
  unfold_cart. intros H. repeat case_match; simplify_eq; guards; subst.
  all: eexists _, _, _, _, _, _, _; split_and!; guarded.
Qed.

Lemma removeItemFromCart_inr isValid u pid auth db db' r :
  CartService.removeItemFromCart isValid u pid auth db = (db', inr r) →
  ∃ i cart k item d',
    auth = u ∧
    CartService.findOneCart db u = Some (i, cart) ∧
    list_find (λ item, CartItem.productId item = pid) (Cart.items cart) = Some (k, item) ∧
    let items := delete k (Cart.items cart) in
    CartModel.save (Some i, Cart.mk (Cart.userId cart) items
                              (CartModel.sumTotalPrice items) (Cart.isDeleted cart)) db
    = (db', inr d').
Proof.
  unfold_cart. intros H. repeat case_match; simplify_eq; guards; subst.
  all: eexists _, _, _, _, _; split_and!; guarded.
Qed.

Lemma clearCart_inr isValid u auth db db' r :
  CartService.clearCart isValid u auth db = (db', inr r) →
  ∃ i cart d',
    auth = u ∧
    CartService.findOneCart db u = Some (i, cart) ∧
    CartModel.save (Some i, Cart.mk (Cart.userId cart) [] 0 true) db = (db', inr d').
Proof.
  unfold_cart. intros H. repeat case_match; simplify_eq; guards; subst.
  all: eexists _, _, _; split_and!; guarded.
Qed.

(** An operation that throws, and the read, leave the database as it was. *)
Lemma runOp_inl isValid u auth op db db' e :
  runOp isValid u auth op db = (db', inl e) → db' = db.
Proof.
  destruct op; unfold runOp; unfold_cart; intros H;
    repeat case_match; simplify_eq; done.
Qed.

Lemma getUserCart_db isValid u auth db :
  (CartService.getUserCart isValid u auth db).1 = db.
Proof. unfold_cart. repeat case_match; done. Qed.

Lemma docOf_spec db u :
  Cart.userId (docOf db u).2 = u ∧ Cart.isDeleted (docOf db u).2 = false ∧
  match (docOf db u).1 with
  | Some i => CartService.findOneCart db u = Some (i, (docOf db u).2)
  | None => CartService.findOneCart db u = None
  end.
Proof.
  unfold docOf. destruct (CartService.findOneCart db u) as [[i c]|] eqn:Hf; [|done].
  simpl. unfold CartService.findOneCart in Hf.
  apply list_find_Some in Hf as (_ & [? ?] & _). done.
Qed.

(** Where the saved cart of a user is afterwards: it is the cart that
    [findOne] returns for that user. *)
Lemma save_docOf db u items tot db' d' :
  CartModel.save ((docOf db u).1,
                  Cart.mk (Cart.userId (docOf db u).2) items tot
                    (Cart.isDeleted (docOf db u).2)) db = (db', inr d') →
  ∃ i' c',
    d' = (Some i', c') ∧
    CartModel.preSave (products db) (Cart.mk u items tot false) = inr c' ∧
    products db' = products db ∧
    CartService.findOneCart db' u = Some (i', c').
Proof.
  destruct (docOf_spec db u) as (Hu & Hd & Hfind). rewrite Hu, Hd.
  intros (_ & c' & Hpre & Hw)%save_inr. simpl in Hpre, Hw.
  pose proof (preSave_inr _ _ _ Hpre) as (_ & Hu' & Hd' & _). simpl in Hu', Hd'.
  destruct (docOf db u).1 as [i|]; destruct Hw as [-> ->].
  - exists i, c'. split_and!; try done. by eapply findOneCart_insert.
  - exists (length (carts db)), c'. split_and!; try done. by apply findOneCart_append.
Qed.

Lemma runOp_inr isValid u auth op db db' :
  runOp isValid u auth op db = (db', inr tt) →
  match op with
  | AddItem pid q =>
    ∃ r, CartService.addItemToCart isValid u pid q auth db = (db', inr r)
  | UpdateQuantity pid q =>
    ∃ r, CartService.updateCartItemQuantity isValid u pid q auth db = (db', inr r)
  | RemoveItem pid =>
    ∃ r, CartService.removeItemFromCart isValid u pid auth db = (db', inr r)
  | Clear => ∃ r, CartService.clearCart isValid u auth db = (db', inr r)
  | View => ∃ r, CartService.getUserCart isValid u auth db = (db', inr r)
  end.
Proof.
  destruct op; unfold runOp; unfold mbind, M_bind, mret, M_ret;
    intros H; repeat case_match; simplify_eq; by eexists.
Qed.

Lemma findOneCart_docOf db u i cart :
  CartService.findOneCart db u = Some (i, cart) → docOf db u = (Some i, cart).
Proof. unfold docOf. by intros ->. Qed.

(** A mutation that returns has saved the user's cart through the hook. *)
Lemma mutation_inr isValid u auth op db db' :
  isMutation op = true →
  runOp isValid u auth op db = (db', inr tt) →
  ∃ items tot i' c',
    CartModel.preSave (products db) (Cart.mk u items tot false) = inr c' ∧
    products db' = products db ∧
    CartService.findOneCart db' u = Some (i', c').
Proof.
  intros Hm Hrun. apply runOp_inr in Hrun.
  destruct op as [pid q|pid q|pid| |]; try done; destruct Hrun as [r Hr].
  - apply addItemToCart_inr in Hr as (qz & p & d' & _ & _ & _ & _ & _ & Hs).
    apply save_docOf in Hs as (i' & c' & _ & ? & ? & ?). by eexists _, _, i', c'.
  - apply updateCartItemQuantity_inr in Hr
      as (qz & p & i & cart & k & item & d' & _ & _ & _ & _ & _ & Hf & _ & Hs).
    pose proof (findOneCart_docOf _ _ _ _ Hf) as Hd.
    pose proof (save_docOf db u) as Hsd. rewrite Hd in Hsd. simpl in Hs.
    apply Hsd in Hs as (i' & c' & _ & ? & ? & ?). by eexists _, _, i', c'.
  - apply removeItemFromCart_inr in Hr as (i & cart & k & item & d' & _ & Hf & _ & Hs).
    pose proof (findOneCart_docOf _ _ _ _ Hf) as Hd.
    pose proof (save_docOf db u) as Hsd. rewrite Hd in Hsd. simpl in Hs.
    apply Hsd in Hs as (i' & c' & _ & ? & ? & ?). by eexists _, _, i', c'.
Qed.

(** ** The stored cart after a mutation *)

(** C2. After every successful cart mutation (addItem, updateQuantity,
    removeItem) the stored cart of the user has, on each line, the catalog's
    current price of the product and totalPrice = price * quantity, and its
    totalAmount is the sum of the lines' totalPrice. *)
Theorem mutation_stores_priced_cart isValid u auth op db db' :
  isMutation op = true →
  runOp isValid u auth op db = (db', inr tt) →
  ∃ i c, CartService.findOneCart db' u = Some (i, c) ∧ cartPriced (products db') c.
Proof.
  intros Hm Hrun.
  destruct (mutation_inr _ _ _ _ _ _ Hm Hrun) as (items & tot & i & c & Hpre & Hp & Hf).
  exists i, c. split; [done|]. rewrite Hp. by eapply preSave_cartPriced.
Qed.

Lemma mutation_stores_priced_cart_witness :
  ∃ i c, CartService.findOneCart shopTwoPens u1 = Some (i, c) ∧
         cartPriced (products shopTwoPens) c.
Proof.
  apply (mutation_stores_priced_cart isObjectIdString u1 u1 (AddItem p1 (JsInt 2)) shop).
  - reflexivity.
  - vm_compute. reflexivity.
Defined.

(** ** A failed addItem *)

Lemma keepTyped_plain fallback e : status e = None → keepTyped fallback e = fallback.
Proof. unfold keepTyped, hasStatus. by intros ->. Qed.

Lemma addItemToCart_inl isValid u pid q auth db db' e :
  CartService.addItemToCart isValid u pid q auth db = (db', inl e) → db' = db.
Proof. unfold_cart. intros H. repeat case_match; simplify_eq; done. Qed.

Lemma addItemToCart_short_of_stock isValid u pid qz db p :
  isValid u = true → isValid pid = true → 0 < qz →
  CartModel.findOneLive (products db) pid = Some p → Product.stock p < qz →
  CartService.addItemToCart isValid u pid (JsInt qz) u db
  = (db, inl (BadRequestError ("Insufficient stock for product " +:+ Product.name p))).
Proof.
  intros Hu Hp Hq Hlive Hstock. unfold_cart.
  rewrite Hu, Hp. simpl. rewrite bool_decide_eq_false_2 by lia.
  rewrite decide_False by (intros Hne; by apply Hne).
  rewrite Hlive. by rewrite decide_True.
Qed.

(** C8. When addItem fails the database, and so the stored cart, is left as
    it was; in particular a requested quantity above the stock of the product
    fails with the insufficient-stock BadRequest and writes nothing. *)
Theorem addItem_failure_leaves_cart isValid u pid q auth db :
  (∀ db' e,
     CartService.addItemToCart isValid u pid q auth db = (db', inl e) →
     db' = db ∧ CartService.findOneCart db' u = CartService.findOneCart db u) ∧
  (∀ qz p,
     isValid u = true → isValid pid = true → q = JsInt qz → 0 < qz → auth = u →
     CartModel.findOneLive (products db) pid = Some p → Product.stock p < qz →
     CartService.addItemToCart isValid u pid q auth db
     = (db, inl (BadRequestError ("Insufficient stock for product " +:+ Product.name p)))).
Proof.
  split.
  - intros db' e ->%addItemToCart_inl. done.
  - intros qz p Hu Hp -> Hq -> Hlive Hstock. by apply addItemToCart_short_of_stock.
Qed.

Lemma addItem_failure_leaves_cart_witness :
  CartService.addItemToCart isObjectIdString u1 p1 (JsInt 10) u1 shopWithCart
  = (shopWithCart, inl (BadRequestError "Insufficient stock for product Pen")).
Proof.
  refine (proj2 (addItem_failure_leaves_cart isObjectIdString u1 p1 (JsInt 10) u1
                   shopWithCart) 10 pen _ _ _ _ _ _ _);
    first [reflexivity | lia | done].
Defined.

(** ** Every save revalidates every line *)

Lemma removeItem_bad_line isValid u pid db i cart k item :
  isValid u = true → isValid pid = true →
  CartService.findOneCart db u = Some (i, cart) →
  list_find (λ item, CartItem.productId item = pid) (Cart.items cart) = Some (k, item) →
  Exists (lineBad (products db)) (delete k (Cart.items cart)) →
  CartService.removeItemFromCart isValid u pid u db
  = (db, inl (BadRequestError "Failed to remove item from cart")).
Proof.
  intros Hu Hp Hf Hk Hbad. unfold_cart. rewrite Hu, Hp. simpl.
  rewrite decide_False by (intros Hne; by apply Hne).
  rewrite Hf, Hk.
  match goal with |- context [CartModel.save ?d db] =>
    destruct (save_bad d db Hbad) as [e He]; rewrite He;
    apply save_inl in He as [_ He] end.
  by rewrite keepTyped_plain.
Qed.

Lemma updateQuantity_bad_line isValid u pid qz db p i cart k item :
  isValid u = true → isValid pid = true → 0 < qz →
  CartModel.findOneLive (products db) pid = Some p → qz ≤ Product.stock p →
  CartService.findOneCart db u = Some (i, cart) →
  list_find (λ item, CartItem.productId item = pid) (Cart.items cart) = Some (k, item) →
  Exists (lineBad (products db))
    (<[k := CartItem.mk (CartItem.productId item) (CartItem.name item)
              (Product.price p) qz (Product.price p * qz)]> (Cart.items cart)) →
  CartService.updateCartItemQuantity isValid u pid (JsInt qz) u db
  = (db, inl (BadRequestError "Failed to update item quantity")).
Proof.
  intros Hu Hp Hq Hlive Hstock Hf Hk Hbad. unfold_cart. rewrite Hu, Hp. simpl.
  rewrite bool_decide_eq_false_2 by lia.
  rewrite decide_False by (intros Hne; by apply Hne).
  rewrite Hlive. rewrite decide_False by lia.
  rewrite Hf, Hk.
  match goal with |- context [CartModel.save ?d db] =>
    destruct (save_bad d db Hbad) as [e He]; rewrite He;
    apply save_inl in He as [_ He] end.
  by rewrite keepTyped_plain.
Qed.

(** C9. Every cart write revalidates all the lines of the cart against the
    catalog: a save fails, writing nothing, when any line's product is
    missing, inactive or soft-deleted or has less stock than the line's
    quantity; a save that succeeds has rewritten every line's price to the
    catalog price; so removeItem and updateQuantity fail on a stale line that
    is not the one they were called for. *)
Theorem every_save_revalidates_all_lines isValid u pid db :
  (∀ d, Exists (lineBad (products db)) (Cart.items d.2) →
        ∃ e, CartModel.save d db = (db, inl e)) ∧
  (∀ d db' d', CartModel.save d db = (db', inr d') →
               Forall (linePriced (products db)) (Cart.items d'.2)) ∧
  (∀ i cart k item,
     isValid u = true → isValid pid = true →
     CartService.findOneCart db u = Some (i, cart) →
     list_find (λ item, CartItem.productId item = pid) (Cart.items cart) = Some (k, item) →
     Exists (lineBad (products db)) (delete k (Cart.items cart)) →
     CartService.removeItemFromCart isValid u pid u db
     = (db, inl (BadRequestError "Failed to remove item from cart"))) ∧
  (∀ qz p i cart k item,
     isValid u = true → isValid pid = true → 0 < qz →
     CartModel.findOneLive (products db) pid = Some p → qz ≤ Product.stock p →
     CartService.findOneCart db u = Some (i, cart) →
     list_find (λ item, CartItem.productId item = pid) (Cart.items cart) = Some (k, item) →
     Exists (lineBad (products db)) (delete k (Cart.items cart)) →
     CartService.updateCartItemQuantity isValid u pid (JsInt qz) u db
     = (db, inl (BadRequestError "Failed to update item quantity"))).
Proof.
  split_and!.
  - intros d. apply save_bad.
  - intros d db' d' (_ & c' & Hpre & Hw)%save_inr.
    apply preSave_cartPriced in Hpre as [Hall _].
    destruct d.1; destruct Hw as [_ ->]; done.
  - intros. by eapply removeItem_bad_line.
  - intros qz p i cart k item Hu Hp Hq Hlive Hstock Hf Hk Hbad.
    eapply updateQuantity_bad_line; try done.
    apply Exists_exists in Hbad as (x & Hx & Hb). apply Exists_exists. exists x.
    split; [|done].
    apply list_elem_of_lookup in Hx as [j Hj].
    apply list_elem_of_lookup.
    destruct (decide (j < k)%nat).
    + exists j. rewrite list_lookup_insert_ne by lia.
      rewrite list_lookup_delete_lt in Hj by done. done.
    + exists (S j). rewrite list_lookup_insert_ne by lia.
      rewrite list_lookup_delete_ge in Hj by lia. done.
Qed.

Lemma every_save_revalidates_all_lines_witness :
  CartService.removeItemFromCart isObjectIdString u1 p1 u1 shopInkWithdrawn
  = (shopInkWithdrawn, inl (BadRequestError "Failed to remove item from cart")).
Proof.
  refine (proj1 (proj2 (proj2 (every_save_revalidates_all_lines isObjectIdString u1 p1
                                 shopInkWithdrawn)))
            0%nat cartPenInk 0%nat (CartItem.mk p1 "Pen" 100 3 300) _ _ _ _ _);
    try reflexivity.
  apply Exists_cons_hd. vm_compute. exact I.
Defined.

(** ** Merging and distinct lines *)

Lemma mergeItem_line items product pid q :
  ∃ k line,
    list_find (λ item, CartItem.productId item = pid)
      (CartModel.mergeItem items product pid q) = Some (k, line) ∧
    CartItem.quantity line =
      match snd <$> list_find (λ item, CartItem.productId item = pid) items with
      | Some l => CartItem.quantity l
      | None => 0
      end + q.
Proof.
  unfold CartModel.mergeItem.
  destruct (list_find _ items) as [[k item]|] eqn:Hf.
  - apply list_find_Some in Hf as (Hk & Hpid & Hmin).
    eexists k, _. split.
    + apply list_find_insert_Some. right. left.
      split_and!; try done. by eapply lookup_lt_Some.
    + reflexivity.
  - eexists _, _. split.
    + rewrite list_find_app_r by done. simpl. by rewrite decide_True.
    + simpl. lia.
Qed.

Lemma list_find_Forall2 {A} (P : A → Prop) `{!∀ x, Decision (P x)}
    (R : A → A → Prop) (l l' : list A) k x :
  (∀ a b, R a b → (P a ↔ P b)) →
  Forall2 R l l' → list_find P l = Some (k, x) →
  ∃ x', list_find P l' = Some (k, x') ∧ R x x'.
Proof.
  intros HR Hall. revert k.
  induction Hall as [|a b l l' Hab _ IH]; intros k; [by intros [=]|].
  simpl. destruct (decide (P a)) as [Ha|Ha].
  - intros [= <- <-]. exists b. rewrite decide_True by (by apply (HR a b)). done.
  - rewrite decide_False by (by rewrite <- (HR a b)).
    destruct (list_find P l) as [[j y]|]; [|done]. intros [= <- <-].
    destruct (IH j eq_refl) as (x' & -> & ?). by exists x'.
Qed.

Lemma filter_none {A} (P : A → Prop) `{!∀ x, Decision (P x)} (l : list A) :
  (∀ x, x ∈ l → ¬ P x) → filter P l = [].
Proof.
  intros Hn. destruct (filter P l) as [|x k] eqn:Hf; [done|].
  assert (x ∈ filter P l) as [Hx Hin]%list_elem_of_filter by (rewrite Hf; left).
  by destruct (Hn x).
Qed.

Lemma filter_unique_line (items : list CartItem.t) pid k line :
  NoDup (CartItem.productId <$> items) →
  list_find (λ item, CartItem.productId item = pid) items = Some (k, line) →
  filter (λ item, CartItem.productId item = pid) items = [line].
Proof.
  revert k. induction items as [|a items IH]; intros k Hnd; [done|].
  rewrite fmap_cons in Hnd. apply NoDup_cons in Hnd as [Hnotin Hnd].
  simpl. rewrite filter_cons. destruct (decide (CartItem.productId a = pid)) as [Ha|Ha].
  - intros [= <- <-]. f_equal.
    apply filter_none. intros x Hx Hpx.
    apply Hnotin. rewrite Ha, <- Hpx. by apply list_elem_of_fmap_2.
  - destruct (list_find _ items) as [[j y]|] eqn:Hf; [|done]. intros [= <- <-].
    by eapply IH.
Qed.

(** What a successful addItem leaves for the product. *)
Lemma addItemToCart_line isValid u pid q auth db db' r :
  CartService.addItemToCart isValid u pid q auth db = (db', inr r) →
  ∃ qz i c k line,
    q = JsInt qz ∧
    products db' = products db ∧
    CartService.findOneCart db' u = Some (i, c) ∧
    list_find (λ item, CartItem.productId item = pid) (Cart.items c) = Some (k, line) ∧
    CartItem.quantity line = priorQuantity db u pid + qz ∧
    linePriced (products db) line ∧
    (uniqueIds (products db) → distinctLines c).
Proof.
  intros (qz & p & d' & -> & _ & _ & _ & _ & Hs)%addItemToCart_inr.
  apply save_docOf in Hs as (i & c & _ & Hpre & Hprod & Hfind).
  destruct (mergeItem_line (Cart.items (docOf db u).2) p pid qz) as (k & line & Hk & Hq).
  pose proof (preSave_inr _ _ _ Hpre) as (_ & _ & _ & _ & Hall). simpl in Hall.
  assert (∀ a b : CartItem.t,
            sameLine a b ∧ linePriced (products db) b →
            (CartItem.productId a = pid ↔ CartItem.productId b = pid)) as HR
    by (by intros a b [(-> & _) _]).
  destruct (list_find_Forall2 _ _ _ _ _ _ HR Hall Hk)
    as (line' & Hk' & [(_ & _ & Hq') Hpriced]).
  exists qz, i, c, k, line'. split_and!; try done.
  - rewrite Hq', Hq. done.
  - intros Hu. by eapply preSave_distinctLines.
Qed.

(** An operation either leaves the database as it was or is one successful
    save on it. *)
Lemma runOp_effect isValid u auth op db db' r :
  runOp isValid u auth op db = (db', r) →
  db' = db ∨ ∃ d d', CartModel.save d db = (db', inr d').
Proof.
  destruct r as [e|[]]; [left; by eapply runOp_inl|]. intros Hrun.
  apply runOp_inr in Hrun. destruct op as [pid q|pid q|pid| |]; destruct Hrun as [r Hr].
  - apply addItemToCart_inr in Hr as (? & ? & d' & _ & _ & _ & _ & _ & Hs). eauto.
  - apply updateCartItemQuantity_inr in Hr
      as (? & ? & ? & ? & ? & ? & d' & _ & _ & _ & _ & _ & _ & _ & Hs). eauto.
  - apply removeItemFromCart_inr in Hr as (? & ? & ? & ? & d' & _ & _ & _ & Hs). eauto.
  - apply clearCart_inr in Hr as (? & ? & d' & _ & _ & Hs). eauto.
  - left. pose proof (getUserCart_db isValid u auth db) as Hdb.
    by rewrite Hr in Hdb.
Qed.

Lemma runOp_keeps_distinct isValid u auth op db :
  uniqueIds (products db) → cartsDistinct db →
  cartsDistinct (runOp isValid u auth op db).1.
Proof.
  intros Hu Hd. destruct (runOp isValid u auth op db) as [db' r] eqn:Hrun.
  apply runOp_effect in Hrun as [->|(d & d' & Hs)]; [done|].
  apply save_inr in Hs as (_ & c' & Hpre & Hw).
  apply (preSave_distinctLines _ _ _ Hu) in Hpre.
  unfold cartsDistinct in *. simpl.
  destruct d.1; destruct Hw as [-> _]; simpl.
  - by apply Forall_insert.
  - apply Forall_app. split; [done|]. by constructor.
Qed.

(** C4. Adding the same product twice merges into a single line: after the
    two calls the cart has exactly one line for the product, its quantity is
    the quantity held before plus the two requested quantities (their sum when
    the product was not in the cart), and its price is the product's current
    price; and no operation leaves a cart with two lines for one product. *)
Theorem addItem_twice_merges_into_one_line isValid u :
  (∀ pid q1 q2 db0 db1 catalog db2 r1 r2,
     uniqueIds catalog →
     CartService.addItemToCart isValid u pid (JsInt q1) u db0 = (db1, inr r1) →
     CartService.addItemToCart isValid u pid (JsInt q2) u (setProducts catalog db1)
     = (db2, inr r2) →
     ∃ i c line p,
       CartService.findOneCart db2 u = Some (i, c) ∧
       filter (λ item, CartItem.productId item = pid) (Cart.items c) = [line] ∧
       CartItem.quantity line = priorQuantity db0 u pid + q1 + q2 ∧
       CartModel.findOneLive catalog pid = Some p ∧
       CartItem.price line = Product.price p ∧
       CartItem.totalPrice line = Product.price p * CartItem.quantity line) ∧
  (∀ auth op db,
     uniqueIds (products db) → cartsDistinct db →
     cartsDistinct (runOp isValid u auth op db).1).
Proof.
  split; [|intros; by apply runOp_keeps_distinct].
  intros pid q1 q2 db0 db1 catalog db2 r1 r2 Hu H1 H2.
  apply addItemToCart_line in H1
    as (? & i1 & c1 & k1 & line1 & [= <-] & _ & Hf1 & Hk1 & Hq1 & _ & _).
  apply addItemToCart_line in H2
    as (? & i2 & c2 & k2 & line2 & [= <-] & _ & Hf2 & Hk2 & Hq2 & Hpriced & Hd).
  simpl in Hpriced, Hd.
  destruct Hpriced as (p & Hp & _ & Hprice & Htotal).
  assert (CartItem.productId line2 = pid) as Hpid
    by (by apply list_find_Some in Hk2 as (_ & ? & _)).
  exists i2, c2, line2, p. split_and!; try done.
  - eapply filter_unique_line; [by apply Hd|done].
  - assert (priorQuantity (setProducts catalog db1) u pid = CartItem.quantity line1)
      as Hprior.
    { unfold priorQuantity, lineOf, docOf.
      change (CartService.findOneCart (setProducts catalog db1) u)
        with (CartService.findOneCart db1 u).
      rewrite Hf1. simpl. by rewrite Hk1. }
    rewrite Hq2, Hprior, Hq1. lia.
  - by rewrite <- Hpid.
  - by rewrite Htotal, Hprice.
Qed.

Lemma addItem_twice_merges_into_one_line_witness :
  ∃ i c line p,
    CartService.findOneCart shopThreePens u1 = Some (i, c) ∧
    filter (λ item, CartItem.productId item = p1) (Cart.items c) = [line] ∧
    CartItem.quantity line = priorQuantity shop u1 p1 + 2 + 1 ∧
    CartModel.findOneLive [pen; ink] p1 = Some p ∧
    CartItem.price line = Product.price p ∧
    CartItem.totalPrice line = Product.price p * CartItem.quantity line.
Proof.
  eapply (proj1 (addItem_twice_merges_into_one_line isObjectIdString u1)
            p1 2 1 shop shopTwoPens [pen; ink]).
  - unfold uniqueIds. apply (bool_decide_unpack _). vm_compute. exact I.
  - vm_compute. reflexivity.
  - vm_compute. reflexivity.
Defined.

(** ** A user without a live cart *)

(** C10 as stated fails for updateQuantity: with no live cart and a quantity
    above the stock, the stock check, which comes first, answers
    BadRequest. *)
Lemma updateQuantity_without_cart_can_be_BadRequest :
  ¬ spec_updateQuantity_without_cart_is_NotFound isObjectIdString shop u1 p1 10.
Proof.
  intros H. destruct (H eq_refl) as [m Hm].
  vm_compute in Hm. discriminate Hm.
Qed.

(** C10, amended. With no live cart (never created, or soft-cleared), view by
    the owner returns the empty cart, removeItem and clear fail with NotFound,
    and updateQuantity fails too: with NotFound, unless the product is live
    and the quantity exceeds its stock, where it fails with BadRequest. *)
Theorem without_live_cart isValid u db :
  isValid u = true →
  CartService.findOneCart db u = None →
  CartService.getUserCart isValid u u db = (db, inr (CartView.mk u [] 0)) ∧
  CartService.clearCart isValid u u db = (db, inl (NotFoundError "Cart not found")) ∧
  (∀ pid, isValid pid = true →
     CartService.removeItemFromCart isValid u pid u db
     = (db, inl (NotFoundError "Cart not found"))) ∧
  (∀ pid qz, isValid pid = true → 0 < qz →
     CartService.updateCartItemQuantity isValid u pid (JsInt qz) u db
     = (db, inl match CartModel.findOneLive (products db) pid with
                | None => NotFoundError "Product not found or unavailable"
                | Some p =>
                  if decide (Product.stock p < qz)
                  then BadRequestError
                         ("Insufficient stock for product " +:+ Product.name p)
                  else NotFoundError "Cart not found"
                end)).
Proof.
  intros Hu Hnone. split_and!.
  - unfold_cart. rewrite Hu. simpl.
    rewrite decide_False by (intros Hne; by apply Hne). by rewrite Hnone.
  - unfold_cart. rewrite Hu. simpl.
    rewrite decide_False by (intros Hne; by apply Hne). by rewrite Hnone.
  - intros pid Hp. unfold_cart. rewrite Hu, Hp. simpl.
    rewrite decide_False by (intros Hne; by apply Hne). by rewrite Hnone.
  - intros pid qz Hp Hq. unfold_cart. rewrite Hu, Hp. simpl.
    rewrite bool_decide_eq_false_2 by lia.
    rewrite decide_False by (intros Hne; by apply Hne).
    destruct (CartModel.findOneLive _ _) as [p|]; [|done].
    destruct (decide (Product.stock p < qz)); [done|]. by rewrite Hnone.
Qed.

Lemma without_live_cart_witness :
  CartService.getUserCart isObjectIdString u1 u1 shopCleared
  = (shopCleared, inr (CartView.mk u1 [] 0)).
Proof.
  refine (proj1 (without_live_cart isObjectIdString u1 _ _ _)).
  - reflexivity.
  - vm_compute. reflexivity.
Defined.

(** ** When addItem fails and when it succeeds *)

Lemma addItem_past_checks d pid name price qz db p :
  CartModel.findOneLive (products db) pid = Some p → qz ≤ Product.stock p →
  CartModel.addItem d pid name price qz db
  = CartModel.save
      (d.1, Cart.mk (Cart.userId d.2)
              (CartModel.mergeItem (Cart.items d.2) p pid qz)
              (CartModel.sumTotalPrice (CartModel.mergeItem (Cart.items d.2) p pid qz))
              (Cart.isDeleted d.2)) db.
Proof.
  intros Hlive Hstock. unfold CartModel.addItem. unfold_M.
  rewrite Hlive. by rewrite decide_False by lia.
Qed.

(** Past its own checks, [addItemToCart] stands or falls with the save of
    the merged cart. *)
Lemma addItemToCart_past_checks isValid u pid qz db p :
  isValid u = true → isValid pid = true → 0 < qz →
  CartModel.findOneLive (products db) pid = Some p → qz ≤ Product.stock p →
  let d := docOf db u in
  let items := CartModel.mergeItem (Cart.items d.2) p pid qz in
  let merged := (d.1, Cart.mk (Cart.userId d.2) items (CartModel.sumTotalPrice items)
                        (Cart.isDeleted d.2)) in
  (∀ db' e, CartModel.save merged db = (db', inl e) →
     CartService.addItemToCart isValid u pid (JsInt qz) u db
     = (db, inl (BadRequestError "Failed to add item to cart"))) ∧
  (∀ db' d', CartModel.save merged db = (db', inr d') →
     ∃ r, CartService.addItemToCart isValid u pid (JsInt qz) u db = (db', inr r)).
Proof.
  intros Hu Hp Hq Hlive Hstock d items merged.
  assert (CartService.addItemToCart isValid u pid (JsInt qz) u db
          = withTransaction (keepTyped (BadRequestError "Failed to add item to cart"))
              (cart ← CartModel.save merged ; CartService.findByIdPopulated cart) db)
    as Heq.
  { unfold CartService.addItemToCart, CartService.invalidQuantity,
      CartService.toNumber, withTransaction.
    rewrite Hu, Hp. simpl. rewrite bool_decide_eq_false_2 by lia.
    rewrite decide_False by (intros Hne; by apply Hne).
    unfold mbind at 1, M_bind at 1, get at 1. rewrite Hlive.
    rewrite decide_False by lia.
    unfold mbind, M_bind.
    rewrite (addItem_past_checks _ _ _ _ _ _ p Hlive Hstock). done. }
  rewrite Heq. unfold withTransaction, CartService.findByIdPopulated.
  unfold_M. split.
  - intros db' e Hs. rewrite Hs. apply save_inl in Hs as [_ He].
    by rewrite keepTyped_plain.
  - intros db' d' Hs. rewrite Hs. by eexists.
Qed.

Lemma mergeItem_distinct items p pid q :
  NoDup (CartItem.productId <$> items) →
  NoDup (CartItem.productId <$> CartModel.mergeItem items p pid q).
Proof.
  intros Hnd. unfold CartModel.mergeItem.
  destruct (list_find _ items) as [[k item]|] eqn:Hf.
  - apply list_find_Some in Hf as (Hk & Hpid & _).
    rewrite list_fmap_insert. simpl. rewrite list_insert_id; [done|].
    by rewrite list_lookup_fmap, Hk.
  - rewrite fmap_app. apply NoDup_app. split_and!; [done| |apply NoDup_singleton].
    intros x Hx ->%list_elem_of_singleton. simpl in Hx.
    apply list_elem_of_fmap in Hx as (item & Hpid & Hin).
    apply list_find_None in Hf. rewrite Forall_forall in Hf. by apply (Hf item).
Qed.

Lemma mergeItem_valid items p pid q :
  Forall CartModel.validItem items →
  Product.name p ≠ "" → 0 ≤ Product.price p → 0 < q →
  Forall CartModel.validItem (CartModel.mergeItem items p pid q).
Proof.
  intros Hv Hname Hprice Hq. unfold CartModel.mergeItem.
  destruct (list_find _ items) as [[k item]|] eqn:Hf.
  - apply list_find_Some in Hf as (Hk & _ & _).
    apply Forall_insert; [done|].
    rewrite Forall_lookup in Hv. destruct (Hv _ _ Hk) as (? & ? & ? & ?).
    unfold CartModel.validItem. simpl. split_and!; [done|done|lia|nia].
  - apply Forall_app. split; [done|]. constructor; [|done].
    unfold CartModel.validItem. simpl. split_and!; [done|done|lia|nia].
Qed.

Lemma mergeItem_ok catalog items p pid q :
  NoDup (CartItem.productId <$> items) →
  Forall (λ item, CartItem.productId item ≠ pid → lineOk catalog item) items →
  CartModel.findOneLive catalog pid = Some p →
  match snd <$> list_find (λ item, CartItem.productId item = pid) items with
  | Some l => CartItem.quantity l
  | None => 0
  end + q ≤ Product.stock p →
  Forall (lineOk catalog) (CartModel.mergeItem items p pid q).
Proof.
  intros Hnd Hothers Hlive Hstock. unfold CartModel.mergeItem.
  rewrite Forall_lookup in Hothers.
  destruct (list_find _ items) as [[k item]|] eqn:Hf; simpl in Hstock.
  - apply list_find_Some in Hf as (Hk & Hpid & _).
    apply Forall_lookup. intros j x Hj.
    apply list_lookup_insert_Some in Hj as [(-> & <- & _)|[Hne Hj]].
    + exists p. simpl. rewrite Hpid. split; [done|lia].
    + apply (Hothers j); [done|]. intros Hx. apply Hne.
      eapply (NoDup_lookup _ k j pid Hnd); rewrite list_lookup_fmap.
      * by rewrite Hk; simpl; rewrite Hpid.
      * by rewrite Hj; simpl; rewrite Hx.
  - apply Forall_app. split.
    + apply list_find_None in Hf. rewrite Forall_lookup in Hf.
      apply Forall_lookup. intros j x Hj. apply (Hothers j); [done|]. by apply (Hf j).
    + constructor; [|done]. exists p. simpl. split; [done|lia].
Qed.

Lemma mergeItem_bad catalog items p pid q :
  Exists (λ item, CartItem.productId item ≠ pid ∧ lineBad catalog item) items →
  Exists (lineBad catalog) (CartModel.mergeItem items p pid q).
Proof.
  intros (x & Hin & Hne & Hbad)%Exists_exists. apply Exists_exists. exists x.
  split; [|done]. unfold CartModel.mergeItem.
  destruct (list_find _ items) as [[k item]|] eqn:Hf.
  - apply list_find_Some in Hf as (Hk & Hpid & _).
    apply list_elem_of_lookup in Hin as [j Hj]. apply list_elem_of_lookup. exists j.
    rewrite list_lookup_insert_ne; [done|]. intros ->. congruence.
  - apply elem_of_app. by left.
Qed.

Lemma sumTotalPrice_nonneg items :
  Forall CartModel.validItem items → 0 ≤ CartModel.sumTotalPrice items.
Proof.
  rewrite sumTotalPrice_foldr. induction 1 as [|x l (_ & _ & _ & ?) _ IH]; simpl; lia.
Qed.

Lemma save_ok h c db :
  CartModel.valid c → uniqueIds (products db) → distinctLines c →
  Forall (lineOk (products db)) (Cart.items c) →
  ∃ db' d', CartModel.save (h, c) db = (db', inr d').
Proof.
  intros Hv Hu Hd Hok. destruct (preSave_ok _ _ Hu Hd Hok) as [c' Hc'].
  unfold CartModel.save, CartModel.validate. unfold_M. simpl.
  rewrite decide_True by done. rewrite Hc'. destruct h; by eexists _, _.
Qed.

(** C3 as stated fails: the pen is live and four pens are within its stock
    of five, but the cart also holds the ink that the seller has withdrawn,
    and the save revalidates that line too. *)
Lemma addItem_within_stock_can_fail :
  ¬ spec_addItem_succeeds_within_stock isObjectIdString shopInkWithdrawn u1 p1 1.
Proof.
  intros H. destruct (H pen) as [r Hr].
  - reflexivity.
  - vm_compute. discriminate.
  - vm_compute in Hr. discriminate Hr.
Qed.

(** C3, amended. For a live product and a valid request by the owner:
    addItem fails with the BadRequest "Insufficient stock for product <name>"
    exactly when the requested quantity alone exceeds the stock; when only the
    cumulative quantity exceeds it, or when another line of the cart is not
    covered by the catalog any more, addItem fails with the BadRequest
    "Failed to add item to cart"; it succeeds when the request spells the
    product id as the catalog prints it, the cumulative quantity is within
    stock and every other line of the (schema-valid, duplicate-free) cart
    passes the revalidation. *)
Theorem addItem_outcome isValid u pid qz db p :
  isValid u = true → isValid pid = true → 0 < qz →
  CartModel.findOneLive (products db) pid = Some p →
  let cart := (docOf db u).2 in
  let run := CartService.addItemToCart isValid u pid (JsInt qz) u db in
  (Product.stock p < qz ↔
   run = (db, inl (BadRequestError
                     ("Insufficient stock for product " +:+ Product.name p)))) ∧
  (qz ≤ Product.stock p → Product.stock p < priorQuantity db u pid + qz →
   run = (db, inl (BadRequestError "Failed to add item to cart"))) ∧
  (qz ≤ Product.stock p →
   Exists (λ item, CartItem.productId item ≠ pid ∧ lineBad (products db) item)
     (Cart.items cart) →
   run = (db, inl (BadRequestError "Failed to add item to cart"))) ∧
  (spelledAsStored db pid →
   priorQuantity db u pid + qz ≤ Product.stock p →
   uniqueIds (products db) → Product.name p ≠ "" → 0 ≤ Product.price p →
   CartModel.valid cart → distinctLines cart →
   Forall (λ item, CartItem.productId item ≠ pid → lineOk (products db) item)
     (Cart.items cart) →
   ∃ db' r, run = (db', inr r)).
Proof.
  intros Hu Hp Hq Hlive cart run.
  pose proof (addItemToCart_past_checks isValid u pid qz db p Hu Hp Hq Hlive) as Hpast.
  split_and!.
  - split.
    + intros Hlt. by apply addItemToCart_short_of_stock.
    + intros Hrun. destruct (decide (Product.stock p < qz)) as [|Hge]; [done|].
      exfalso. apply Z.nlt_ge in Hge. destruct (Hpast Hge) as [Hfail Hsucc].
      match type of Hfail with
      | context [CartModel.save ?m db] =>
        destruct (CartModel.save m db) as [db' [e|d']] eqn:Hs
      end.
      * unfold run in Hrun. rewrite (Hfail _ _ eq_refl) in Hrun.
        simpl in Hrun. discriminate Hrun.
      * destruct (Hsucc _ _ eq_refl) as [r Hr]. unfold run in Hrun.
        rewrite Hr in Hrun. discriminate Hrun.
  - intros Hge Hcum. destruct (Hpast Hge) as [Hfail Hsucc].
    match type of Hfail with
    | context [CartModel.save ?m db] =>
      destruct (CartModel.save m db) as [db' [e|d']] eqn:Hs
    end; [by eapply Hfail|].
    exfalso. destruct (Hsucc _ _ eq_refl) as [r Hr].
    apply addItemToCart_line in Hr
      as (? & i & c & k & line & [= <-] & _ & _ & Hk & Hquant & (p' & Hp' & Hle & _) & _).
    apply list_find_Some in Hk as (_ & Hpid & _).
    rewrite Hpid, Hlive in Hp'. injection Hp' as <-. lia.
  - intros Hge Hbad. destruct (Hpast Hge) as [Hfail _].
    match type of Hfail with
    | context [CartModel.save ?m db] =>
      destruct (save_bad m db) as [e He]; [|by eapply Hfail]
    end.
    by apply mergeItem_bad.
  - intros _ Hcum Huniq Hname Hprice [Hitems Htotal] Hdistinct Hothers.
    assert (0 ≤ priorQuantity db u pid) as Hprior.
    { unfold priorQuantity, lineOf. fold cart.
      destruct (list_find _ (Cart.items cart)) as [[k item]|] eqn:Hf; simpl; [|lia].
      apply list_find_Some in Hf as (Hk & _).
      rewrite Forall_lookup in Hitems. destruct (Hitems _ _ Hk) as (_ & _ & ? & _). lia. }
    destruct (Hpast ltac:(lia)) as [_ Hsucc].
    match type of Hsucc with
    | context [CartModel.save (?h, ?c) db] =>
      destruct (save_ok h c db) as (db' & d' & Hs)
    end.
    + split; simpl.
      * by apply mergeItem_valid.
      * apply sumTotalPrice_nonneg. by apply mergeItem_valid.
    + done.
    + by apply mergeItem_distinct.
    + simpl. by apply mergeItem_ok.
    + destruct (Hsucc _ _ Hs) as [r Hr]. by exists db', r.
Qed.

Lemma addItem_outcome_witness :
  CartService.addItemToCart isObjectIdString u1 p1 (JsInt 3) u1 shopWithCart
  = (shopWithCart, inl (BadRequestError "Failed to add item to cart")) ∧
  ∃ db' r, CartService.addItemToCart isObjectIdString u1 p1 (JsInt 2) u1 shopWithCart
           = (db', inr r).
Proof.
  split.
  - refine (proj1 (proj2 (addItem_outcome isObjectIdString u1 p1 3 shopWithCart pen
                            _ _ _ _)) _ _);
      first [reflexivity | lia | (vm_compute; first [reflexivity | discriminate])].
  - assert (0 < 2) as Hq by lia.
    refine (proj2 (proj2 (proj2 (addItem_outcome isObjectIdString u1 p1 2 shopWithCart pen
                                   eq_refl eq_refl Hq eq_refl))) _ _ _ _ _ _ _ _).
    + apply list_elem_of_here.
    + vm_compute. discriminate.
    + apply (bool_decide_unpack _). vm_compute. exact I.
    + discriminate.
    + vm_compute. discriminate.
    + apply (bool_decide_unpack _). vm_compute. exact I.
    + apply (bool_decide_unpack _). vm_compute. exact I.
    + apply Forall_cons. split; [intros Hne; by destruct Hne|].
      apply Forall_cons. split; [|constructor].
      intros _. exists ink. split; [reflexivity|]. vm_compute. discriminate.
Defined.

(** ** Orders: the total is frozen at creation *)

Lemma order_preSave_inr o o' :
  OrderModel.preSave o = inr o' →
  o' = Order.mk (Order._id o) (Order.userId o) (Order.products o)
         (Order.shippingAddress o) (Order.billingAddress o) (Order.paymentMethod o)
         (Order.razorpayOrderId o) (OrderModel.sumLines (Order.products o))
         (Order.paymentStatus o) (Order.status o) (Order.isDeleted o).
Proof. unfold OrderModel.preSave. repeat case_match; by intros [= <-]. Qed.

Lemma order_save_inr o db db' o' :
  OrderModel.save o db = (db', inr o') →
  OrderModel.valid o ∧ OrderModel.preSave o = inr o' ∧
  (Order._id o' ∉ Order._id <$> orders db) ∧
  db' = setOrders (orders db ++ [o']) db.
Proof.
  unfold OrderModel.save, OrderModel.validate. unfold_M.
  destruct (decide (OrderModel.valid o)); [|done].
  destruct (OrderModel.preSave o) as [e|o1]; [done|].
  destruct (decide (_ ∈ _)); [done|]. by intros [= <- <-].
Qed.

Lemma order_save_inl o db db' e : OrderModel.save o db = (db', inl e) → db' = db.
Proof.
  unfold OrderModel.save, OrderModel.validate. unfold_M.
  repeat case_match; by intros [= <- _].
Qed.

(** The order just saved is the one that a lookup by its id returns. *)
Lemma order_found_after_save o db db' o' :
  OrderModel.save o db = (db', inr o') → Order.isDeleted o = false →
  list_find (λ x, Order._id x = Order._id o ∧ Order.userId x = Order.userId o ∧
                  Order.isDeleted x = false) (orders db')
  = Some (length (orders db), o').
Proof.
  intros (_ & Hpre & Hfresh & ->)%order_save_inr Hdel.
  apply order_preSave_inr in Hpre. subst o'. simpl in *.
  rewrite list_find_app_r.
  - simpl. by rewrite decide_True.
  - apply list_find_None, Forall_forall. intros x Hx (Hid & _).
    apply Hfresh. rewrite <- Hid. by apply list_elem_of_fmap_2.
Qed.

Lemma frozen_populate db o : frozen (OrderService.populate db o) = frozenOrder o.
Proof.
  unfold frozen, frozenOrder, OrderService.populate. simpl. f_equal.
  rewrite <- list_fmap_compose. by apply list_fmap_ext.
Qed.

Lemma getOrderDetails_after_save isValid o db db' o' catalog :
  OrderModel.save o db = (db', inr o') →
  isValid (Order.userId o) = true → isValid (Order._id o) = true →
  Order.isDeleted o = false →
  ∃ v, OrderService.getOrderDetails isValid (Order.userId o) (Order._id o)
         (setProducts catalog db') = (setProducts catalog db', inr v) ∧
       frozen v = frozenOrder o' ∧
       Order.products o' = Order.products o ∧
       Order.totalAmount o' =
         foldr (λ l acc, OrderLine.price l * OrderLine.quantity l + acc) 0
           (Order.products o).
Proof.
  intros Hs Hu Hid Hdel.
  pose proof (order_found_after_save _ _ _ _ Hs Hdel) as Hfind.
  apply order_save_inr in Hs as (_ & Hpre & _). apply order_preSave_inr in Hpre.
  exists (OrderService.populate (setProducts catalog db') o').
  unfold OrderService.getOrderDetails. unfold_M. rewrite Hu, Hid. simpl.
  rewrite Hfind. split_and!; [done|apply frozen_populate|by subst o'|].
  subst o'. simpl. apply sumLines_foldr.
Qed.

Lemma findProductById_Some db id p :
  findProductById db id = Some p → p ∈ products db ∧ Product._id p = id.
Proof.
  unfold findProductById. destruct (list_find _ _) as [[i q]|] eqn:Hf; [|done].
  intros [= <-]. apply list_find_Some in Hf as (Hi & ? & _).
  split; [|done]. by eapply list_elem_of_lookup_2.
Qed.

(** The loop of [createOrder] appends one line per request, priced from the
    catalog as it is read in the transaction, and adds its amount. *)
Lemma collect_inr isValid sellerIdOf db items total details total' details' :
  OrderService.collect isValid sellerIdOf db items total details = inr (total', details') →
  ∃ new,
    details' = details ++ new ∧
    total' = total + foldr (λ l acc, OrderLine.price l * OrderLine.quantity l + acc) 0 new ∧
    Forall2 (λ item l,
               LineRequest.quantity item = JsInt (OrderLine.quantity l) ∧
               1 ≤ OrderLine.quantity l ∧
               OrderLine.productId l = LineRequest.productId item ∧
               ∃ p, findProductById db (LineRequest.productId item) = Some p ∧
                    OrderLine.price l = Product.price p ∧
                    sellerIdOf p = Some (OrderLine.sellerId l)) items new.
Proof.
  revert total details. induction items as [|item rest IH]; intros total details; simpl.
  - intros [= <- <-]. exists []. rewrite app_nil_r. split_and!; [done|simpl; lia|constructor].
  - destruct (negb _); [done|].
    unfold OrderService.invalidQuantity. destruct (LineRequest.quantity item) as [z|] eqn:Hq;
      simpl; [|done].
    destruct (bool_decide (z < 1)) eqn:Hz; [done|]. apply bool_decide_eq_false in Hz.
    destruct (findProductById db _) as [p|] eqn:Hp; [|done].
    destruct (sellerIdOf p) as [sid|] eqn:Hsid; [|done].
    intros (new & -> & -> & Hall)%IH.
    eexists (_ :: new). rewrite <- app_assoc. split_and!; [done|simpl; lia|].
    constructor; [|done]. simpl. split_and!; [done|lia| |by exists p].
    by apply findProductById_Some in Hp as [_ ?].
Qed.

Lemma createOrder_inr isValid sellerIdOf sendEmail id u items s b pm db db' o' :
  OrderService.createOrder isValid sellerIdOf sendEmail id u items s b pm db
  = (db', inr o') →
  ∃ total lines,
    isValid u = true ∧
    OrderService.collect isValid sellerIdOf db items 0 [] = inr (total, lines) ∧
    OrderModel.save
      (Order.mk id u lines (default Address.empty s) (default Address.empty b)
         (default "razorpay" pm) None total "pending" "pending" false) db
    = (db', inr o').
Proof.
  unfold OrderService.createOrder, withTransaction. unfold_M. intros H.
  destruct (isValid u); [|done]. simpl in H.
  destruct (bool_decide _); [done|].
  destruct (OrderService.collect _ _ _ _ _ _) as [e|[total lines]]; [done|].
  destruct (OrderModel.save _ db) as [db1 [e|o1]] eqn:Hs; [done|].
  exists total, lines. split_and!; try done.
  repeat case_match; simplify_eq; done.
Qed.

Lemma getUserOrders_stored isValid u page limit db db' vs :
  OrderService.getUserOrders isValid u page limit db = (db', inr vs) →
  Forall (λ v, ∃ o, o ∈ orders db ∧ frozen v = frozenOrder o) vs.
Proof.
  unfold OrderService.getUserOrders. unfold_M.
  destruct (negb _); [done|]. destruct (decide (_ < 0)); [done|].
  intros [= <- <-]. apply Forall_fmap, Forall_forall. intros o Ho. exists o.
  split; [|apply frozen_populate].
  assert (o ∈ filter (λ o, Order.userId o = u ∧ Order.isDeleted o = false) (orders db))
    as [_ ?]%list_elem_of_filter; [|done].
  eapply subseteq_drop. destruct (decide (limit = 0)); [done|].
  by eapply subseteq_take.
Qed.

Lemma getUserOrders_page isValid u page limit db :
  isValid u = true → 1 ≤ page → 1 ≤ limit →
  OrderService.getUserOrders isValid u page limit db
  = (db, inr (OrderService.populate db <$>
                take (Z.to_nat limit)
                  (drop (Z.to_nat (page - 1) * Z.to_nat limit) (userOrders db u)))).
Proof.
  intros Hu Hp Hl. unfold OrderService.getUserOrders. unfold_M. rewrite Hu. simpl.
  rewrite decide_False by nia. rewrite decide_False by lia.
  rewrite Z.abs_eq by lia.
  replace (Z.to_nat ((page - 1) * limit)) with (Z.to_nat (page - 1) * Z.to_nat limit)%nat
    by (rewrite Z2Nat.inj_mul; lia).
  done.
Qed.

Lemma userOrders_after_save o db db' o' :
  OrderModel.save o db = (db', inr o') → Order.isDeleted o = false →
  userOrders db' (Order.userId o) = userOrders db (Order.userId o) ++ [o'].
Proof.
  intros (_ & Hpre & _ & ->)%order_save_inr Hdel.
  apply order_preSave_inr in Hpre. subst o'. unfold userOrders. simpl.
  rewrite filter_app. f_equal. by rewrite filter_cons_True.
Qed.

(** C1. The total stored with an order is the sum, over its lines, of the
    unit price frozen in the line times the quantity; the saved order is among
    the orders of its user; and whatever the catalog prices become
    afterwards, getOrderDetails and every page of getUserOrders return the
    stored totals and the stored line prices. *)
Theorem order_total_is_frozen isValid :
  (∀ o db db' o' catalog,
     OrderModel.save o db = (db', inr o') →
     isValid (Order.userId o) = true → isValid (Order._id o) = true →
     Order.isDeleted o = false →
     ∃ v, OrderService.getOrderDetails isValid (Order.userId o) (Order._id o)
            (setProducts catalog db') = (setProducts catalog db', inr v) ∧
          frozen v = frozenOrder o' ∧
          Order.products o' = Order.products o ∧
          Order.totalAmount o' =
            foldr (λ l acc, OrderLine.price l * OrderLine.quantity l + acc) 0
              (Order.products o)) ∧
  (∀ o db db' o',
     OrderModel.save o db = (db', inr o') → Order.isDeleted o = false →
     userOrders db' (Order.userId o) = userOrders db (Order.userId o) ++ [o']) ∧
  (∀ u page limit db catalog,
     isValid u = true → 1 ≤ page → 1 ≤ limit →
     ∃ vs, OrderService.getUserOrders isValid u page limit (setProducts catalog db)
           = (setProducts catalog db, inr vs) ∧
           frozen <$> vs
           = frozenOrder <$> take (Z.to_nat limit)
                               (drop (Z.to_nat (page - 1) * Z.to_nat limit)
                                  (userOrders db u))) ∧
  (∀ u page limit db catalog vs,
     (OrderService.getUserOrders isValid u page limit (setProducts catalog db)).2
     = inr vs →
     Forall (λ v, ∃ o, o ∈ orders db ∧ frozen v = frozenOrder o) vs).
Proof.
  split_and!.
  - intros. by eapply getOrderDetails_after_save.
  - intros. by eapply userOrders_after_save.
  - intros u page limit db catalog Hu Hp Hl. eexists. split.
    + by apply getUserOrders_page.
    + rewrite <- list_fmap_compose. apply list_fmap_ext. intros _ o _. simpl.
      apply frozen_populate.
  - intros u page limit db catalog vs H.
    destruct (OrderService.getUserOrders _ _ _ _ _) as [db1 r] eqn:Hg. simpl in H. subst r.
    by apply getUserOrders_stored in Hg.
Qed.

Lemma order_total_is_frozen_witness :
  (∃ v, OrderService.getOrderDetails isObjectIdString u1 o1
          (setProducts [penRepriced; ink] shopAfterOrder)
        = (setProducts [penRepriced; ink] shopAfterOrder, inr v) ∧
        OrderView.totalAmount v = 200) ∧
  (∃ vs, OrderService.getUserOrders isObjectIdString u1 1 10
           (setProducts [penRepriced; ink] shopAfterOrder)
         = (setProducts [penRepriced; ink] shopAfterOrder, inr vs) ∧
         frozen <$> vs = [(o1, 200, [(100, 2)])]).
Proof.
  destruct (order_total_is_frozen isObjectIdString) as (Hdetails & _ & Hpages & _).
  split.
  - destruct (Hdetails orderTwoPens shop shopAfterOrder
                (Order.mk o1 u1 [OrderLine.mk p1 2 100 s1] home home
                   "razorpay" None 200 "pending" "pending" false)
                [penRepriced; ink])
      as (v & Hv & Hfrozen & _); try reflexivity.
    exists v. split; [exact Hv|]. by injection Hfrozen as _ ? _.
  - assert (1 ≤ 1) as Hp by lia. assert (1 ≤ 10) as Hl by lia.
    destruct (Hpages u1 1 10 shopAfterOrder [penRepriced; ink] eq_refl Hp Hl)
      as (vs & Hvs & Hfrozen).
    exists vs. split; [exact Hvs|exact Hfrozen].
Defined.

(** ** createOrder: the seller path and the deleted flag *)

(** Under the schema of the Product model, where [product.sellerId] is
    [undefined], no call of createOrder returns an order. *)
Lemma createOrder_strict_never_returns isValid sendEmail id u items s b pm db :
  ∃ e, OrderService.createOrder isValid OrderService.strictSellerId sendEmail
         id u items s b pm db = (db, inl e).
Proof.
  unfold OrderService.createOrder, withTransaction. unfold_M.
  destruct (negb _); [by eexists|].
  destruct items as [|item rest]; [by eexists|]. simpl.
  destruct (negb _); [by eexists|].
  destruct (OrderService.invalidQuantity _); [by eexists|].
  destruct (findProductById _ _); by eexists.
Qed.

(** C5, at the failing input: an order of two pens, the pen being
    soft-deleted.  The claim asks for NotFound.  With [product.sellerId] as the
    Product schema leaves it, the call is refused for want of a seller, as it
    is for a live product, with or without addresses; read from the declared
    [seller] path and given both addresses, the order for the deleted product
    is created. *)
Lemma createOrder_seller_path_and_deleted_product :
  (OrderService.createOrder isObjectIdString OrderService.strictSellerId mailUp
     o1 u1 [LineRequest.mk p1 (JsInt 2)] None None None shopPenDeleted).2
  = inl (BadRequestError "Product 0000000000000000000000c1 has no seller") ∧
  (OrderService.createOrder isObjectIdString OrderService.strictSellerId mailUp
     o1 u1 [LineRequest.mk p1 (JsInt 2)] (Some home) (Some home) None shopPenDeleted).2
  = inl (BadRequestError "Product 0000000000000000000000c1 has no seller") ∧
  (OrderService.createOrder isObjectIdString OrderService.strictSellerId mailUp
     o1 u1 [LineRequest.mk p1 (JsInt 2)] (Some home) (Some home) None shop).2
  = inl (BadRequestError "Product 0000000000000000000000c1 has no seller") ∧
  (OrderService.createOrder isObjectIdString OrderService.declaredSeller mailUp
     o1 u1 [LineRequest.mk p1 (JsInt 2)] (Some home) (Some home) None shopPenDeleted).2
  = inr (Order.mk o1 u1 [OrderLine.mk p1 2 50 s1] home home
           "razorpay" None 100 "pending" "pending" false).
Proof. split_and!; vm_compute; reflexivity. Qed.

(** ** createOrder: the confirmation mail *)

(** The code below the seller check, for a seller lookup that yields a
    value: the mail is awaited inside the transaction, before the commit, with
    no [try] of its own; when it is rejected, the transaction is aborted, the
    order is not stored and createOrder throws. *)
Lemma createOrder_mail_is_awaited_before_commit isValid sellerIdOf sendEmail id u items
    s b pm db total lines db1 o' user e :
  isValid u = true → items ≠ [] →
  OrderService.collect isValid sellerIdOf db items 0 [] = inr (total, lines) →
  OrderModel.save
    (Order.mk id u lines (default Address.empty s) (default Address.empty b)
       (default "razorpay" pm) None total "pending" "pending" false) db
  = (db1, inr o') →
  findUserById db u = Some user → User.email user ≠ "" →
  sendEmail (User.email user) "Order Confirmation" = Some e →
  OrderService.createOrder isValid sellerIdOf sendEmail id u items s b pm db
  = (db, inl (keepTyped (Error ("Error creating order: " +:+ message e)) e)).
Proof.
  intros Hu Hitems Hcol Hs Huser Hemail Hsend.
  unfold OrderService.createOrder, withTransaction. unfold_M.
  rewrite Hu. simpl. rewrite bool_decide_eq_false_2 by (by destruct items).
  rewrite Hcol, Hs. apply order_save_inr in Hs as (_ & _ & _ & ->).
  change (findUserById (setOrders (orders db ++ [o']) db) u) with (findUserById db u).
  rewrite Huser. rewrite bool_decide_eq_true_2 by done.
  by rewrite Hsend.
Qed.


(** ** verifyPayment *)

Lemma findOneAndUpdate_Some (filter : Order.t → Prop) `{!∀ o, Decision (filter o)}
    update db i o :
  list_find filter (orders db) = Some (i, o) →
  OrderModel.findOneAndUpdate filter update db
  = (setOrders (<[i := update o]> (orders db)) db, inr (Some (update o))).
Proof. intros Hf. unfold OrderModel.findOneAndUpdate. unfold_M. by rewrite Hf. Qed.

Lemma list_find_update (filter : Order.t → Prop) `{!∀ o, Decision (filter o)}
    (os : list Order.t) i o o' :
  list_find filter os = Some (i, o) → filter o' →
  list_find filter (<[i := o']> os) = Some (i, o').
Proof.
  intros (Hi & _ & Hmin)%list_find_Some Ho'.
  apply list_find_insert_Some. right. left.
  split_and!; try done. by eapply lookup_lt_Some.
Qed.

Lemma verifyPayment_run hmac key sendEmail rid payId sig db i o :
  list_find (λ o, Order.razorpayOrderId o = rid) (orders db) = Some (i, o) →
  PaymentController.verifyPayment hmac key sendEmail rid payId sig db
  = if PaymentService.verifyPayment hmac key rid payId sig
    then (setOrders (<[i := OrderModel.setStatus "shipped"
                              (OrderModel.setPaymentStatus "completed" o)]> (orders db)) db,
          inr (200, "Payment successful"))
    else (setOrders (<[i := OrderModel.setStatus "failed"
                              (OrderModel.setPaymentStatus "failed" o)]> (orders db)) db,
          inr (400, "Payment verification failed")).
Proof.
  intros Hf.
  pose proof (proj1 (list_find_Some _ _ _ _) Hf) as (Hi & Hrid & _).
  assert (∀ paymentStatus,
            list_find (λ o, Order.razorpayOrderId o = rid)
              (orders (setOrders
                         (<[i := OrderModel.setPaymentStatus paymentStatus o]> (orders db)) db))
            = Some (i, OrderModel.setPaymentStatus paymentStatus o)) as Hf1
    by (intros; simpl; by apply (list_find_update _ _ i o)).
  unfold PaymentController.verifyPayment, PaymentService.updatePaymentStatus,
    PaymentController.trySendEmail.
  destruct (PaymentService.verifyPayment hmac key rid payId sig).
  - unfold mbind at 1, M_bind at 1.
    rewrite (findOneAndUpdate_Some _ _ _ _ _ Hf).
    unfold mbind at 1, M_bind at 1.
    rewrite (findOneAndUpdate_Some _ _ _ _ _ (Hf1 "completed")).
    simpl. rewrite list_insert_insert_eq. unfold_M. simpl.
    destruct (findUserById _ _) as [user|]; [|done].
    destruct (bool_decide _); [|done].
    by destruct (sendEmail _ _).
  - unfold mbind at 1, M_bind at 1.
    rewrite (findOneAndUpdate_Some _ _ _ _ _ Hf).
    unfold mbind at 1, M_bind at 1.
    rewrite (findOneAndUpdate_Some _ _ _ _ _ (Hf1 "failed")).
    simpl. by rewrite list_insert_insert_eq.
Qed.

(** C7, what the code does.  For an order that the gateway id designates:
    a verified payment sets paymentStatus to "completed" and status to
    "shipped"; a payment that is not verified sets paymentStatus to "failed"
    and writes "failed", which is not one of the order statuses, into status;
    the order is not cancelled. *)
Theorem verifyPayment_outcome hmac key sendEmail (rid payId sig : string) db i o :
  list_find (λ o, Order.razorpayOrderId o = Some rid) (orders db) = Some (i, o) →
  let run := PaymentController.verifyPayment hmac key sendEmail
               (Some rid) (Some payId) (Some sig) db in
  if PaymentService.verifyPayment hmac key (Some rid) (Some payId) (Some sig)
  then
    run.2 = inr (200, "Payment successful") ∧
    orders run.1 !! i
    = Some (OrderModel.setStatus "shipped" (OrderModel.setPaymentStatus "completed" o))
  else
    run.2 = inr (400, "Payment verification failed") ∧
    orders run.1 !! i
    = Some (OrderModel.setStatus "failed" (OrderModel.setPaymentStatus "failed" o)) ∧
    "failed" ∉ OrderModel.statuses.
Proof.
  intros Hf run. unfold run. rewrite (verifyPayment_run _ _ _ _ _ _ _ _ _ Hf).
  pose proof (lookup_lt_Some _ _ _ (proj1 (proj1 (list_find_Some _ _ _ _) Hf))) as Hlt.
  destruct (PaymentService.verifyPayment hmac key (Some rid) (Some payId) (Some sig)); simpl.
  - split; [done|]. by rewrite list_lookup_insert_eq by done.
  - split_and!; [done|by rewrite list_lookup_insert_eq by done|].
    unfold OrderModel.statuses. rewrite !elem_of_cons, elem_of_nil.
    intros [?|[?|[?|[?|[]]]]]; discriminate.
Qed.

Lemma verifyPayment_outcome_witness :
  (PaymentController.verifyPayment toyHmac "secret" mailUp
     (Some "order_1") (Some "pay_1") (Some "forged") shopWithOrder).2
  = inr (400, "Payment verification failed") ∧
  orders shopForgedPayment !! 0%nat
  = Some (OrderModel.setStatus "failed"
            (OrderModel.setPaymentStatus "failed" orderAtGateway)) ∧
  "failed" ∉ OrderModel.statuses.
Proof.
  refine (verifyPayment_outcome toyHmac "secret" mailUp "order_1" "pay_1" "forged"
            shopWithOrder 0%nat orderAtGateway _).
  reflexivity.
Defined.

(** * More properties of the cart service *)

Lemma runOp_error_status isValid u auth op db db' e :
  runOp isValid u auth op db = (db', inl e) →
  (status e = Some 400 ∨ status e = Some 403 ∨ status e = Some 404) ∧
  (status e = Some 403 → u ≠ auth).
Proof.
  destruct op; unfold runOp; unfold_cart; intros H;
    repeat case_match; simplify_eq; simpl;
    repeat match goal with
    | H : CartModel.save _ _ = (_, inl _) |- _ => apply save_inl in H as [_ H]
    end;
    rewrite ?keepTyped_plain by done; simpl.
  all: try (split; [tauto|]; try done; intros [=]).
Qed.

(** What an operation writes, when it writes: the cart document of the user
    it is called for, through the hook. *)
Lemma runOp_writes_own_cart isValid u auth op db db' r :
  runOp isValid u auth op db = (db', r) →
  db' = db ∨
  ∃ c c', Cart.userId c = u ∧
          CartModel.preSave (products db) c = inr c' ∧
          (op = Clear ↔ Cart.isDeleted c = true) ∧
          match (docOf db u).1 with
          | Some i => db' = setCarts (<[i := c']> (carts db)) db
          | None => db' = setCarts (carts db ++ [c']) db
          end.
Proof.
  destruct r as [e|[]]; [left; by eapply runOp_inl|]. intros Hrun.
  apply runOp_inr in Hrun.
  destruct (docOf_spec db u) as (Hu & Hdel & _).
  destruct op as [pid q|pid q|pid| |]; destruct Hrun as [r Hr].
  - apply addItemToCart_inr in Hr as (? & ? & d' & _ & _ & _ & _ & _ & Hs).
    apply save_inr in Hs as (_ & c' & Hpre & Hw). simpl in Hpre, Hw.
    right. eexists _, c'. split_and!; [|exact Hpre| |].
    + done.
    + simpl. rewrite Hdel. split; done.
    + destruct (docOf db u).1; by destruct Hw.
  - apply updateCartItemQuantity_inr in Hr
      as (? & ? & i & cart & ? & ? & d' & _ & _ & _ & _ & _ & Hf & _ & Hs).
    rewrite (findOneCart_docOf _ _ _ _ Hf) in *. simpl in *.
    apply save_inr in Hs as (_ & c' & Hpre & Hw). simpl in Hpre, Hw.
    right. eexists _, c'. split_and!; [|exact Hpre| |by destruct Hw].
    + done.
    + simpl. rewrite Hdel. split; done.
  - apply removeItemFromCart_inr in Hr as (i & cart & ? & ? & d' & _ & Hf & _ & Hs).
    rewrite (findOneCart_docOf _ _ _ _ Hf) in *. simpl in *.
    apply save_inr in Hs as (_ & c' & Hpre & Hw). simpl in Hpre, Hw.
    right. eexists _, c'. split_and!; [|exact Hpre| |by destruct Hw].
    + done.
    + simpl. rewrite Hdel. split; done.
  - apply clearCart_inr in Hr as (i & cart & d' & _ & Hf & Hs).
    rewrite (findOneCart_docOf _ _ _ _ Hf) in *. simpl in *.
    apply save_inr in Hs as (_ & c' & Hpre & Hw). simpl in Hpre, Hw.
    right. eexists _, c'. split_and!; [|exact Hpre| |by destruct Hw]; done.
  - left. pose proof (getUserCart_db isValid u auth db) as Hdb.
    by rewrite Hr in Hdb.
Qed.

(** X1. A well-formed cart operation called for somebody else's cart is
    refused with Forbidden (403) and writes nothing; conversely the owner is
    never answered 403, and every error of the service is a 400, a 403 or a
    404. *)
Theorem cart_operations_only_for_the_owner isValid u auth op db :
  (isValid u = true → wellFormedOp isValid op = true → u ≠ auth →
   ∃ m, runOp isValid u auth op db = (db, inl (ForbiddenError m))) ∧
  (∀ db' e, runOp isValid u auth op db = (db', inl e) →
            (status e = Some 400 ∨ status e = Some 403 ∨ status e = Some 404) ∧
            (status e = Some 403 → u ≠ auth)).
Proof.
  split; [|intros; by eapply runOp_error_status].
  intros Hu Hop Hne.
  destruct op as [pid q|pid q|pid| |]; simpl in Hop; unfold runOp; unfold_cart;
    rewrite Hu; simpl;
    repeat match goal with
    | H : _ && _ = true |- _ => apply andb_prop in H as [? H]
    | H : negb _ = true |- _ => apply negb_true_iff in H
    end;
    repeat match goal with
    | H : isValid _ = true |- _ => rewrite H
    | H : _ || _ = false |- _ => rewrite H
    end; simpl;
    rewrite decide_True by done; by eexists.
Qed.

Lemma cart_operations_only_for_the_owner_witness :
  ∃ m, runOp isObjectIdString u1 s1 (AddItem p1 (JsInt 2)) shop
       = (shop, inl (ForbiddenError m)).
Proof.
  apply (proj1 (cart_operations_only_for_the_owner isObjectIdString u1 s1
                  (AddItem p1 (JsInt 2)) shop)).
  - reflexivity.
  - reflexivity.
  - vm_compute. discriminate.
Defined.

Lemma list_find_insert_other {A} (P : A → Prop) `{!∀ x, Decision (P x)}
    (l : list A) i x :
  ¬ P x → (∀ y, l !! i = Some y → ¬ P y) →
  list_find P (<[i := x]> l) = list_find P l.
Proof.
  revert i. induction l as [|a l IH]; intros i Hx Hy; [done|].
  destruct i as [|i]; simpl.
  - rewrite decide_False by done. rewrite decide_False by (by apply Hy). done.
  - destruct (decide (P a)); [done|]. by rewrite IH.
Qed.

Lemma list_find_snoc_other {A} (P : A → Prop) `{!∀ x, Decision (P x)}
    (l : list A) x :
  ¬ P x → list_find P (l ++ [x]) = list_find P l.
Proof.
  intros Hx. destruct (list_find P l) as [[i y]|] eqn:Hf.
  - by apply list_find_app_l.
  - rewrite list_find_app_r by done. simpl. by rewrite decide_False.
Qed.

(** X2. An operation on the cart of one user leaves the live cart, and every
    cart document, of every other user as it was. *)
Theorem cart_operations_leave_other_users_alone isValid u auth op db u' :
  u' ≠ u →
  CartService.findOneCart (runOp isValid u auth op db).1 u'
  = CartService.findOneCart db u' ∧
  ∀ j c, carts db !! j = Some c → Cart.userId c ≠ u →
         carts (runOp isValid u auth op db).1 !! j = Some c.
Proof.
  intros Hne. destruct (runOp isValid u auth op db) as [db' r] eqn:Hrun. simpl.
  apply runOp_writes_own_cart in Hrun as [->|(c & c' & Hu & Hpre & _ & Hw)]; [done|].
  apply preSave_inr in Hpre as (_ & Hu' & _). rewrite Hu in Hu'.
  destruct (docOf_spec db u) as (_ & _ & Hfind).
  destruct (docOf db u).1 as [i|]; subst db'; unfold CartService.findOneCart; simpl.
  - apply list_find_Some in Hfind as (Hi & [Hui _] & _). split.
    + apply list_find_insert_other; [rewrite Hu'; by intros [? _]|].
      intros y Hy [Huy _]. rewrite Hi in Hy. injection Hy as <-. congruence.
    + intros j cj Hj Hc. rewrite list_lookup_insert_ne; [done|].
      intros <-. rewrite Hi in Hj. injection Hj as <-. done.
  - split.
    + apply list_find_snoc_other. rewrite Hu'. by intros [? _].
    + intros j cj Hj _. by apply lookup_app_l_Some.
Qed.

Lemma cart_operations_leave_other_users_alone_witness :
  CartService.findOneCart
    (runOp isObjectIdString u1 u1 (RemoveItem p2) shopTwoCarts).1 u2
  = Some (1%nat, cartBob).
Proof.
  refine (eq_trans (proj1 (cart_operations_leave_other_users_alone isObjectIdString
                             u1 u1 (RemoveItem p2) shopTwoCarts u2 _)) _).
  - vm_compute. discriminate.
  - reflexivity.
Defined.

(** X3. A cart operation writes nothing but carts: products, orders and users
    stay as they are; no cart document is ever removed, and one is added only
    when the user had no live cart. *)
Theorem cart_operations_write_only_carts isValid u auth op db :
  let db' := (runOp isValid u auth op db).1 in
  products db' = products db ∧ orders db' = orders db ∧ users db' = users db ∧
  (length (carts db') = length (carts db) ∨
   length (carts db') = S (length (carts db)) ∧ CartService.findOneCart db u = None).
Proof.
  destruct (runOp isValid u auth op db) as [db' r] eqn:Hrun. simpl.
  apply runOp_writes_own_cart in Hrun as [->|(c & c' & _ & _ & _ & Hw)];
    [by split_and!; try left|].
  destruct (docOf_spec db u) as (_ & _ & Hfind).
  destruct (docOf db u).1 as [i|]; subst db'; simpl; split_and!; try done.
  - left. apply length_insert.
  - right. split; [|done]. rewrite length_app. simpl. lia.
Qed.

Lemma liveCartOwners_insert db i c c' :
  carts db !! i = Some c → Cart.isDeleted c = false → Cart.userId c' = Cart.userId c →
  ∃ before after,
    liveCartOwners db = before ++ Cart.userId c :: after ∧
    liveCartOwners (setCarts (<[i := c']> (carts db)) db)
    = before ++ (if Cart.isDeleted c' then [] else [Cart.userId c]) ++ after.
Proof.
  intros Hi Hlive Hu. unfold liveCartOwners. simpl.
  exists (Cart.userId <$> filter (λ c, Cart.isDeleted c = false) (take i (carts db))),
    (Cart.userId <$> filter (λ c, Cart.isDeleted c = false) (drop (S i) (carts db))).
  split.
  - rewrite <- (take_drop_middle _ _ _ Hi) at 1.
    rewrite filter_app, filter_cons, decide_True by done.
    by rewrite fmap_app, fmap_cons.
  - rewrite insert_take_drop by (by eapply lookup_lt_Some).
    rewrite filter_app, filter_cons, fmap_app.
    destruct (Cart.isDeleted c') eqn:Hd.
    + by rewrite decide_False by done.
    + rewrite decide_True by done. by rewrite fmap_cons, Hu.
Qed.

(** X4. No operation gives a user a second live cart: when every user has
    at most one live cart before, so it is afterwards. *)
Theorem cart_operations_keep_one_live_cart isValid u auth op db :
  oneLiveCart db → oneLiveCart (runOp isValid u auth op db).1.
Proof.
  intros Hone. destruct (runOp isValid u auth op db) as [db' r] eqn:Hrun. simpl.
  apply runOp_writes_own_cart in Hrun as [->|(c & c' & Hu & Hpre & _ & Hw)]; [done|].
  apply preSave_inr in Hpre as (_ & Hu' & Hd' & _). rewrite Hu in Hu'.
  destruct (docOf_spec db u) as (_ & _ & Hfind). unfold oneLiveCart in *.
  destruct (docOf db u).1 as [i|]; subst db'.
  - apply list_find_Some in Hfind as (Hi & [Hui Hlive] & _).
    destruct (liveCartOwners_insert db i _ c' Hi Hlive ltac:(by rewrite Hu', Hui))
      as (before & after & Hold & ->).
    rewrite Hold in Hone. apply NoDup_app in Hone as (Hb & Hba & Ha).
    apply NoDup_cons in Ha as [Hnotin Ha].
    destruct (Cart.isDeleted c'); simpl.
    + apply NoDup_app. split_and!; [done| |done].
      intros x Hx Hxa. apply (Hba x Hx). by right.
    + apply NoDup_app. split_and!; [done|done|by constructor].
  - unfold liveCartOwners. simpl. rewrite filter_app, fmap_app.
    apply NoDup_app. split_and!; [done| |].
    + intros x Hx Hx'. apply list_find_None in Hfind. rewrite Forall_forall in Hfind.
      apply list_elem_of_fmap in Hx as (cx & -> & Hcx).
      apply list_elem_of_filter in Hcx as [Hlx Hcx].
      apply list_elem_of_fmap in Hx' as (cy & Hcy & Hin).
      apply list_elem_of_filter in Hin as [_ Hin].
      apply list_elem_of_singleton in Hin. subst cy.
      apply (Hfind cx Hcx). split; [|done]. by rewrite Hcy.
    + rewrite filter_cons. destruct (decide _); [apply NoDup_singleton|constructor].
Qed.

Lemma cart_operations_keep_one_live_cart_witness :
  oneLiveCart (runOp isObjectIdString u1 u1 (AddItem p1 (JsInt 1)) shopTwoCarts).1.
Proof.
  apply (cart_operations_keep_one_live_cart isObjectIdString u1 u1
           (AddItem p1 (JsInt 1)) shopTwoCarts).
  unfold oneLiveCart. apply (bool_decide_unpack _). vm_compute. exact I.
Defined.

(** ** clear, remove, update and view *)

Lemma findLiveIn_nil catalog : CartModel.findLiveIn catalog [] = [].
Proof.
  unfold CartModel.findLiveIn. apply filter_none.
  intros p _ [Hin _]. by apply elem_of_nil in Hin.
Qed.

Lemma save_cleared i u db :
  CartModel.save (Some i, Cart.mk u [] 0 true) db
  = (setCarts (<[i := Cart.mk u [] 0 true]> (carts db)) db,
     inr (Some i, Cart.mk u [] 0 true)).
Proof.
  unfold CartModel.save, CartModel.validate, CartModel.preSave. unfold_M. simpl.
  by rewrite findLiveIn_nil.
Qed.

Lemma clearCart_found isValid u db i cart :
  isValid u = true → CartService.findOneCart db u = Some (i, cart) →
  CartService.clearCart isValid u u db
  = (setCarts (<[i := Cart.mk u [] 0 true]> (carts db)) db,
     inr "Cart cleared successfully").
Proof.
  intros Hu Hf. unfold_cart. rewrite Hu. simpl.
  rewrite decide_False by (intros Hne; by apply Hne). rewrite Hf.
  apply list_find_Some in Hf as (_ & [-> _] & _). by rewrite save_cleared.
Qed.

Lemma getUserCart_without_cart isValid u db :
  isValid u = true → CartService.findOneCart db u = None →
  CartService.getUserCart isValid u u db = (db, inr (CartView.mk u [] 0)).
Proof.
  intros Hu Hnone. unfold_cart. rewrite Hu. simpl.
  rewrite decide_False by (intros Hne; by apply Hne). by rewrite Hnone.
Qed.

Lemma findOneCart_None_owners db u :
  u ∉ liveCartOwners db → CartService.findOneCart db u = None.
Proof.
  intros Hnotin. apply list_find_None, Forall_forall. intros c Hc [Hu Hlive].
  apply Hnotin. unfold liveCartOwners. rewrite <- Hu.
  apply list_elem_of_fmap_2, list_elem_of_filter. done.
Qed.

(** X5. clear is a soft delete that cannot be blocked by stale lines: for the
    owner with a live cart it always succeeds; the cart document stays in the
    collection, emptied, with total 0 and marked deleted; and when it was the
    user's only live cart the user has no live cart afterwards, so that view
    returns the empty cart. *)
Theorem clearCart_soft_clears isValid u db i cart :
  isValid u = true → CartService.findOneCart db u = Some (i, cart) →
  ∃ db',
    CartService.clearCart isValid u u db = (db', inr "Cart cleared successfully") ∧
    carts db' !! i = Some (Cart.mk u [] 0 true) ∧
    length (carts db') = length (carts db) ∧
    (oneLiveCart db →
     CartService.findOneCart db' u = None ∧
     CartService.getUserCart isValid u u db' = (db', inr (CartView.mk u [] 0))).
Proof.
  intros Hu Hf. eexists. split; [by eapply clearCart_found|].
  pose proof (proj1 (list_find_Some _ _ _ _) Hf) as (Hi & [Hui Hlive] & _).
  simpl. split_and!.
  - apply list_lookup_insert_eq. by eapply lookup_lt_Some.
  - apply length_insert.
  - intros Hone.
    assert (CartService.findOneCart
              (setCarts (<[i := Cart.mk u [] 0 true]> (carts db)) db) u = None) as Hnone.
    { apply findOneCart_None_owners.
      destruct (liveCartOwners_insert db i cart (Cart.mk u [] 0 true) Hi Hlive
                  ltac:(by rewrite Hui)) as (before & after & Hold & ->).
      unfold oneLiveCart in Hone. rewrite Hold in Hone. simpl.
      apply NoDup_app in Hone as (_ & Hba & Ha). apply NoDup_cons in Ha as [Hnotin _].
      rewrite Hui in *. intros [Hin|Hin]%elem_of_app; [|done].
      apply (Hba u Hin). left. }
    split; [done|]. by apply getUserCart_without_cart.
Qed.

Lemma clearCart_soft_clears_witness :
  ∃ db',
    CartService.clearCart isObjectIdString u1 u1 shopInkWithdrawn
    = (db', inr "Cart cleared successfully") ∧
    carts db' !! 0%nat = Some (Cart.mk u1 [] 0 true) ∧
    length (carts db') = length (carts shopInkWithdrawn) ∧
    (oneLiveCart shopInkWithdrawn →
     CartService.findOneCart db' u1 = None ∧
     CartService.getUserCart isObjectIdString u1 u1 db' = (db', inr (CartView.mk u1 [] 0))).
Proof.
  apply (clearCart_soft_clears isObjectIdString u1 shopInkWithdrawn 0%nat cartPenInk);
    reflexivity.
Defined.

Lemma Forall2_sameLine_only items items' (R : CartItem.t → Prop) :
  Forall2 (λ item item', sameLine item item' ∧ R item') items items' →
  Forall2 sameLine items items'.
Proof. intros H. eapply Forall2_impl; [exact H|]. by intros ?? [? _]. Qed.

(** X6. removeItem takes out the line of the product and nothing else: when
    the cart has no line for the product it fails with NotFound and writes
    nothing; when it succeeds the stored cart holds the other lines, in their
    order, with their product, name and quantity, and (the lines being for
    distinct products) no line for the product. *)
Theorem removeItem_takes_out_the_line isValid u pid db i cart :
  isValid u = true → isValid pid = true →
  CartService.findOneCart db u = Some (i, cart) →
  (lineOf cart pid = None →
   CartService.removeItemFromCart isValid u pid u db
   = (db, inl (NotFoundError "Item not found in cart"))) ∧
  (∀ db' r,
     CartService.removeItemFromCart isValid u pid u db = (db', inr r) →
     ∃ k item c',
       list_find (λ item, CartItem.productId item = pid) (Cart.items cart)
       = Some (k, item) ∧
       CartService.findOneCart db' u = Some (i, c') ∧
       Forall2 sameLine (delete k (Cart.items cart)) (Cart.items c') ∧
       (distinctLines cart → lineOf c' pid = None)).
Proof.
  intros Hu Hp Hf. split.
  - unfold lineOf. intros Hnone. unfold_cart. rewrite Hu, Hp. simpl.
    rewrite decide_False by (intros Hne; by apply Hne). rewrite Hf.
    by destruct (list_find _ (Cart.items cart)).
  - intros db' r Hr.
    apply removeItemFromCart_inr in Hr as (i' & cart' & k & item & d' & _ & Hf' & Hk & Hs).
    rewrite Hf in Hf'. injection Hf' as <- <-.
    pose proof (save_docOf db u) as Hsd. rewrite (findOneCart_docOf _ _ _ _ Hf) in Hsd.
    simpl in Hs. pose proof (save_inr _ _ _ _ Hs) as (_ & c2 & _ & _ & Hd2).
    apply Hsd in Hs as (i' & c' & Hd' & Hpre & _ & Hfind').
    apply preSave_inr in Hpre as (_ & _ & _ & _ & Hall). simpl in Hall, Hd2.
    assert (i' = i) as -> by congruence.
    exists k, item, c'. split_and!; try done.
    + by eapply Forall2_sameLine_only.
    + intros Hd. unfold lineOf.
      destruct (list_find _ (Cart.items c')) as [[j x]|] eqn:Hx; [|done]. exfalso.
      apply list_find_Some in Hx as (Hj & Hpid & _).
      apply Forall2_sameLine_only in Hall.
      destruct (Forall2_lookup_r _ _ _ _ _ Hall Hj) as (y & Hy & Hpy & _).
      apply list_find_Some in Hk as (Hk & Hkpid & _).
      unfold distinctLines in Hd.
      assert (delete k (Cart.items cart) !! j = Some y) as Hy' by done.
      rewrite list_lookup_delete in Hy'.
      destruct (decide (j < k)%nat) as [Hlt|Hge].
      * assert (j = k); [|lia].
        eapply (NoDup_lookup _ j k pid Hd); rewrite list_lookup_fmap.
        -- rewrite Hy'. simpl. congruence.
        -- rewrite Hk. simpl. congruence.
      * assert (S j = k); [|lia].
        eapply (NoDup_lookup _ (S j) k pid Hd); rewrite list_lookup_fmap.
        -- rewrite Hy'. simpl. congruence.
        -- rewrite Hk. simpl. congruence.
Qed.

Lemma removeItem_takes_out_the_line_witness :
  CartService.removeItemFromCart isObjectIdString u2 p1 u2 shopTwoCarts
  = (shopTwoCarts, inl (NotFoundError "Item not found in cart")) ∧
  ∃ db' r c',
    CartService.removeItemFromCart isObjectIdString u1 p2 u1 shopWithCart = (db', inr r) ∧
    CartService.findOneCart db' u1 = Some (0%nat, c') ∧
    Forall2 sameLine [CartItem.mk p1 "Pen" 100 3 300] (Cart.items c') ∧
    lineOf c' p2 = None.
Proof.
  split.
  - apply (removeItem_takes_out_the_line isObjectIdString u2 p1 shopTwoCarts 1%nat
             cartBob); reflexivity.
  - destruct (CartService.removeItemFromCart isObjectIdString u1 p2 u1 shopWithCart)
      as [db' res] eqn:Hrun.
    assert (∃ r, res = inr r) as [r ->].
    { revert Hrun. vm_compute. intros [= _ <-]. by eexists. }
    destruct (proj2 (removeItem_takes_out_the_line isObjectIdString u1 p2 shopWithCart
                       0%nat cartPenInk eq_refl eq_refl eq_refl) db' r Hrun)
      as (k & item & c' & Hk & Hf & Hall & Hnone).
    injection Hk as <- <-.
    exists db', r, c'. split_and!; [done|exact Hf|exact Hall|].
    apply Hnone. apply (bool_decide_unpack _). vm_compute. exact I.
Defined.

Lemma updateQuantity_inr_valid isValid u pid q auth db db' r :
  CartService.updateCartItemQuantity isValid u pid q auth db = (db', inr r) →
  isValid u = true ∧ isValid pid = true.
Proof.
  unfold CartService.updateCartItemQuantity.
  by destruct (isValid u), (isValid pid).
Qed.

(** Past its own checks, [updateCartItemQuantity] is the save of the cart
    with the line rewritten, followed by the read of the saved cart. *)
Lemma updateQuantity_past_checks isValid u pid qz db p i cart k item :
  isValid u = true → isValid pid = true → 0 < qz →
  CartModel.findOneLive (products db) pid = Some p → qz ≤ Product.stock p →
  CartService.findOneCart db u = Some (i, cart) →
  list_find (λ item, CartItem.productId item = pid) (Cart.items cart) = Some (k, item) →
  let items :=
    <[k := CartItem.mk (CartItem.productId item) (CartItem.name item)
             (Product.price p) qz (Product.price p * qz)]> (Cart.items cart) in
  CartService.updateCartItemQuantity isValid u pid (JsInt qz) u db
  = withTransaction (keepTyped (BadRequestError "Failed to update item quantity"))
      (c ← CartModel.save (Some i, Cart.mk (Cart.userId cart) items
                                     (CartModel.sumTotalPrice items) (Cart.isDeleted cart)) ;
       CartService.findByIdPopulated c) db.
Proof.
  intros Hu Hp Hq Hlive Hstock Hf Hk items.
  unfold CartService.updateCartItemQuantity, CartService.invalidQuantity,
    CartService.toNumber, withTransaction.
  rewrite Hu, Hp. simpl. rewrite bool_decide_eq_false_2 by lia.
  rewrite decide_False by (intros Hne; by apply Hne).
  unfold mbind at 1, M_bind at 1, get at 1. rewrite Hlive.
  rewrite decide_False by lia. rewrite Hf, Hk. done.
Qed.

(** What updateQuantity saves, when it returns. *)
Lemma updateQuantity_saved isValid u pid q db db' r :
  CartService.updateCartItemQuantity isValid u pid q u db = (db', inr r) →
  ∃ qz p i cart k item c',
    q = JsInt qz ∧ 0 < qz ∧
    CartModel.findOneLive (products db) pid = Some p ∧
    qz ≤ Product.stock p ∧
    CartService.findOneCart db u = Some (i, cart) ∧
    list_find (λ item, CartItem.productId item = pid) (Cart.items cart) = Some (k, item) ∧
    CartModel.valid
      (Cart.mk u (<[k := CartItem.mk (CartItem.productId item) (CartItem.name item)
                           (Product.price p) qz (Product.price p * qz)]> (Cart.items cart))
         (CartModel.sumTotalPrice
            (<[k := CartItem.mk (CartItem.productId item) (CartItem.name item)
                      (Product.price p) qz (Product.price p * qz)]> (Cart.items cart)))
         false) ∧
    CartModel.preSave (products db)
      (Cart.mk u (<[k := CartItem.mk (CartItem.productId item) (CartItem.name item)
                           (Product.price p) qz (Product.price p * qz)]> (Cart.items cart))
         (CartModel.sumTotalPrice
            (<[k := CartItem.mk (CartItem.productId item) (CartItem.name item)
                      (Product.price p) qz (Product.price p * qz)]> (Cart.items cart)))
         false) = inr c' ∧
    db' = setCarts (<[i := c']> (carts db)) db.
Proof.
  intros Hr.
  apply updateCartItemQuantity_inr in Hr
    as (qz & p & i & cart & k & item & d' & -> & Hq & _ & Hlive & Hstock & Hf & Hk & Hs).
  pose proof (proj1 (list_find_Some _ _ _ _) Hf) as (Hi & [Hui Hlv] & _).
  simpl in Hs. rewrite Hui, Hlv in Hs.
  pose proof (save_inr _ _ _ _ Hs) as (Hvalid & c' & Hpre & -> & ->).
  simpl in Hvalid, Hpre.
  exists qz, p, i, cart, k, item, c'. by split_and!.
Qed.

(** X7. updateQuantity replaces the quantity of the line, where addItem adds
    to it: after a successful call the line of the product holds exactly the
    requested quantity at the product's current price, the cart has as many
    lines as before, and every other line keeps its product, name and
    quantity. *)
Theorem updateQuantity_replaces_the_quantity isValid u pid q db db' r :
  CartService.updateCartItemQuantity isValid u pid q u db = (db', inr r) →
  ∃ qz p i cart c' k line,
    q = JsInt qz ∧
    CartModel.findOneLive (products db) pid = Some p ∧
    CartService.findOneCart db u = Some (i, cart) ∧
    CartService.findOneCart db' u = Some (i, c') ∧
    Cart.items c' !! k = Some line ∧
    CartItem.productId line = pid ∧
    CartItem.quantity line = qz ∧
    CartItem.price line = Product.price p ∧
    CartItem.totalPrice line = Product.price p * qz ∧
    length (Cart.items c') = length (Cart.items cart) ∧
    (∀ j x, j ≠ k → Cart.items cart !! j = Some x →
            ∃ x', Cart.items c' !! j = Some x' ∧ sameLine x x').
Proof.
  intros (qz & p & i & cart & k & item & c' & -> & _ & Hlive & _ & Hf & Hk & _ & Hpre & ->)
    %updateQuantity_saved.
  pose proof (preSave_inr _ _ _ Hpre) as (_ & Hu' & Hd' & _ & Hall). simpl in *.
  pose proof (proj1 (list_find_Some _ _ _ _) Hk) as (Hki & Hpid & _).
  pose proof (lookup_lt_Some _ _ _ Hki) as Hklt.
  destruct (Forall2_lookup_l _ _ _ k _ Hall (list_lookup_insert_eq _ _ _ Hklt))
    as (line & Hline & (Hlpid & _ & Hlq) & (p' & Hp' & _ & Hprice & Htotal)).
  simpl in Hlpid, Hlq. rewrite Hlpid, Hpid, Hlive in Hp'. injection Hp' as <-.
  exists qz, p, i, cart, c', k, line. split_and!; try done.
  - by eapply findOneCart_insert.
  - congruence.
  - by rewrite Htotal, Hprice, Hlq.
  - apply Forall2_length in Hall. rewrite length_insert in Hall. done.
  - intros j x Hj Hx.
    destruct (Forall2_lookup_l _ _ _ j x Hall) as (x' & Hx' & Hsame & _).
    + by rewrite list_lookup_insert_ne.
    + by exists x'.
Qed.

Lemma updateQuantity_replaces_the_quantity_witness :
  ∃ qz p i cart c' k line,
    JsInt 5 = JsInt qz ∧
    CartModel.findOneLive (products shopWithCart) p1 = Some p ∧
    CartService.findOneCart shopWithCart u1 = Some (i, cart) ∧
    CartService.findOneCart
      (CartService.updateCartItemQuantity isObjectIdString u1 p1 (JsInt 5) u1
         shopWithCart).1 u1 = Some (i, c') ∧
    Cart.items c' !! k = Some line ∧
    CartItem.productId line = p1 ∧
    CartItem.quantity line = qz ∧
    CartItem.price line = Product.price p ∧
    CartItem.totalPrice line = Product.price p * qz ∧
    length (Cart.items c') = length (Cart.items cart) ∧
    (∀ j x, j ≠ k → Cart.items cart !! j = Some x →
            ∃ x', Cart.items c' !! j = Some x' ∧ sameLine x x').
Proof.
  eapply (updateQuantity_replaces_the_quantity isObjectIdString u1 p1 (JsInt 5)
            shopWithCart).
  vm_compute. reflexivity.
Defined.

(** ** Saving again what the hook has saved *)

Lemma reprice_fixed catalog ids items :
  (∀ item, item ∈ items → CartItem.productId item ∈ ids) →
  Forall (linePriced catalog) items →
  CartModel.reprice (CartModel.findLiveIn catalog ids) items = inr items.
Proof.
  induction items as [|item rest IH]; intros Hids Hall; simpl; [done|].
  apply Forall_cons in Hall as [(p & Hp & Hle & Hprice & Htotal) Hall].
  pose proof (find_in_findLiveIn catalog ids (CartItem.productId item)
                (Hids _ ltac:(left))) as Hf.
  rewrite Hp in Hf. destruct (list_find _ _) as [[j q]|]; [|done]. injection Hf as ->.
  rewrite decide_False by lia.
  rewrite IH; [|intros ? ?; apply Hids; by right|done].
  destruct item. simpl in *. by rewrite <- Hprice, Htotal.
Qed.

Lemma preSave_idempotent catalog c c' :
  CartModel.preSave catalog c = inr c' → CartModel.preSave catalog c' = inr c'.
Proof.
  intros Hpre. pose proof (preSave_cartPriced _ _ _ Hpre) as [Hpriced _].
  apply preSave_inr in Hpre as (Hlen & _ & _ & Htotal & Hall).
  unfold CartModel.preSave.
  rewrite (Forall2_sameLine_ids _ _ _ Hall).
  rewrite decide_False by (rewrite length_fmap; intros Hne; by apply Hne).
  rewrite <- (Forall2_sameLine_ids _ _ _ Hall).
  rewrite reprice_fixed; [|intros item Hin; by apply list_elem_of_fmap_2|done].
  destruct c'. simpl in *. by rewrite Htotal.
Qed.

Lemma preSave_keeps_valid catalog c c' :
  Forall (λ p, 0 ≤ Product.price p) catalog →
  CartModel.valid c → CartModel.preSave catalog c = inr c' → CartModel.valid c'.
Proof.
  intros Hprices [Hitems _] Hpre.
  apply preSave_inr in Hpre as (_ & _ & _ & Htotal & Hall).
  assert (Forall CartModel.validItem (Cart.items c')) as Hitems'.
  { clear Htotal. induction Hall as [|x x' l l' [(_ & Hn & Hq) (p & Hp & _ & Hpr & Ht)] _ IH];
      [constructor|].
    apply Forall_cons in Hitems as [(Hname & _ & Hquant & _) Hitems].
    constructor; [|by apply IH].
    apply findOneLive_Some in Hp as (Hin & _).
    rewrite Forall_forall in Hprices. specialize (Hprices _ Hin).
    unfold CartModel.validItem. rewrite Hn, Hq, Ht, Hpr, Hq. split_and!; [done|done|done|nia]. }
  split; [done|]. rewrite Htotal. by apply sumTotalPrice_nonneg.
Qed.

Lemma save_saved_again i c db :
  carts db !! i = Some c → CartModel.valid c →
  CartModel.preSave (products db) c = inr c →
  CartModel.save (Some i, c) db = (db, inr (Some i, c)).
Proof.
  intros Hi Hv Hpre. unfold CartModel.save, CartModel.validate. unfold_M. simpl.
  rewrite decide_True by done. rewrite Hpre. rewrite list_insert_id by done.
  by destruct db.
Qed.

Lemma updateQuantity_result isValid u pid qz db p i cart k item db1 d1 :
  isValid u = true → isValid pid = true → 0 < qz →
  CartModel.findOneLive (products db) pid = Some p → qz ≤ Product.stock p →
  CartService.findOneCart db u = Some (i, cart) →
  list_find (λ item, CartItem.productId item = pid) (Cart.items cart) = Some (k, item) →
  CartModel.save
    (Some i,
     Cart.mk (Cart.userId cart)
       (<[k := CartItem.mk (CartItem.productId item) (CartItem.name item)
                 (Product.price p) qz (Product.price p * qz)]> (Cart.items cart))
       (CartModel.sumTotalPrice
          (<[k := CartItem.mk (CartItem.productId item) (CartItem.name item)
                    (Product.price p) qz (Product.price p * qz)]> (Cart.items cart)))
       (Cart.isDeleted cart)) db = (db1, inr d1) →
  CartService.updateCartItemQuantity isValid u pid (JsInt qz) u db
  = (db1, inr (CartService.populate (products db1) <$> carts db1 !! i)).
Proof.
  intros Hu Hp Hq Hlive Hstock Hf Hk Hs.
  rewrite (updateQuantity_past_checks _ _ _ _ _ _ _ _ _ _ Hu Hp Hq Hlive Hstock Hf Hk).
  unfold withTransaction, CartService.findByIdPopulated. unfold_M. rewrite Hs.
  apply save_inr in Hs as (_ & c' & _ & _ & ->). done.
Qed.

(** X8. updateQuantity is idempotent: on a catalog without negative prices,
    repeating a successful call with the same arguments succeeds again,
    returns the same cart and leaves the database exactly as the first call
    left it. *)
Theorem updateQuantity_is_idempotent isValid u pid q db db1 r :
  Forall (λ p, 0 ≤ Product.price p) (products db) →
  CartService.updateCartItemQuantity isValid u pid q u db = (db1, inr r) →
  CartService.updateCartItemQuantity isValid u pid q u db1 = (db1, inr r).
Proof.
  intros Hprices Hr.
  pose proof (updateQuantity_inr_valid _ _ _ _ _ _ _ _ Hr) as [Hu Hp].
  pose proof Hr as Hr0.
  apply updateCartItemQuantity_inr in Hr0
    as (qz & p & i & cart & k & item & d' & -> & Hq & _ & Hlive & Hstock & Hf & Hk & Hs).
  simpl in Hs.
  rewrite (updateQuantity_result _ _ _ _ _ _ _ _ _ _ _ _ Hu Hp Hq Hlive Hstock Hf Hk Hs)
    in Hr. injection Hr as <-.
  pose proof (save_inr _ _ _ _ Hs) as (Hvalid & c1 & Hpre & Hdb1 & _).
  simpl in Hvalid, Hpre, Hdb1.
  pose proof (preSave_inr _ _ _ Hpre) as (_ & Hu1 & Hd1 & Htot1 & Hall). simpl in *.
  pose proof (proj1 (list_find_Some _ _ _ _) Hf) as (Hi & [Hui Hlv] & _).
  pose proof (proj1 (list_find_Some _ _ _ _) Hk) as (Hki & Hpid & Hkmin).
  assert (carts db1 !! i = Some c1) as Hi1.
  { rewrite Hdb1. simpl. apply list_lookup_insert_eq. by eapply lookup_lt_Some. }
  assert (CartService.findOneCart db1 u = Some (i, c1)) as Hf1.
  { rewrite Hdb1. eapply findOneCart_insert; [done|congruence|congruence]. }
  (* the line of the product in the saved cart *)
  assert (∃ line1,
            list_find (λ item, CartItem.productId item = pid) (Cart.items c1)
            = Some (k, line1) ∧
            line1 = CartItem.mk (CartItem.productId line1) (CartItem.name line1)
                      (Product.price p) qz (Product.price p * qz)) as (line1 & Hk1 & Hline1).
  { assert (∀ a b : CartItem.t,
              sameLine a b ∧ linePriced (products db) b →
              (CartItem.productId a = pid ↔ CartItem.productId b = pid)) as HR
      by (by intros a b [(-> & _) _]).
    assert (list_find (λ item, CartItem.productId item = pid)
              (<[k := CartItem.mk (CartItem.productId item) (CartItem.name item)
                        (Product.price p) qz (Product.price p * qz)]> (Cart.items cart))
            = Some (k, CartItem.mk (CartItem.productId item) (CartItem.name item)
                         (Product.price p) qz (Product.price p * qz))) as Hk0.
    { apply list_find_insert_Some. right. left.
      split_and!; try done. by eapply lookup_lt_Some. }
    destruct (list_find_Forall2 _ _ _ _ _ _ HR Hall Hk0)
      as (line1 & Hk1 & [(Hlpid & _ & Hlq) (p' & Hp' & _ & Hprice & Htotal)]).
    simpl in Hlpid, Hlq. exists line1. split; [done|].
    rewrite Hlpid, Hpid, Hlive in Hp'. injection Hp' as <-.
    destruct line1. simpl in *. by rewrite Htotal, Hprice, Hlq. }
  assert (products db1 = products db) as Hprod by (by rewrite Hdb1).
  assert (CartModel.save
            (Some i,
             Cart.mk (Cart.userId c1)
               (<[k := CartItem.mk (CartItem.productId line1) (CartItem.name line1)
                         (Product.price p) qz (Product.price p * qz)]> (Cart.items c1))
               (CartModel.sumTotalPrice
                  (<[k := CartItem.mk (CartItem.productId line1) (CartItem.name line1)
                            (Product.price p) qz (Product.price p * qz)]> (Cart.items c1)))
               (Cart.isDeleted c1)) db1 = (db1, inr (Some i, c1))) as Hs1.
  { rewrite <- Hline1.
    rewrite list_insert_id by (by apply list_find_Some in Hk1 as (? & _)).
    rewrite <- Htot1.
    replace (Cart.mk (Cart.userId c1) (Cart.items c1) (Cart.totalAmount c1)
               (Cart.isDeleted c1)) with c1 by (by destruct c1).
    apply save_saved_again; [done| |].
    - eapply preSave_keeps_valid; [exact Hprices|exact Hvalid|exact Hpre].
    - rewrite Hprod. by eapply preSave_idempotent. }
  rewrite (updateQuantity_result _ _ _ _ _ _ _ _ _ _ _ _ Hu Hp Hq
             ltac:(by rewrite Hprod) Hstock Hf1 Hk1 Hs1).
  done.
Qed.

Lemma updateQuantity_is_idempotent_witness :
  CartService.updateCartItemQuantity isObjectIdString u1 p1 (JsInt 5) u1
    (CartService.updateCartItemQuantity isObjectIdString u1 p1 (JsInt 5) u1
       shopWithCart).1
  = CartService.updateCartItemQuantity isObjectIdString u1 p1 (JsInt 5) u1 shopWithCart.
Proof.
  refine (eq_trans (updateQuantity_is_idempotent isObjectIdString u1 p1 (JsInt 5)
                      shopWithCart _ _ _ _) _).
  - repeat constructor; vm_compute; discriminate.
  - vm_compute. reflexivity.
  - vm_compute. reflexivity.
Defined.

(** ** view *)

Lemma List_filter_sublist {A} (f : A → bool) (l : list A) :
  List.filter f l `sublist_of` l.
Proof.
  induction l as [|x l IH]; simpl; [constructor|].
  destruct (f x); by constructor.
Qed.

Lemma available_spec (it : CartView.item) :
  CartService.available it = true ↔
  ∃ p, CartView.productId it = Some p ∧ Product.live p ∧
       CartView.quantity it ≤ Product.stock p.
Proof.
  unfold CartService.available, Product.live.
  destruct (CartView.productId it) as [p|]; [|split; [done|by intros (? & [=] & _)]].
  rewrite !andb_true_iff, negb_true_iff, bool_decide_eq_true. split.
  - intros [[? ?] ?]. by exists p.
  - intros (? & [= <-] & [? ?] & ?). done.
Qed.

Lemma getUserCart_found isValid u db i cart :
  isValid u = true → CartService.findOneCart db u = Some (i, cart) →
  CartService.getUserCart isValid u u db
  = (db, inr (CartView.mk (Cart.userId cart)
                (List.filter CartService.available
                   (CartService.populateItem (products db) <$> Cart.items cart))
                (fold_left (λ total item, total + CartView.totalPrice item)
                   (List.filter CartService.available
                      (CartService.populateItem (products db) <$> Cart.items cart)) 0))).
Proof.
  intros Hu Hf. unfold_cart. rewrite Hu. simpl.
  rewrite decide_False by (intros Hne; by apply Hne). by rewrite Hf.
Qed.

(** X9. view reads and never writes.  Of the lines of the live cart it shows
    exactly those whose product still exists, is active, is not soft-deleted
    and has the stock for the line's quantity, in their order; the total it
    reports is the sum of the stored totalPrice of the lines it shows. *)
Theorem view_shows_the_available_lines isValid u db i cart :
  isValid u = true → CartService.findOneCart db u = Some (i, cart) →
  ∃ v,
    CartService.getUserCart isValid u u db = (db, inr v) ∧
    CartView.userId v = u ∧
    CartView.items v `sublist_of`
      (CartService.populateItem (products db) <$> Cart.items cart) ∧
    (∀ it, it ∈ CartView.items v ↔
           it ∈ (CartService.populateItem (products db) <$> Cart.items cart) ∧
           ∃ p, CartView.productId it = Some p ∧ Product.live p ∧
                CartView.quantity it ≤ Product.stock p) ∧
    CartView.totalAmount v
    = foldr (λ it acc, CartView.totalPrice it + acc) 0 (CartView.items v).
Proof.
  intros Hu Hf. eexists. split; [by eapply getUserCart_found|]. simpl.
  split_and!.
  - by apply list_find_Some in Hf as (_ & [? _] & _).
  - apply List_filter_sublist.
  - intros it. rewrite !list_elem_of_In, filter_In, available_spec. done.
  - rewrite fold_left_add_acc. lia.
Qed.

Lemma view_shows_the_available_lines_witness :
  ∃ v,
    CartService.getUserCart isObjectIdString u1 u1 shopInkWithdrawn
    = (shopInkWithdrawn, inr v) ∧
    CartView.userId v = u1 ∧
    CartView.items v `sublist_of`
      (CartService.populateItem (products shopInkWithdrawn) <$> Cart.items cartPenInk) ∧
    (∀ it, it ∈ CartView.items v ↔
           it ∈ (CartService.populateItem (products shopInkWithdrawn)
                   <$> Cart.items cartPenInk) ∧
           ∃ p, CartView.productId it = Some p ∧ Product.live p ∧
                CartView.quantity it ≤ Product.stock p) ∧
    CartView.totalAmount v
    = foldr (λ it acc, CartView.totalPrice it + acc) 0 (CartView.items v).
Proof.
  apply (view_shows_the_available_lines isObjectIdString u1 shopInkWithdrawn 0%nat
           cartPenInk); reflexivity.
Defined.

Lemma unique_product catalog p q :
  uniqueIds catalog → p ∈ catalog → q ∈ catalog → Product._id p = Product._id q → p = q.
Proof.
  intros Hu [i Hi]%list_elem_of_lookup [j Hj]%list_elem_of_lookup Hid.
  assert (i = j) as ->; [|congruence].
  eapply (NoDup_lookup _ i j (Product._id p) Hu); rewrite list_lookup_fmap.
  - by rewrite Hi.
  - rewrite Hj. simpl. by rewrite Hid.
Qed.

Lemma linePriced_available catalog item :
  uniqueIds catalog → linePriced catalog item →
  CartService.available (CartService.populateItem catalog item) = true.
Proof.
  intros Hu (p & Hp & Hle & _). apply available_spec.
  apply findOneLive_Some in Hp as (Hin & Hid & Hlive).
  exists p. unfold CartService.populateItem. simpl. split_and!; [|done|done].
  destruct (list_find _ catalog) as [[j q]|] eqn:Hq.
  - apply list_find_Some in Hq as (Hj & Hqid & _). simpl. f_equal.
    eapply unique_product; [done|by eapply list_elem_of_lookup_2|done|congruence].
  - apply list_find_None in Hq. rewrite Forall_forall in Hq. by destruct (Hq p Hin).
Qed.

Lemma List_filter_all {A} (f : A → bool) (l : list A) :
  Forall (λ x, f x = true) l → List.filter f l = l.
Proof. induction 1 as [|x l Hx _ IH]; simpl; [done|]. by rewrite Hx, IH. Qed.

Lemma runOp_inr_valid isValid u auth op db db' :
  runOp isValid u auth op db = (db', inr tt) → isValid u = true ∧ auth = u.
Proof.
  destruct op; unfold runOp; unfold_cart; intros H;
    destruct (isValid u); simpl in *; repeat case_match; simplify_eq;
    split; try done; symmetry; by apply dec_stable.
Qed.

(** X10. After a successful mutation, on a catalog with unique ids, view
    returns the whole stored cart: no line is filtered out and the total it
    reports is the stored totalAmount. *)
Theorem view_after_mutation_shows_the_stored_cart isValid u auth op db db' :
  uniqueIds (products db) → isMutation op = true →
  runOp isValid u auth op db = (db', inr tt) →
  ∃ i c,
    CartService.findOneCart db' u = Some (i, c) ∧
    CartService.getUserCart isValid u u db'
    = (db', inr (CartService.populate (products db') c)).
Proof.
  intros Huniq Hm Hrun.
  destruct (runOp_inr_valid _ _ _ _ _ _ Hrun) as [Hu _].
  destruct (mutation_inr _ _ _ _ _ _ Hm Hrun) as (items & tot & i & c & Hpre & Hp & Hf).
  exists i, c. split; [done|].
  rewrite (getUserCart_found _ _ _ _ _ Hu Hf).
  pose proof (preSave_cartPriced _ _ _ Hpre) as [Hpriced Htotal].
  apply preSave_inr in Hpre as (_ & Hu' & _).
  rewrite List_filter_all.
  - unfold CartService.populate. do 3 f_equal.
    rewrite fold_left_add_acc, Htotal.
    clear. induction (Cart.items c) as [|x l IH]; [done|].
    rewrite fmap_cons. simpl. simpl in IH. lia.
  - apply Forall_fmap. eapply Forall_impl; [exact Hpriced|].
    intros item Hi. simpl. rewrite Hp. by apply linePriced_available.
Qed.

Lemma view_after_mutation_shows_the_stored_cart_witness :
  ∃ i c,
    CartService.findOneCart shopTwoPens u1 = Some (i, c) ∧
    CartService.getUserCart isObjectIdString u1 u1 shopTwoPens
    = (shopTwoPens, inr (CartService.populate (products shopTwoPens) c)).
Proof.
  apply (view_after_mutation_shows_the_stored_cart isObjectIdString u1 u1
           (AddItem p1 (JsInt 2)) shop).
  - unfold uniqueIds. apply (bool_decide_unpack _). vm_compute. exact I.
  - reflexivity.
  - vm_compute. reflexivity.
Defined.

(** * More properties of the order service *)

(** ** updateOrderStatus and deleteOrder *)

Lemma findOneAndUpdate_None (filter : Order.t → Prop) `{!∀ o, Decision (filter o)}
    update db :
  list_find filter (orders db) = None →
  OrderModel.findOneAndUpdate filter update db = (db, inr None).
Proof. intros Hf. unfold OrderModel.findOneAndUpdate. unfold_M. by rewrite Hf. Qed.

Lemma list_find_id_None oid (os : list Order.t) :
  list_find (λ o, Order._id o = oid) os = None ↔ oid ∉ Order._id <$> os.
Proof.
  rewrite list_find_None, Forall_forall. split.
  - intros H (o & -> & Ho)%list_elem_of_fmap. by apply (H o).
  - intros H o Ho <-. apply H. by apply list_elem_of_fmap_2.
Qed.

Lemma updateOrderStatus_run isValid oid status db :
  isValid oid = true → status ∈ OrderModel.statuses →
  OrderService.updateOrderStatus isValid oid status db =
  match list_find (λ o, Order._id o = oid) (orders db) with
  | Some (i, o) =>
    (setOrders (<[i := OrderModel.setStatus status o]> (orders db)) db,
     inr (OrderModel.setStatus status o))
  | None => (db, inl (NotFoundError "Order not found"))
  end.
Proof.
  intros Hv Hs. unfold OrderService.updateOrderStatus. rewrite Hv. simpl.
  rewrite decide_False by (by intros ?).
  unfold mbind, M_bind.
  destruct (list_find _ _) as [[i o]|] eqn:Hf.
  - by rewrite (findOneAndUpdate_Some _ _ _ _ _ Hf).
  - by rewrite (findOneAndUpdate_None _ _ _ Hf).
Qed.

Lemma deleteOrder_run isValid oid db :
  isValid oid = true →
  OrderService.deleteOrder isValid oid db =
  match list_find (λ o, Order._id o = oid) (orders db) with
  | Some (i, o) =>
    (setOrders (<[i := OrderModel.setIsDeleted true o]> (orders db)) db,
     inr (OrderModel.setIsDeleted true o))
  | None => (db, inl (NotFoundError "Order not found"))
  end.
Proof.
  intros Hv. unfold OrderService.deleteOrder. rewrite Hv. simpl.
  unfold mbind, M_bind.
  destruct (list_find _ _) as [[i o]|] eqn:Hf.
  - by rewrite (findOneAndUpdate_Some _ _ _ _ _ Hf).
  - by rewrite (findOneAndUpdate_None _ _ _ Hf).
Qed.

(** One document of a list is replaced: the others are as they were. *)
Lemma Forall2_insert_one {A} (R : A → A → Prop) (l : list A) i x y :
  (∀ a, R a a) → l !! i = Some x → R x y → Forall2 R l (<[i := y]> l).
Proof.
  intros Hrefl Hi Hxy. apply Forall2_same_length_lookup_2.
  - by rewrite length_insert.
  - intros j a b Ha Hb. destruct (decide (j = i)) as [->|Hne].
    + rewrite list_lookup_insert_eq in Hb by (by eapply lookup_lt_Some).
      by simplify_eq.
    + rewrite list_lookup_insert_ne in Hb by done. by simplify_eq.
Qed.

(** X11. updateOrderStatus writes nothing but the status of the order with
    the given id, soft-deleted or not: the catalog, the carts and the users
    are untouched, every other order and every other field of that order
    are as before.  It returns only for a valid id and one of the four
    statuses of the schema; it fails, writing nothing, with BadRequest for an
    invalid id or another status and with NotFound when no order has the
    id. *)
Theorem updateOrderStatus_changes_one_status isValid oid status db :
  let db' := (OrderService.updateOrderStatus isValid oid status db).1 in
  products db' = products db ∧ carts db' = carts db ∧ users db' = users db ∧
  Forall2 (λ o o', o' = o ∨ Order._id o = oid ∧ o' = OrderModel.setStatus status o)
    (orders db) (orders db') ∧
  match (OrderService.updateOrderStatus isValid oid status db).2 with
  | inr o' =>
    isValid oid = true ∧ status ∈ OrderModel.statuses ∧
    o' ∈ orders db' ∧ Order._id o' = oid ∧ Order.status o' = status
  | inl e =>
    db' = db ∧
    (e = BadRequestError "Invalid order ID" ∧ isValid oid = false ∨
     e = BadRequestError "Invalid order status" ∧ status ∉ OrderModel.statuses ∨
     e = NotFoundError "Order not found" ∧ (oid ∉ Order._id <$> orders db))
  end.
Proof.
  destruct (isValid oid) eqn:Hv.
  2:{ unfold OrderService.updateOrderStatus. rewrite Hv. simpl.
      split_and!; try done; [|by left]. apply Forall2_same_length_lookup_2; [done|].
      intros; simplify_eq; by left. }
  destruct (decide (status ∈ OrderModel.statuses)) as [Hs|Hs].
  2:{ unfold OrderService.updateOrderStatus. rewrite Hv. simpl.
      rewrite decide_True by done. simpl.
      split_and!; try done; [|by right; left]. apply Forall2_same_length_lookup_2; [done|].
      intros; simplify_eq; by left. }
  rewrite (updateOrderStatus_run _ _ _ _ Hv Hs).
  destruct (list_find _ _) as [[i o]|] eqn:Hf; simpl.
  - apply list_find_Some in Hf as (Hi & Hid & _).
    split_and!; try done.
    + eapply Forall2_insert_one; [by left|done|by right].
    + apply list_elem_of_lookup. exists i.
      apply list_lookup_insert_eq. by eapply lookup_lt_Some.
  - split_and!; try done.
    + apply Forall2_same_length_lookup_2; [done|]. intros; simplify_eq; by left.
    + right; right. split; [done|]. by apply list_find_id_None.
Qed.

Lemma createOrder_inl isValid sellerIdOf sendEmail id u items s b pm db db' e :
  OrderService.createOrder isValid sellerIdOf sendEmail id u items s b pm db
  = (db', inl e) → db' = db.
Proof.
  unfold OrderService.createOrder, withTransaction. unfold_M.
  repeat case_match; by intros [= <- _].
Qed.

(** X12. The order service keeps the stored statuses inside the schema's
    enumerations: when every stored order has a status among pending,
    shipped, delivered, cancelled and a payment status among pending,
    completed, failed, this still holds after updateOrderStatus, deleteOrder
    and createOrder, whatever their arguments and whether they fail or
    return. *)
Theorem order_service_keeps_statuses_in_enum isValid sellerIdOf sendEmail db :
  statusesInEnum db →
  (∀ oid status,
     statusesInEnum (OrderService.updateOrderStatus isValid oid status db).1) ∧
  (∀ oid, statusesInEnum (OrderService.deleteOrder isValid oid db).1) ∧
  (∀ id u items s b pm,
     statusesInEnum
       (OrderService.createOrder isValid sellerIdOf sendEmail id u items s b pm db).1).
Proof.
  intros Hdb. split_and!.
  - intros oid status. destruct (isValid oid) eqn:Hv.
    2:{ unfold OrderService.updateOrderStatus. by rewrite Hv. }
    destruct (decide (status ∈ OrderModel.statuses)) as [Hs|Hs].
    2:{ unfold OrderService.updateOrderStatus. rewrite Hv. simpl.
        by rewrite decide_True by done. }
    rewrite (updateOrderStatus_run _ _ _ _ Hv Hs).
    destruct (list_find _ _) as [[i o]|] eqn:Hf; [|done].
    apply list_find_Some in Hf as (Hi & _ & _).
    unfold statusesInEnum in *. simpl. apply Forall_insert; [done|].
    simpl. split; [done|].
    by eapply (Forall_lookup_1 _ _ _ _ Hdb Hi).
  - intros oid. destruct (isValid oid) eqn:Hv.
    2:{ unfold OrderService.deleteOrder. by rewrite Hv. }
    rewrite (deleteOrder_run _ _ _ Hv).
    destruct (list_find _ _) as [[i o]|] eqn:Hf; [|done].
    apply list_find_Some in Hf as (Hi & _ & _).
    unfold statusesInEnum in *. simpl. apply Forall_insert; [done|].
    apply (Forall_lookup_1 _ _ _ _ Hdb Hi).
  - intros id u items s b pm.
    destruct (OrderService.createOrder _ _ _ _ _ _ _ _ _ db) as [db' [e|o']] eqn:Hc; simpl.
    + by apply createOrder_inl in Hc as ->.
    + apply createOrder_inr in Hc as (total & lines & _ & _ & Hs).
      apply order_save_inr in Hs as (_ & Hpre & _ & ->).
      apply order_preSave_inr in Hpre. subst o'.
      unfold statusesInEnum in *. simpl. apply Forall_app. split; [done|].
      apply Forall_singleton. simpl. split; apply list_elem_of_here.
Qed.

Lemma order_service_keeps_statuses_in_enum_witness :
  statusesInEnum shopFourOrders ∧
  statusesInEnum (OrderService.updateOrderStatus isObjectIdString o2 "shipped"
                    shopFourOrders).1 ∧
  statusesInEnum (OrderService.deleteOrder isObjectIdString o3 shopFourOrders).1.
Proof.
  assert (statusesInEnum shopFourOrders) as H.
  { unfold statusesInEnum. apply (bool_decide_unpack _). vm_compute. exact I. }
  split; [exact H|].
  pose proof (order_service_keeps_statuses_in_enum isObjectIdString
                OrderService.declaredSeller mailUp shopFourOrders H) as (Hu & Hd & _).
  split; [apply Hu|apply Hd].
Defined.

(** Under unique ids an order is found by its id at one place only. *)
Lemma unique_order db i j o x :
  uniqueOrderIds db → orders db !! i = Some o → orders db !! j = Some x →
  Order._id x = Order._id o → j = i.
Proof.
  intros Hu Hi Hj Hid. eapply NoDup_lookup; [exact Hu| |].
  - rewrite list_lookup_fmap, Hj. simpl. by rewrite Hid.
  - by rewrite list_lookup_fmap, Hi.
Qed.

Lemma setIsDeleted_twice b o :
  OrderModel.setIsDeleted b (OrderModel.setIsDeleted b o) = OrderModel.setIsDeleted b o.
Proof. done. Qed.

Lemma getUserOrders_listed isValid u page limit db db' vs :
  OrderService.getUserOrders isValid u page limit db = (db', inr vs) →
  db' = db ∧
  Forall (λ v, ∃ o, o ∈ userOrders db u ∧ v = OrderService.populate db o) vs.
Proof.
  unfold OrderService.getUserOrders. unfold_M.
  destruct (negb _); [done|]. destruct (decide (_ < 0)); [done|].
  intros [= <- <-]. split; [done|]. apply Forall_fmap, Forall_forall. intros o Ho.
  exists o. split; [|done]. unfold userOrders.
  eapply subseteq_drop. destruct (decide (limit = 0)); [done|].
  by eapply subseteq_take.
Qed.

(** X13. deleteOrder is a soft delete: the order stays in the collection
    with every field but the flag as it was; from then on getOrderDetails
    answers NotFound for it to every user, no page of getUserOrders lists
    it, and deleting it again returns the same order and changes nothing. *)
Theorem deleteOrder_hides_the_order isValid oid db i o :
  uniqueOrderIds db → isValid oid = true →
  list_find (λ o, Order._id o = oid) (orders db) = Some (i, o) →
  let db' := setOrders (<[i := OrderModel.setIsDeleted true o]> (orders db)) db in
  OrderService.deleteOrder isValid oid db = (db', inr (OrderModel.setIsDeleted true o)) ∧
  frozenOrder <$> orders db' = frozenOrder <$> orders db ∧
  (∀ u, isValid u = true →
     OrderService.getOrderDetails isValid u oid db'
     = (db', inl (NotFoundError "Order not found"))) ∧
  (∀ u page limit vs,
     (OrderService.getUserOrders isValid u page limit db').2 = inr vs →
     Forall (λ v, OrderView._id v ≠ oid) vs) ∧
  OrderService.deleteOrder isValid oid db' = (db', inr (OrderModel.setIsDeleted true o)).
Proof.
  intros Hu Hv Hf db'.
  pose proof Hf as (Hi & Hid & _)%list_find_Some.
  assert (∀ x, x ∈ orders db' → Order._id x = oid → Order.isDeleted x = true) as Hdel.
  { intros x (j & Hj)%list_elem_of_lookup Hx. subst db'. simpl in Hj.
    destruct (decide (j = i)) as [->|Hne].
    - rewrite list_lookup_insert_eq in Hj by (by eapply lookup_lt_Some). by simplify_eq.
    - rewrite list_lookup_insert_ne in Hj by done.
      destruct Hne. eapply unique_order; [done..|]. by rewrite Hx. }
  split_and!.
  - by rewrite (deleteOrder_run _ _ _ Hv), Hf.
  - subst db'. simpl. rewrite list_fmap_insert. apply list_insert_id.
    by rewrite list_lookup_fmap, Hi.
  - intros u Hvu. unfold OrderService.getOrderDetails. unfold_M. rewrite Hvu, Hv. simpl.
    destruct (list_find _ (<[_ := _]> _)) as [[j x]|] eqn:Hx; [|done].
    apply list_find_Some in Hx as (Hj & (Hxid & _ & Hxd) & _).
    rewrite (Hdel x) in Hxd; [done| |done]. by eapply list_elem_of_lookup_2.
  - intros u page limit vs Hr.
    destruct (OrderService.getUserOrders _ _ _ _ _) as [db1 r] eqn:Hg. simpl in Hr.
    subst r. apply getUserOrders_listed in Hg as [_ Hall].
    eapply Forall_impl; [exact Hall|]. intros v (x & Hx & ->) Hxid. simpl in Hxid.
    unfold userOrders in Hx. apply list_elem_of_filter in Hx as [[_ Hxd] Hx].
    by rewrite (Hdel x Hx Hxid) in Hxd.
  - rewrite (deleteOrder_run _ _ _ Hv). subst db'. simpl.
    erewrite list_find_update; [|exact Hf|done].
    by rewrite list_insert_insert_eq.
Qed.

Lemma deleteOrder_hides_the_order_witness :
  OrderService.getOrderDetails isObjectIdString u1 o3
    (OrderService.deleteOrder isObjectIdString o3 shopFourOrders).1
  = ((OrderService.deleteOrder isObjectIdString o3 shopFourOrders).1,
     inl (NotFoundError "Order not found")).
Proof.
  assert (uniqueOrderIds shopFourOrders) as Hu.
  { apply (bool_decide_unpack _). vm_compute. exact I. }
  assert (list_find (λ o, Order._id o = o3) (orders shopFourOrders)
          = Some (2%nat, orderOf o3 u1 3)) as Hf by reflexivity.
  pose proof (deleteOrder_hides_the_order isObjectIdString o3 shopFourOrders _ _
                Hu eq_refl Hf) as (Hd & _ & Hg & _).
  rewrite Hd. simpl. by apply Hg.
Defined.

(** ** Reading orders *)

(** X14. getOrderDetails hands an order out to its owner only: with unique
    order ids, the order with the given id is returned when it belongs to
    the asking user and is not soft-deleted; an order of another user, a
    soft-deleted order and an unknown id are all answered with the same
    NotFound.  Nothing is written. *)
Theorem getOrderDetails_only_for_the_owner isValid u oid db :
  uniqueOrderIds db → isValid u = true → isValid oid = true →
  (∀ o, o ∈ orders db → Order._id o = oid →
     OrderService.getOrderDetails isValid u oid db =
     (db, if decide (Order.userId o = u ∧ Order.isDeleted o = false)
          then inr (OrderService.populate db o)
          else inl (NotFoundError "Order not found"))) ∧
  ((oid ∉ Order._id <$> orders db) →
     OrderService.getOrderDetails isValid u oid db
     = (db, inl (NotFoundError "Order not found"))).
Proof.
  intros Huniq Hu Hv.
  assert (∀ o j x, o ∈ orders db → Order._id o = oid →
            list_find (λ o, Order._id o = oid ∧ Order.userId o = u ∧
                            Order.isDeleted o = false) (orders db) = Some (j, x) →
            x = o) as Hsame.
  { intros o j x (i & Hi)%list_elem_of_lookup Hid (Hj & (Hxid & _) & _)%list_find_Some.
    assert (j = i) as -> by (eapply unique_order; [done..|congruence]).
    congruence. }
  split.
  - intros o Ho Hid. unfold OrderService.getOrderDetails. unfold_M.
    rewrite Hu, Hv. simpl.
    destruct (list_find _ _) as [[j x]|] eqn:Hx.
    + pose proof (Hsame _ _ _ Ho Hid eq_refl) as ->.
      apply list_find_Some in Hx as (_ & (_ & ? & ?) & _).
      by rewrite decide_True.
    + rewrite decide_False; [done|]. intros [? ?].
      rewrite list_find_None, Forall_forall in Hx. by apply (Hx o Ho).
  - intros Hno. unfold OrderService.getOrderDetails. unfold_M.
    rewrite Hu, Hv. simpl.
    destruct (list_find _ _) as [[j x]|] eqn:Hx; [|done].
    apply list_find_Some in Hx as (Hj & (Hxid & _) & _).
    destruct Hno. rewrite <- Hxid. apply list_elem_of_fmap_2.
    by eapply list_elem_of_lookup_2.
Qed.

Lemma getOrderDetails_only_for_the_owner_witness :
  OrderService.getOrderDetails isObjectIdString u1 o2 shopFourOrders
  = (shopFourOrders, inl (NotFoundError "Order not found")).
Proof.
  assert (uniqueOrderIds shopFourOrders) as Hu.
  { apply (bool_decide_unpack _). vm_compute. exact I. }
  pose proof (getOrderDetails_only_for_the_owner isObjectIdString u1 o2 shopFourOrders
                Hu eq_refl eq_refl) as [H _].
  apply (H (orderOf o2 u2 2)); [|reflexivity].
  apply list_elem_of_lookup. by exists 1%nat.
Defined.

(** X15. getUserOrders pages through the user's orders that are not
    soft-deleted, in the order of the collection: for a page number and a
    limit of at least 1 it returns, writes nothing, and the page holds at
    most [limit] orders, all of the asking user; the first [n] pages put one
    after the other are the first [n * limit] of those orders, so paging
    neither skips nor repeats an order. *)
Theorem getUserOrders_pages_partition isValid u limit db :
  isValid u = true → 1 ≤ limit →
  (∀ page, 1 ≤ page →
     ∃ vs, OrderService.getUserOrders isValid u page limit db = (db, inr vs) ∧
           (length vs ≤ Z.to_nat limit)%nat ∧
           Forall (λ v, OrderView.userId v = u) vs) ∧
  (∀ n : nat,
     concat ((λ k : nat, pageOf isValid db u (Z.of_nat k + 1) limit) <$> seq 0 n)
     = OrderService.populate db <$> take (n * Z.to_nat limit) (userOrders db u)).
Proof.
  intros Hu Hl. split.
  - intros page Hp. eexists. split; [by apply getUserOrders_page|]. split.
    + rewrite length_fmap, length_take. lia.
    + apply Forall_fmap, Forall_forall. intros o Ho. simpl.
      assert (o ∈ userOrders db u) as [[? _] _]%list_elem_of_filter; [|done].
      eapply subseteq_drop. by eapply subseteq_take.
  - induction n as [|n IH]; [done|].
    rewrite seq_S, fmap_app, concat_app, IH. simpl. rewrite app_nil_r.
    unfold pageOf at 1. rewrite getUserOrders_page by (done || lia). simpl.
    replace (Z.to_nat (Z.of_nat n + 1 - 1)) with n by lia.
    rewrite <- fmap_app, take_take_drop. f_equal. f_equal. lia.
Qed.

Lemma getUserOrders_pages_partition_witness :
  concat ((λ k : nat, pageOf isObjectIdString shopFourOrders u1 (Z.of_nat k + 1) 2)
            <$> seq 0 2)
  = OrderService.populate shopFourOrders <$>
      take (2 * Z.to_nat 2) (userOrders shopFourOrders u1).
Proof.
  assert (1 ≤ 2) as Hl by lia.
  pose proof (getUserOrders_pages_partition isObjectIdString u1 2 shopFourOrders
                eq_refl Hl) as [_ H].
  apply (H 2%nat).
Defined.

(** ** createOrder *)

Lemma collect_refused isValid sellerIdOf db items total details :
  Exists (lineRefused isValid db) items →
  ∃ e, OrderService.collect isValid sellerIdOf db items total details = inl e.
Proof.
  intros Hex. revert total details.
  induction Hex as [item rest Hbad|item rest Hex IH]; intros total details; simpl.
  - destruct (isValid _) eqn:Hv; simpl; [|by eexists].
    destruct (OrderService.invalidQuantity _) eqn:Hq; [by eexists|].
    destruct (findProductById db _) as [p|] eqn:Hp; [|by eexists].
    destruct Hbad as [?|[?|?]]; congruence.
  - repeat case_match; try by eexists. apply IH.
Qed.

(** X16. createOrder is all or nothing.  When it throws, whatever the
    reason, the database is as before.  When it returns, one order has been
    appended and nothing else has changed; the order carries the given id and
    user, status and payment status pending, one line per requested line, and
    no requested line was refused: one line with an invalid product id, a
    quantity that is not an integer of at least 1, or an unknown product
    fails the whole order. *)
Theorem createOrder_is_all_or_nothing isValid sellerIdOf sendEmail id u items s b pm db :
  let call := OrderService.createOrder isValid sellerIdOf sendEmail id u items s b pm db in
  match call.2 with
  | inl e => call.1 = db
  | inr o =>
    products call.1 = products db ∧ carts call.1 = carts db ∧ users call.1 = users db ∧
    orders call.1 = orders db ++ [o] ∧
    (id ∉ Order._id <$> orders db) ∧
    Order._id o = id ∧ Order.userId o = u ∧
    Order.status o = "pending" ∧ Order.paymentStatus o = "pending" ∧
    Order.isDeleted o = false ∧
    length (Order.products o) = length items ∧ items ≠ [] ∧
    Forall (λ item, ¬ lineRefused isValid db item) items
  end.
Proof.
  intros call. subst call.
  destruct (OrderService.createOrder _ _ _ _ _ _ _ _ _ db) as [db' [e|o']] eqn:Hc; simpl.
  - by apply createOrder_inl in Hc.
  - assert (items ≠ []) as Hne.
    { intros ->. revert Hc. unfold OrderService.createOrder. unfold_M.
      by destruct (negb _). }
    apply createOrder_inr in Hc as (total & lines & _ & Hcol & Hs).
    apply order_save_inr in Hs as (_ & Hpre & Hfresh & ->).
    apply order_preSave_inr in Hpre. subst o'. simpl in *.
    split_and!; try done.
    + apply collect_inr in Hcol as (new & -> & _ & Hall). simpl.
      symmetry. by eapply Forall2_length.
    + apply Forall_Exists_neg. intros Hex.
      destruct (collect_refused isValid sellerIdOf db items 0 [] Hex) as [e He].
      congruence.
Qed.

(** ** verifyPayment: what it can touch *)



(** A request without any of the three fields, on the four orders of the
    example, none of which has a Razorpay order id: the first of them is
    marked failed. *)
Lemma verifyPayment_without_the_fields :
  (PaymentController.verifyPayment toyHmac "secret" mailUp None None None
     shopFourOrders).2 = inr (400, "Payment verification failed") ∧
  orders (PaymentController.verifyPayment toyHmac "secret" mailUp None None None
            shopFourOrders).1 !! 0%nat
  = Some (OrderModel.setStatus "failed"
            (OrderModel.setPaymentStatus "failed" (orderOf o1 u1 1))).
Proof. split; vm_compute; reflexivity. Qed.

(** ** The status method of the model and the two services *)

Lemma order_setStatus_valid st o :
  OrderModel.valid o → st ∈ OrderModel.statuses →
  OrderModel.valid (OrderModel.setStatus st o).
Proof. intros (? & ? & ? & ? & ?) ?. by split_and!. Qed.

Lemma saveExisting_inr i o db db' o' :
  OrderModel.saveExisting i o db = (db', inr o') →
  OrderModel.valid o ∧ OrderModel.preSave o = inr o' ∧
  db' = setOrders (<[i := o']> (orders db)) db.
Proof.
  unfold OrderModel.saveExisting, OrderModel.validate. unfold_M.
  destruct (decide (OrderModel.valid o)); [|done].
  destruct (OrderModel.preSave o) as [e|o1]; [done|]. by intros [= <- <-].
Qed.

Lemma saveExisting_inl i o db db' e :
  OrderModel.saveExisting i o db = (db', inl e) → db' = db ∧ status e = None.
Proof.
  unfold OrderModel.saveExisting, OrderModel.validate, OrderModel.preSave. unfold_M.
  repeat case_match; intros [= <- <-]; simplify_eq; done.
Qed.

Lemma preSave_setStatus st o :
  OrderModel.preSave o = inr o →
  OrderModel.preSave (OrderModel.setStatus st o) = inr (OrderModel.setStatus st o).
Proof.
  destruct o. unfold OrderModel.preSave, OrderModel.setStatus. simpl.
  repeat case_match; try done. intros [= Ho]. by rewrite Ho.
Qed.

(** X19. On an order as a save has stored it (valid, its total the sum of
    its lines, both addresses complete), the status method of the model and
    updateOrderStatus of the order service do the same for a status of the
    schema: same database, same order returned.  For any other status both
    refuse and write nothing, the method with an Error without status, the
    service with BadRequest. *)
Theorem updateStatus_agrees_with_the_service isValid db i o st :
  list_find (λ x, Order._id x = Order._id o) (orders db) = Some (i, o) →
  isValid (Order._id o) = true →
  OrderModel.valid o → OrderModel.preSave o = inr o →
  (st ∈ OrderModel.statuses →
     OrderModel.updateStatus i o st db
     = OrderService.updateOrderStatus isValid (Order._id o) st db ∧
     OrderModel.updateStatus i o st db
     = (setOrders (<[i := OrderModel.setStatus st o]> (orders db)) db,
        inr (OrderModel.setStatus st o))) ∧
  (st ∉ OrderModel.statuses →
     OrderModel.updateStatus i o st db = (db, inl (Error "Invalid order status")) ∧
     OrderService.updateOrderStatus isValid (Order._id o) st db
     = (db, inl (BadRequestError "Invalid order status"))).
Proof.
  intros Hf Hv Hvalid Hpre. split; intros Hst.
  - rewrite (updateOrderStatus_run _ _ _ _ Hv Hst), Hf.
    assert (OrderModel.updateStatus i o st db
            = (setOrders (<[i := OrderModel.setStatus st o]> (orders db)) db,
               inr (OrderModel.setStatus st o))) as ->; [|done].
    unfold OrderModel.updateStatus. rewrite decide_True by done.
    unfold OrderModel.saveExisting, OrderModel.validate. unfold_M.
    rewrite decide_True by (by apply order_setStatus_valid).
    by rewrite (preSave_setStatus _ _ Hpre).
  - split.
    + unfold OrderModel.updateStatus. by rewrite decide_False.
    + unfold OrderService.updateOrderStatus. rewrite Hv. simpl. by rewrite decide_True.
Qed.

Lemma updateStatus_agrees_with_the_service_witness :
  OrderModel.updateStatus 1 orderAddressed "delivered" shopAddressedOrder
  = OrderService.updateOrderStatus isObjectIdString o2 "delivered" shopAddressedOrder ∧
  (OrderModel.updateStatus 1 orderAddressed "delivered" shopAddressedOrder).2
  = inr (OrderModel.setStatus "delivered" orderAddressed).
Proof.
  assert (OrderModel.valid orderAddressed) as Hvalid.
  { apply (bool_decide_unpack _). vm_compute. exact I. }
  pose proof (updateStatus_agrees_with_the_service isObjectIdString shopAddressedOrder
                1 orderAddressed "delivered" eq_refl eq_refl Hvalid eq_refl)
    as [H _].
  destruct H as [H1 H2].
  { do 2 apply list_elem_of_further. apply list_elem_of_here. }
  split; [exact H1|]. by rewrite H2.
Defined.

(** ** Orders without addresses *)

Lemma order_preSave_lacksAddress o :
  lacksAddress o = true → ∃ m, OrderModel.preSave o = inl (Error m).
Proof.
  unfold lacksAddress, OrderModel.preSave, OrderModel.hasKeys. simpl.
  destruct (OrderModel.incomplete (Order.shippingAddress o)); simpl; [by eexists|].
  intros ->. by eexists.
Qed.

Lemma order_saveExisting_lacksAddress i o db :
  lacksAddress o = true → ∃ m, OrderModel.saveExisting i o db = (db, inl (Error m)).
Proof.
  intros [m Hm]%order_preSave_lacksAddress.
  unfold OrderModel.saveExisting, OrderModel.validate. unfold_M.
  destruct (decide (OrderModel.valid o)); [|by eexists].
  rewrite Hm. by eexists.
Qed.

(** X17. An order that lacks the street, the city or the country of its
    shipping or of its billing address, an order without addresses among
    them, cannot be saved: save, the status method of the model and the
    seller's updateOrderStatus refuse it with an Error without status and
    write nothing, and createOrder never returns for a request without both
    addresses, whatever the seller lookup yields.  updateOrderStatus of the
    order service, which does not save, changes the status of such an order
    all the same. *)
Theorem order_without_addresses_is_never_saved isValid castMsg o db :
  lacksAddress o = true →
  (∃ m, OrderModel.save o db = (db, inl (Error m))) ∧
  (∀ i st, ∃ m, OrderModel.updateStatus i o st db = (db, inl (Error m))) ∧
  (∀ i st seller,
     list_find (λ x, Order._id x = Order._id o ∧ SellerService.sells seller x) (orders db)
     = Some (i, o) →
     ∃ m, SellerService.updateOrderStatus isValid castMsg (Order._id o) st seller db
          = (db, inl (Error m))) ∧
  (∀ sellerIdOf sendEmail id items pm,
     ∃ e, OrderService.createOrder isValid sellerIdOf sendEmail id (Order.userId o) items
            (Some (Order.shippingAddress o)) (Some (Order.billingAddress o)) pm db
          = (db, inl e)) ∧
  (∀ i st,
     isValid (Order._id o) = true → st ∈ OrderModel.statuses →
     list_find (λ x, Order._id x = Order._id o) (orders db) = Some (i, o) →
     OrderService.updateOrderStatus isValid (Order._id o) st db
     = (setOrders (<[i := OrderModel.setStatus st o]> (orders db)) db,
        inr (OrderModel.setStatus st o))).
Proof.
  intros Hlacks. split_and!.
  - destruct (order_preSave_lacksAddress o Hlacks) as [m Hm].
    unfold OrderModel.save, OrderModel.validate. unfold_M.
    destruct (decide (OrderModel.valid o)); [|by eexists].
    rewrite Hm. by eexists.
  - intros i st. unfold OrderModel.updateStatus.
    destruct (decide (st ∈ OrderModel.statuses)); [|by eexists].
    by apply order_saveExisting_lacksAddress.
  - intros i st seller Hf.
    unfold SellerService.updateOrderStatus, SellerService.rethrowPlain.
    destruct (isValid (Order._id o)); simpl; [|by eexists].
    destruct (isValid seller); simpl; [|by eexists].
    unfold mbind, M_bind, get. cbn beta iota. rewrite Hf.
    destruct (order_saveExisting_lacksAddress i (OrderModel.setStatus st o) db Hlacks)
      as [m ->].
    by eexists.
  - intros sellerIdOf sendEmail id items pm.
    destruct (OrderService.createOrder _ _ _ _ _ _ _ _ _ db) as [db' [e|o']] eqn:Hc.
    + apply createOrder_inl in Hc as ->. by eexists.
    + exfalso. apply createOrder_inr in Hc as (total & lines & _ & _ & Hs).
      apply order_save_inr in Hs as (_ & Hpre & _). simpl in Hpre.
      destruct (order_preSave_lacksAddress
                  (Order.mk id (Order.userId o) lines (Order.shippingAddress o)
                     (Order.billingAddress o) (default "razorpay" pm) None total
                     "pending" "pending" false) Hlacks) as [m Hm].
      congruence.
  - intros i st Hv Hst Hf. by rewrite (updateOrderStatus_run _ _ _ _ Hv Hst), Hf.
Qed.

Lemma order_without_addresses_is_never_saved_witness :
  (∃ m, SellerService.updateOrderStatus isObjectIdString (λ _ _, "CastError") o2
          "shipped" s1 shopFourOrders = (shopFourOrders, inl (Error m))) ∧
  (OrderService.updateOrderStatus isObjectIdString o2 "shipped" shopFourOrders).2
  = inr (OrderModel.setStatus "shipped" (orderOf o2 u2 2)).
Proof.
  pose proof (order_without_addresses_is_never_saved isObjectIdString (λ _ _, "CastError")
                (orderOf o2 u2 2) shopFourOrders eq_refl)
    as (_ & _ & Hseller & _ & Hservice).
  split.
  - apply (Hseller 1%nat). reflexivity.
  - assert ("shipped" ∈ OrderModel.statuses) as Hin
      by apply list_elem_of_further, list_elem_of_here.
    pose proof (Hservice 1%nat "shipped" eq_refl Hin eq_refl) as H.
    change (Order._id (orderOf o2 u2 2)) with o2 in H. by rewrite H.
Defined.

(** X20. The seller's updateOrderStatus changes an order only for a seller
    who has a line in it and only to a status of the schema: when it
    returns, the order with the given id had a line of the seller, the new
    status is one of the four, the stored order differs from the old one in
    the status and in the total, which is summed again from the lines, and
    nothing else is written.  Every failure leaves the database as it was
    and is an Error without status; a seller without a line in any order of
    that id is told that the order was not found. *)
Theorem seller_updateOrderStatus_outcome isValid castMsg oid st sid db :
  let call := SellerService.updateOrderStatus isValid castMsg oid st sid db in
  match call.2 with
  | inl e => call.1 = db ∧ status e = None
  | inr o' =>
    ∃ i o, orders db !! i = Some o ∧ Order._id o = oid ∧ SellerService.sells sid o ∧
           st ∈ OrderModel.statuses ∧
           OrderModel.preSave (OrderModel.setStatus st o) = inr o' ∧
           Order.status o' = st ∧ Order.products o' = Order.products o ∧
           Order.totalAmount o' = OrderModel.sumLines (Order.products o) ∧
           call.1 = setOrders (<[i := o']> (orders db)) db
  end ∧
  (isValid oid = true → isValid sid = true →
   Forall (λ o, Order._id o = oid → ¬ SellerService.sells sid o) (orders db) →
   call = (db, inl (Error "Order not found"))).
Proof.
  intros call. subst call. unfold SellerService.updateOrderStatus, SellerService.rethrowPlain.
  destruct (isValid oid) eqn:Hoid; simpl; [|done].
  destruct (isValid sid) eqn:Hsid; simpl; [|done].
  unfold mbind, M_bind, get. cbn beta iota.
  destruct (list_find _ (orders db)) as [[i o]|] eqn:Hf.
  - apply list_find_Some in Hf as (Hi & [Hid Hsells] & _).
    split.
    + destruct (OrderModel.saveExisting _ _ db) as [db' [e|o']] eqn:Hs; simpl.
      * by apply saveExisting_inl in Hs as [-> _].
      * apply saveExisting_inr in Hs as ((_ & _ & _ & _ & Hst) & Hpre & ->).
        exists i, o. split_and!; try done.
        all: apply order_preSave_inr in Hpre; by subst o'.
    + intros _ _ Hall. destruct (Forall_lookup_1 _ _ _ _ Hall Hi Hid Hsells).
  - unfold throw. simpl. done.
Qed.

(** * The controllers *)

(** ** order.controller.js *)

Lemma elem_of_order_ids oid (os : list Order.t) :
  oid ∈ Order._id <$> os ↔ ∃ i o, list_find (λ o, Order._id o = oid) os = Some (i, o).
Proof.
  split.
  - intros (o & -> & Ho)%list_elem_of_fmap.
    destruct (list_find_elem_of (λ x, Order._id x = Order._id o) os o Ho eq_refl)
      as [[i x] Hx].
    by exists i, x.
  - intros (i & o & (Hi & <- & _)%list_find_Some).
    apply list_elem_of_fmap_2. by eapply list_elem_of_lookup_2.
Qed.

(** X21. The order controller answers a status update and a deletion with
    200, 400 or 404, never with 500: 200 exactly when the id is valid, an
    order with the id is stored and, for the update, the status is one of
    the four of the schema; with any other code nothing has been written. *)
Theorem order_controller_update_and_delete_codes isValid oid st db :
  let update := OrderController.updateOrderStatus isValid oid st db in
  let delete := OrderController.deleteOrder isValid oid db in
  (∃ code body,
     update.2 = inr (code, body) ∧ code ∈ [200; 400; 404] ∧
     (code = 200 ↔ isValid oid = true ∧ st ∈ OrderModel.statuses ∧
                   oid ∈ Order._id <$> orders db) ∧
     (code ≠ 200 → update.1 = db)) ∧
  (∃ code body,
     delete.2 = inr (code, body) ∧ code ∈ [200; 400; 404] ∧
     (code = 200 ↔ isValid oid = true ∧ oid ∈ Order._id <$> orders db) ∧
     (code ≠ 200 → delete.1 = db)).
Proof.
  intros update delete. subst update delete.
  unfold OrderController.updateOrderStatus, OrderController.deleteOrder,
    OrderController.respond.
  assert (200 ∈ [200; 400; 404]) as H200 by apply list_elem_of_here.
  assert (400 ∈ [200; 400; 404]) as H400
    by apply list_elem_of_further, list_elem_of_here.
  assert (404 ∈ [200; 400; 404]) as H404
    by (do 2 apply list_elem_of_further; apply list_elem_of_here).
  split.
  - destruct (isValid oid) eqn:Hv.
    2:{ unfold OrderService.updateOrderStatus. rewrite Hv. simpl.
        eexists _, _. split_and!; [done|done| |done]. split; [done|]. by intros []. }
    destruct (decide (st ∈ OrderModel.statuses)) as [Hs|Hs].
    2:{ unfold OrderService.updateOrderStatus. rewrite Hv. simpl.
        rewrite decide_True by done. simpl.
        eexists _, _. split_and!; [done|done| |done]. split; [done|]. by intros (_ & ? & _). }
    rewrite (updateOrderStatus_run _ _ _ _ Hv Hs).
    destruct (list_find _ _) as [[i o]|] eqn:Hf; simpl.
    + eexists _, _. split_and!; [done|done| |done]. split; [|done]. intros _.
      split_and!; try done. apply elem_of_order_ids. by exists i, o.
    + eexists _, _. split_and!; [done|done| |done]. split; [done|].
      intros (_ & _ & Hin). by apply list_find_id_None in Hf.
  - destruct (isValid oid) eqn:Hv.
    2:{ unfold OrderService.deleteOrder. rewrite Hv. simpl.
        eexists _, _. split_and!; [done|done| |done]. split; [done|]. by intros []. }
    rewrite (deleteOrder_run _ _ _ Hv).
    destruct (list_find _ _) as [[i o]|] eqn:Hf; simpl.
    + eexists _, _. split_and!; [done|done| |done]. split; [|done]. intros _.
      split; [done|]. apply elem_of_order_ids. by exists i, o.
    + eexists _, _. split_and!; [done|done| |done]. split; [done|].
      intros (_ & Hin). by apply list_find_id_None in Hf.
Qed.

(** ** The order history of the user controller *)

Lemma orElse_nonzero parsed fallback :
  fallback ≠ 0 → UserController.orElse parsed fallback ≠ 0.
Proof.
  unfold UserController.orElse. destruct parsed as [z|]; [|done].
  destruct (z =? 0) eqn:Hz; [done|]. intros _. by apply Z.eqb_neq.
Qed.

(** X22. The order history is never unbounded and never another user's.
    Whatever the query parameters, getOrderHistory writes nothing and
    answers 200, 400 or 500.  With 200 the page holds at most |limit| orders,
    where a limit of 0, a missing or an unreadable one counts as 10, and
    every order on it is a stored order of the asking user that is not
    soft-deleted; 400 means an invalid user id, 500 a negative number of
    orders to skip.  Without parameters the answer is the first ten of the
    user's orders. *)
Theorem getOrderHistory_is_bounded isValid u page limit db :
  let call := UserController.getOrderHistory isValid u page limit db in
  let size := Z.abs (UserController.orElse limit 10) in
  call.1 = db ∧ 1 ≤ size ∧
  match call.2 with
  | inr (code, UserController.Orders vs) =>
    code = 200 ∧ Z.of_nat (length vs) ≤ size ∧
    Forall (λ v, ∃ o, o ∈ userOrders db u ∧ v = OrderService.populate db o) vs
  | inr (code, UserController.Failed _) =>
    code = 400 ∧ isValid u = false ∨
    code = 500 ∧ (UserController.orElse page 1 - 1) * UserController.orElse limit 10 < 0
  | _ => False
  end ∧
  (isValid u = true →
   (UserController.getOrderHistory isValid u None None db).2
   = inr (200, UserController.Orders
                 (OrderService.populate db <$> take 10 (userOrders db u)))).
Proof.
  intros call size. subst call size.
  pose proof (orElse_nonzero limit 10) as Hnz.
  unfold UserController.getOrderHistory, UserService.getUserOrders,
    OrderService.getUserOrders. unfold_M.
  split_and!.
  - repeat case_match; simplify_eq; done.
  - lia.
  - destruct (isValid u) eqn:Hu; simpl; [|by left].
    destruct (decide (_ < 0)); simpl; [by right|].
    rewrite decide_False by lia.
    split_and!; [done| |].
    + rewrite length_fmap, length_take. lia.
    + apply Forall_fmap, Forall_forall. intros o Ho. exists o. split; [|done].
      eapply subseteq_drop. by eapply subseteq_take.
  - intros ->. simpl. done.
Qed.

(** ** cart.controller.js *)

Lemma answer_codes {A} fallback (body : A → CartController.Body) (call : M A) db :
  (∀ db' e, call db = (db', inl e) →
            db' = db ∧ (status e = Some 400 ∨ status e = Some 404)) →
  ∃ code b,
    (CartController.answer fallback body call db).2 = inr (code, b) ∧
    code ∈ [200; 400; 404] ∧
    (code ≠ 200 → (CartController.answer fallback body call db).1 = db).
Proof.
  intros Herr. unfold CartController.answer, CartController.failure,
    OrderController.statusOr500.
  destruct (call db) as [db' [e|a]] eqn:Hc; simpl.
  - destruct (Herr _ _ eq_refl) as [-> [He|He]]; rewrite He; simpl;
      eexists _, _; split_and!; try done.
    + apply list_elem_of_further, list_elem_of_here.
    + do 2 apply list_elem_of_further. apply list_elem_of_here.
  - eexists _, _. split_and!; try done. apply list_elem_of_here.
Qed.

Lemma own_cart_error isValid u op db db' e :
  runOp isValid u u op db = (db', inl e) →
  db' = db ∧ (status e = Some 400 ∨ status e = Some 404).
Proof.
  intros H. split; [by eapply runOp_inl|].
  apply runOp_error_status in H as [[?|[?|?]] Hne]; auto.
  by destruct Hne.
Qed.

Lemma rejected_codes (m : string) db :
  ∃ code b,
    (mret (400, CartController.Message m) : M CartController.Response) db
    = (db, inr (code, b)) ∧ code ∈ [200; 400; 404] ∧ code ≠ 200.
Proof.
  eexists _, _. split_and!; try done. apply list_elem_of_further, list_elem_of_here.
Qed.

(** X23. The four cart controllers that change the cart hand the user of the
    token to the service as owner and as caller, so the ownership check of
    the service never fires: whatever the request and whatever the schema
    validation says, they answer 200, 400 or 404, never 403 and never 500,
    and with any code but 200 the database is as before.  Viewing, which
    takes the owner from the path, answers 200, 400 or 403, 403 only when the
    path names another user, and never writes. *)
Theorem cart_controller_codes isValid itemSchema pidSchema uidSchema u pid q param db :
  let changes := [
    CartController.addItemToCartController isValid itemSchema u pid q db;
    CartController.removeItemFromCartController isValid pidSchema u pid db;
    CartController.updateCartItemQuantityController isValid itemSchema u pid q db;
    CartController.clearCartController isValid u db ] in
  let view := CartController.getUserCartController isValid uidSchema param u db in
  Forall (λ r, ∃ code b, r.2 = inr (code, b) ∧ code ∈ [200; 400; 404] ∧
                         (code ≠ 200 → r.1 = db)) changes ∧
  view.1 = db ∧
  ∃ code b, view.2 = inr (code, b) ∧ code ∈ [200; 400; 403] ∧
            (code = 403 → param ≠ u).
Proof.
  intros changes view. subst changes view. split; [|split].
  - repeat apply Forall_cons_2; [| | | |done].
    + unfold CartController.addItemToCartController.
      destruct (itemSchema pid q) as [m|].
      { destruct (rejected_codes m db) as (c & b & -> & ? & ?). by exists c, b. }
      apply answer_codes. intros db' e H.
      apply (own_cart_error isValid u (AddItem pid q) db db' e).
      unfold runOp, mbind, M_bind. by rewrite H.
    + unfold CartController.removeItemFromCartController.
      destruct (pidSchema pid) as [m|].
      { destruct (rejected_codes m db) as (c & b & -> & ? & ?). by exists c, b. }
      apply answer_codes. intros db' e H.
      apply (own_cart_error isValid u (RemoveItem pid) db db' e).
      unfold runOp, mbind, M_bind. by rewrite H.
    + unfold CartController.updateCartItemQuantityController.
      destruct (itemSchema pid q) as [m|].
      { destruct (rejected_codes m db) as (c & b & -> & ? & ?). by exists c, b. }
      apply answer_codes. intros db' e H.
      apply (own_cart_error isValid u (UpdateQuantity pid q) db db' e).
      unfold runOp, mbind, M_bind. by rewrite H.
    + unfold CartController.clearCartController.
      apply answer_codes. intros db' e H.
      apply (own_cart_error isValid u Clear db db' e).
      unfold runOp, mbind, M_bind. by rewrite H.
  - unfold CartController.getUserCartController.
    destruct (uidSchema param); [done|]. unfold CartController.answer.
    pose proof (getUserCart_db isValid param u db) as Hdb.
    by destruct (CartService.getUserCart isValid param u db) as [db' [e|a]].
  - unfold CartController.getUserCartController.
    destruct (uidSchema param) as [m|].
    { eexists _, _. split_and!; try done.
      apply list_elem_of_further, list_elem_of_here. }
    unfold CartController.answer, CartController.failure, OrderController.statusOr500.
    unfold_cart.
    destruct (isValid param); simpl.
    2:{ eexists _, _. split_and!; try done.
        apply list_elem_of_further, list_elem_of_here. }
    destruct (decide (param ≠ u)); simpl.
    { eexists _, _. split_and!; try done.
      do 2 apply list_elem_of_further. apply list_elem_of_here. }
    repeat case_match; simplify_eq; simpl; eexists _, _; split_and!; try done;
      apply list_elem_of_here.
Qed.

(** ** The authorize middleware *)

Lemma hasAccess_all required actual :
  Authorize.hasAccess true required actual = true ↔ required ⊆ actual.
Proof.
  unfold Authorize.hasAccess, Authorize.includes. rewrite forallb_forall.
  split.
  - intros H p Hp. apply (proj1 (bool_decide_eq_true _)). apply H.
    by apply list_elem_of_In.
  - intros H p Hp. apply (proj2 (bool_decide_eq_true _)). apply H.
    by apply list_elem_of_In.
Qed.

Lemma hasAccess_some required actual :
  Authorize.hasAccess false required actual = true ↔ ∃ p, p ∈ required ∧ p ∈ actual.
Proof.
  unfold Authorize.hasAccess, Authorize.includes. rewrite existsb_exists.
  split.
  - intros (p & Hp & H). exists p. split; [by apply list_elem_of_In|].
    by apply (proj1 (bool_decide_eq_true _)) in H.
  - intros (p & Hp & H). exists p. split; [by apply list_elem_of_In|].
    by apply (proj2 (bool_decide_eq_true _)).
Qed.

(** X24. For a token that carries permissions, the authorize middleware
    lets the request pass exactly when the user id is a valid ObjectId and
    the permissions hold the wildcard or, when all are required, every
    required permission, or else one of them; otherwise it answers 401 for
    the id and 403 for the permissions.  So a list of no required permission
    is open to every valid user when all are required and closed to all but
    wildcard holders when one suffices, and a token with more permissions is
    never refused where one with fewer passes. *)
Theorem authorize_by_token_permissions isValid fallback required requireAll uid actual role :
  let user := Authorize.mkUser uid (Some actual) role in
  (Authorize.authorize isValid fallback required requireAll (Some user) = Authorize.Next
   ↔ isValid uid = true ∧ tokenGrants requireAll required actual) ∧
  (isValid uid = false → ∃ m, Authorize.authorize isValid fallback required requireAll
                                (Some user) = Authorize.Rejected 401 m) ∧
  (isValid uid = true → ¬ tokenGrants requireAll required actual →
   ∃ m, Authorize.authorize isValid fallback required requireAll (Some user)
        = Authorize.Rejected 403 m) ∧
  (∀ actual', actual ⊆ actual' → tokenGrants requireAll required actual →
              tokenGrants requireAll required actual').
Proof.
  intros user. subst user. unfold tokenGrants. simpl.
  assert (Authorize.hasAccess requireAll required actual = true ↔
          if requireAll then required ⊆ actual else ∃ p, p ∈ required ∧ p ∈ actual) as Hacc.
  { destruct requireAll; [apply hasAccess_all|apply hasAccess_some]. }
  unfold Authorize.authorize. simpl.
  split_and!.
  - destruct (isValid uid); simpl; [|by split; [|intros []]].
    destruct (Authorize.includes "*" actual) eqn:Hw; unfold Authorize.includes in Hw.
    + apply bool_decide_eq_true in Hw. split; [|done]. intros _. split; [done|by left].
    + apply bool_decide_eq_false in Hw.
      destruct (Authorize.hasAccess _ _ _) eqn:Ha; simpl.
      * split; [|done]. intros _. split; [done|]. right. by apply Hacc.
      * split; [done|]. intros [_ [?|H]]; [done|]. apply Hacc in H. congruence.
  - intros ->. simpl. by eexists.
  - intros -> Hno. simpl.
    destruct (Authorize.includes "*" actual) eqn:Hw; unfold Authorize.includes in Hw.
    { apply bool_decide_eq_true in Hw. destruct Hno. by left. }
    destruct (Authorize.hasAccess _ _ _) eqn:Ha; simpl; [|by eexists].
    destruct Hno. right. by apply Hacc.
  - intros actual' Hsub [Hw|H]; [left; by apply Hsub|]. right.
    destruct requireAll.
    + by etrans.
    + destruct H as (p & ? & ?). exists p. split; [done|by apply Hsub].
Qed.

(** * Adding a product and taking it out again *)

Lemma addItemToCart_inr_valid isValid u pid q auth db db' r :
  CartService.addItemToCart isValid u pid q auth db = (db', inr r) →
  isValid u = true ∧ isValid pid = true.
Proof.
  unfold CartService.addItemToCart.
  by destruct (isValid u), (isValid pid).
Qed.

(** Two lines for the same product, with the same name and quantity, both
    priced from the catalog, are the same line. *)
Lemma linePriced_sameLine catalog a b :
  sameLine a b → linePriced catalog a → linePriced catalog b → b = a.
Proof.
  intros (Hpid & Hname & Hq) (p & Hp & _ & Hprice & Htotal) (p' & Hp' & _ & Hprice' & Htotal').
  rewrite Hpid, Hp in Hp'. injection Hp' as <-.
  destruct a, b. simpl in *. congruence.
Qed.

Lemma Forall2_priced_same catalog items items' :
  Forall (linePriced catalog) items →
  Forall2 (λ item item', sameLine item item' ∧ linePriced catalog item') items items' →
  items' = items.
Proof.
  intros Hp Hall. induction Hall as [|a b l l' [Hs Hb] _ IH]; [done|].
  apply Forall_cons in Hp as [Ha Hl]. f_equal; [|by apply IH].
  by eapply linePriced_sameLine.
Qed.

(** Past its own checks, [removeItemFromCart] is the save of the cart
    without the line, followed by the read of the saved cart. *)
Lemma removeItem_past_checks isValid u pid db i cart k item :
  isValid u = true → isValid pid = true →
  CartService.findOneCart db u = Some (i, cart) →
  list_find (λ item, CartItem.productId item = pid) (Cart.items cart) = Some (k, item) →
  let items := delete k (Cart.items cart) in
  CartService.removeItemFromCart isValid u pid u db
  = withTransaction (keepTyped (BadRequestError "Failed to remove item from cart"))
      (c ← CartModel.save (Some i, Cart.mk (Cart.userId cart) items
                                     (CartModel.sumTotalPrice items) (Cart.isDeleted cart)) ;
       CartService.findByIdPopulated c) db.
Proof.
  intros Hu Hp Hf Hk items.
  unfold CartService.removeItemFromCart, withTransaction.
  rewrite Hu, Hp. simpl.
  rewrite decide_False by (intros Hne; by apply Hne).
  unfold mbind at 1, M_bind at 1, get at 1. rewrite Hf, Hk. done.
Qed.

(** X25. Adding a product that the cart does not hold and taking it out
    again gives the cart back: when the request spells the product id as the
    catalog prints it, the user's cart is as a save has stored it (valid,
    priced by the hook) and has no line for the product, then after an
    addItem that succeeds, removeItem for the same product succeeds too,
    returns the cart as it was and leaves the whole database exactly as it
    was before the addition. *)
Theorem addItem_then_removeItem_restores_the_cart isValid u pid q db i cart db1 r :
  spelledAsStored db pid →
  CartService.findOneCart db u = Some (i, cart) →
  CartModel.valid cart → CartModel.preSave (products db) cart = inr cart →
  lineOf cart pid = None →
  CartService.addItemToCart isValid u pid q u db = (db1, inr r) →
  CartService.removeItemFromCart isValid u pid u db1
  = (db, inr (Some (CartService.populate (products db) cart))).
Proof.
  intros _ Hf Hvalid Hfix Hnone Hadd.
  pose proof (addItemToCart_inr_valid _ _ _ _ _ _ _ _ Hadd) as [Hu Hp].
  apply addItemToCart_inr in Hadd as (qz & product & d' & -> & Hq & _ & Hlive & Hstock & Hs).
  rewrite (findOneCart_docOf _ _ _ _ Hf) in Hs. simpl in Hs.
  unfold lineOf in Hnone. unfold CartModel.mergeItem in Hs.
  destruct (list_find _ (Cart.items cart)) as [[k0 x0]|] eqn:Hk0; [done|].
  apply save_inr in Hs as (_ & c1 & Hpre1 & Hdb1 & _). simpl in Hpre1, Hdb1.
  pose proof (proj1 (list_find_Some _ _ _ _) Hf) as (Hi & [Hui Hlv] & _).
  pose proof (preSave_cartPriced _ _ _ Hfix) as [Hpriced _].
  pose proof (preSave_inr _ _ _ Hfix) as (_ & _ & _ & Htot & _).
  pose proof (preSave_inr _ _ _ Hpre1) as (_ & Hu1 & Hd1 & _ & Hall). simpl in Hu1, Hd1, Hall.
  apply Forall2_app_inv_l in Hall as (items1 & last1 & Hall1 & Hall2 & Hitems1).
  apply (Forall2_priced_same _ _ _ Hpriced) in Hall1. subst items1.
  apply Forall2_cons_inv_l in Hall2 as (x & rest & [(Hxpid & _) _] & Hnil & ->).
  apply Forall2_nil_inv_l in Hnil. subst rest. simpl in Hxpid.
  assert (CartService.findOneCart db1 u = Some (i, c1)) as Hf1.
  { rewrite Hdb1. eapply findOneCart_insert; [done|congruence|congruence]. }
  assert (list_find (λ item, CartItem.productId item = pid) (Cart.items c1)
          = Some (length (Cart.items cart), x)) as Hk1.
  { rewrite Hitems1. rewrite list_find_app_r by done. simpl.
    rewrite decide_True by done. done. }
  rewrite (removeItem_past_checks _ _ _ _ _ _ _ _ Hu Hp Hf1 Hk1).
  assert (delete (length (Cart.items cart)) (Cart.items c1) = Cart.items cart) as ->.
  { rewrite Hitems1. rewrite delete_middle. apply app_nil_r. }
  rewrite Hu1, Hd1, Hui, Hlv, <- Htot.
  replace (Cart.mk u (Cart.items cart) (Cart.totalAmount cart) false) with cart
    by (destruct cart; simpl in *; congruence).
  unfold withTransaction, CartModel.save, CartModel.validate,
    CartService.findByIdPopulated. unfold_M. simpl.
  rewrite decide_True by done.
  replace (products db1) with (products db) by (by rewrite Hdb1).
  rewrite Hfix. simpl. rewrite Hdb1. simpl.
  rewrite list_insert_insert_eq, list_insert_id by done.
  rewrite Hi. by destruct db.
Qed.

Lemma addItem_then_removeItem_restores_the_cart_witness :
  CartService.removeItemFromCart isObjectIdString u2 p1 u2
    (CartService.addItemToCart isObjectIdString u2 p1 (JsInt 3) u2 shopTwoCarts).1
  = (shopTwoCarts, inr (Some (CartService.populate (products shopTwoCarts) cartBob))).
Proof.
  assert (CartModel.valid cartBob) as Hv.
  { apply (bool_decide_unpack _). vm_compute. exact I. }
  destruct (CartService.addItemToCart isObjectIdString u2 p1 (JsInt 3) u2 shopTwoCarts)
    as [db1 r] eqn:Hadd.
  assert (∃ r', r = inr r') as [r' ->].
  { revert Hadd. vm_compute. intros [= _ <-]. by eexists. }
  assert (spelledAsStored shopTwoCarts p1) as Hp by apply list_elem_of_here.
  exact (addItem_then_removeItem_restores_the_cart isObjectIdString u2 p1 (JsInt 3)
           shopTwoCarts 1%nat cartBob db1 r' Hp eq_refl Hv eq_refl eq_refl Hadd).
Defined.
